(** * Card reconciliation tool: alerting, batch orchestration, root-cause
      prompt and the reconciliation engine's decision rules.

    The Python sources are embedded shallowly:
    - [Py]      the fragment of Python values and operations the code uses
                (dict lookup, [.get], truthiness, comparisons, f-string
                number formatting) with exceptions as an explicit sum type;
    - [Alert]   [send_reconciliation_alert] of app.py;
    - [Batch]   [scan_transaction_folders], [map_files_in_folder],
                [process_transaction_batch], [process_single_transaction]
                and the [rates_file] route of app.py;
    - [RCA]     [RootCauseAnalyzer] of root_cause_analysis.py;
    - [Engine]  the matcher and the summary aggregator of
                rate_tool_integration, which is outside the files embedded
                here and is described from the specification.

    Numbers are exact: a finite Python float is modelled by the rational
    it denotes, and NaN and the two infinities are values of their own with
    Python's rules for comparison and formatting, so a comparison against
    the threshold 95 is the comparison Python performs. An int is
    formatted through its conversion to a double, which rounds and can
    overflow. Of a call to [print] only the formatting of its arguments
    is modelled, where that can raise. *)

From Stdlib Require Import QArith Qabs Qminmax ZArith String Ascii DecimalString Lia Lqa.
From stdpp Require Import base option list gmap strings.

Set Warnings "-register-all".

Open Scope string_scope.

(* ===================================================================== *)
(** * Python values, exceptions, and the operations the code relies on   *)
(* ===================================================================== *)

Module Py.

(** [VFloat q] is the finite float that denotes the rational [q];
    [VNan], [VInf] and [VNegInf] are [float('nan')], [float('inf')] and
    [float('-inf')]. *)
Inductive pyval :=
  | VNone
  | VBool (b : bool)
  | VInt (n : Z)
  | VFloat (q : Q)
  | VStr (s : string)
  | VList (l : list pyval)
  | VDict (d : gmap string pyval)
  | VNan
  | VInf
  | VNegInf.

(** Subclasses of [Exception]; [str_exn] is Python's [str(e)]. *)
Inductive exn :=
  | KeyError (key : string)
  | TypeError (msg : string)
  | AttributeError (msg : string)
  | ValueError (msg : string)
  | SMTPAuthenticationError (msg : string)
  | SMTPException (msg : string)
  | OtherError (msg : string)
  | OverflowError (msg : string)
  | PermissionError (msg : string).

Definition str_exn (e : exn) : string :=
  match e with
  | KeyError k => "'" ++ k ++ "'"
  | TypeError m | AttributeError m | ValueError m
  | SMTPAuthenticationError m | SMTPException m | OtherError m
  | OverflowError m | PermissionError m => m
  end.

(** A computation either raises or returns. *)
Definition result (A : Type) : Type := exn + A.

Definition ok {A} (a : A) : result A := inr a.
Definition raise {A} (e : exn) : result A := inl e.

Definition rbind {A B} (m : result A) (k : A -> result B) : result B :=
  match m with
  | inl e => inl e
  | inr a => k a
  end.

Definition raised {A} (m : result A) : Prop :=
  match m with inl _ => True | inr _ => False end.

Definition type_name (v : pyval) : string :=
  match v with
  | VNone => "NoneType"
  | VBool _ => "bool"
  | VInt _ => "int"
  | VFloat _ => "float"
  | VStr _ => "str"
  | VList _ => "list"
  | VDict _ => "dict"
  | VNan | VInf | VNegInf => "float"
  end.

(** [v[k]] for a string key [k]. *)
Definition getitem (v : pyval) (k : string) : result pyval :=
  match v with
  | VDict d =>
      match d !! k with
      | Some x => ok x
      | None => raise (KeyError k)
      end
  | VList _ => raise (TypeError "list indices must be integers or slices, not str")
  | VStr _ => raise (TypeError "string indices must be integers, not 'str'")
  | _ => raise (TypeError ("'" ++ type_name v ++ "' object is not subscriptable"))
  end.

(** [v.get(k, dflt)]: only dicts have the method. *)
Definition get (v : pyval) (k : string) (dflt : pyval) : result pyval :=
  match v with
  | VDict d => ok (default dflt (d !! k))
  | _ => raise (AttributeError ("'" ++ type_name v ++ "' object has no attribute 'get'"))
  end.

(** [bool(v)]. *)
Definition truthy (v : pyval) : bool :=
  match v with
  | VNone => false
  | VBool b => b
  | VInt n => negb (n =? 0)%Z
  | VFloat q => negb (Qeq_bool q 0)
  | VStr s => negb (String.eqb s "")
  | VList l => match l with [] => false | _ => true end
  | VDict d => negb (size d =? 0)%nat
  | VNan | VInf | VNegInf => true
  end.

(** The rational a bool, an int or a finite float denotes in an
    arithmetic comparison. *)
Definition as_number (v : pyval) : option Q :=
  match v with
  | VBool b => Some (if b then 1 else 0)%Q
  | VInt n => Some (inject_Z n)
  | VFloat q => Some q
  | _ => None
  end.

(** The values an arithmetic comparison accepts: bools, ints and floats,
    NaN and the infinities included. *)
Definition is_number (v : pyval) : bool :=
  match v with
  | VBool _ | VInt _ | VFloat _ | VNan | VInf | VNegInf => true
  | _ => false
  end.

Definition Qltb (x y : Q) : bool := negb (Qle_bool y x).

(** [v >= n] and [v < n] against an int literal [n]. Every comparison
    with NaN is [False]. *)
Definition ge_int (v : pyval) (n : Z) : result bool :=
  match v with
  | VNan => ok false
  | VInf => ok true
  | VNegInf => ok false
  | _ =>
      match as_number v with
      | Some q => ok (Qle_bool (inject_Z n) q)
      | None => raise (TypeError ("'>=' not supported between instances of '"
                                    ++ type_name v ++ "' and 'int'"))
      end
  end.

Definition lt_int (v : pyval) (n : Z) : result bool :=
  match v with
  | VNan => ok false
  | VInf => ok false
  | VNegInf => ok true
  | _ =>
      match as_number v with
      | Some q => ok (Qltb q (inject_Z n))
      | None => raise (TypeError ("'<' not supported between instances of '"
                                    ++ type_name v ++ "' and 'int'"))
      end
  end.

(** [v == s] for a string literal [s]. *)
Definition eq_str (v : pyval) (s : string) : bool :=
  match v with
  | VStr t => String.eqb t s
  | _ => false
  end.

(** [for x in v]: the items the loop visits. *)
Definition iter (v : pyval) : result (list pyval) :=
  match v with
  | VList l => ok l
  | VDict d => ok (VStr <$> (map_to_list d).*1)
  | VStr s => ok ((fun c => VStr (String c EmptyString)) <$> list_ascii_of_string s)
  | _ => raise (TypeError ("'" ++ type_name v ++ "' object is not iterable"))
  end.

(** ** Fixed-point formatting: the format specs [.2f] and [.4f] *)

Definition decimal (n : Z) : string := NilZero.string_of_int (Z.to_int n).

Fixpoint zeros (n : nat) : string :=
  match n with
  | O => ""
  | S k => "0" ++ zeros k
  end.

Definition pad_left (width : nat) (s : string) : string :=
  zeros (width - String.length s) ++ s.

(** Nearest integer to a non-negative rational, ties to even. *)
Definition round_half_even (q : Q) : Z :=
  let n := Qnum q in
  let d := Zpos (Qden q) in
  let fl := (n / d)%Z in
  match (2 * (n mod d) ?= d)%Z with
  | Lt => fl
  | Gt => (fl + 1)%Z
  | Eq => if Z.even fl then fl else (fl + 1)%Z
  end.

Definition format_fixed (digits : nat) (q : Q) : string :=
  let scale := (10 ^ Z.of_nat digits)%Z in
  let n := round_half_even (Qabs q * inject_Z scale) in
  let sign := if Qltb q 0 then "-" else "" in
  sign ++ decimal (n / scale)
       ++ match digits with
          | O => ""
          | _ => "." ++ pad_left digits (decimal (n mod scale))
          end.

(** [float(n)] for an int [n]: the nearest double, ties to even, given
    by the integer it denotes; [None] when the conversion overflows
    (the rounded value reaches 2^1024). *)
Definition int_to_double (n : Z) : option Z :=
  let a := Z.abs n in
  if (a <? 2 ^ 53)%Z then Some n
  else
    let e := (Z.log2 a - 52)%Z in
    let m := round_half_even (a # Z.to_pos (2 ^ e)) in
    let r := (m * 2 ^ e)%Z in
    if (2 ^ 1024 <=? r)%Z then None else Some (Z.sgn n * r)%Z.

(** [f"{v:.<digits>f}"]. An int is converted to a float first, which
    raises [OverflowError] beyond the range of a double. *)
Definition format_f (digits : nat) (v : pyval) : result string :=
  match v with
  | VBool b => ok (format_fixed digits (if b then 1 else 0))
  | VInt n =>
      match int_to_double n with
      | Some z => ok (format_fixed digits (inject_Z z))
      | None => raise (OverflowError "int too large to convert to float")
      end
  | VFloat q => ok (format_fixed digits q)
  | VNan => ok "nan"
  | VInf => ok "inf"
  | VNegInf => ok "-inf"
  | VStr _ => raise (ValueError "Unknown format code 'f' for object of type 'str'")
  | _ => raise (TypeError ("unsupported format string passed to "
                             ++ type_name v ++ ".__format__"))
  end.

(** Builtins that are not re-implemented: [str(v)] (the conversion an
    f-string applies to a field without format spec) and [s.strip()]. *)
Class Builtins := {
  str : pyval -> string;
  strip : string -> string;
}.

End Py.

Import Py.

Notation "'let*' x ':=' m 'in' k" := (rbind m (fun x => k))
  (at level 10, x name, m at level 100, k at level 200).
Notation "'let*' ' p ':=' m 'in' k" := (rbind m (fun x => match x with p => k end))
  (at level 10, p pattern, m at level 100, k at level 200).

Definition nl : string := String (ascii_of_nat 10) EmptyString.

(** Joins lines the way a triple-quoted literal lays them out: every line
    is followed by a newline. *)
Fixpoint lines (ls : list string) : string :=
  match ls with
  | [] => ""
  | l :: rest => l ++ nl ++ lines rest
  end.

(* ===================================================================== *)
(** * app.py: the e-mail alert                                            *)
(* ===================================================================== *)

Module Alert.

Record email := {
  subject : string;
  sender : string;
  recipient : string;
  body : string;
}.

(** Module-level configuration read from the environment, and the SMTP
    conversation for a message ([SMTP(...)], [starttls], [login],
    [send_message] and the [quit] that ends the [with] block) seen as one
    fallible step: it returns when every stage went through and raises
    when any of them did, whether before or after the message was
    handed over. *)
Class Mail := {
  EMAIL_ENABLED : bool;
  EMAIL_SENDER : string;
  EMAIL_RECIPIENT : string;
  smtp_deliver : email -> result unit;
}.

Section alert.
Context `{Builtins} `{Mail}.

Definition rule : string :=
  "━━━━━━━━━━━━━━━━━━━━━━━━━━━━━━━━━━━━━━━━━━━━━━━".

(** [report["summary"][k]] interpolated into an f-string. *)
Definition summary_field (report : pyval) (k : string) : result string :=
  let* s := getitem report "summary" in
  let* v := getitem s k in
  ok (str v).

(** The body of the [try] block up to the [with smtplib.SMTP] statement:
    [None] when the function returns [False] without mailing, the
    message to send otherwise. The [print] of the branch that skips the
    alert formats the amount, which can raise. *)
Definition alert_message (report : pyval) (transaction_name : pyval)
  : result (option email) :=
  if negb EMAIL_ENABLED then ok None
  else
    let* s := getitem report "summary" in
    let* amount_reconciled := getitem s "amount_reconciled_percentage" in
    let* enough := ge_int amount_reconciled 95 in
    if enough then
      let* _ := format_f 2 amount_reconciled in
      ok None
    else
      let transaction_info :=
        if truthy transaction_name
        then " - " ++ str transaction_name else "" in
      let* amount2 := format_f 2 amount_reconciled in
      let subj := "⚠️ Reconciliation Alert" ++ transaction_info
                    ++ ": " ++ amount2 ++ "%" in
      let* amount4 := format_f 4 amount_reconciled in
      let* total_final := summary_field report "total_final_amount_display" in
      let* total_visa := summary_field report "total_visa_amount_display" in
      let* fee_reconciled := summary_field report "fee_reconciled_display" in
      let* matched_items := summary_field report "matched_items" in
      let* total_visa_items := summary_field report "total_visa_items" in
      let* amount_match := summary_field report "amount_match_display" in
      let* total_mappings := summary_field report "total_mappings" in
      let* sheet_count := summary_field report "sheet_count" in
      let text := nl ++ lines [
        "Reconciliation Alert - Low Match Percentage Detected" ++ transaction_info;
        "";
        "CRITICAL METRICS:";
        rule;
        "Amount Reconciled: " ++ amount4 ++ "% ⚠️ (Below 95% threshold)";
        "";
        "RECONCILIATION SUMMARY:";
        rule;
        "• Calculated Total (INR): " ++ total_final;
        "• VISA Invoice Total (INR): " ++ total_visa;
        "• Fee Reconciled: " ++ fee_reconciled;
        "• Items Reconciled: " ++ matched_items ++ "/" ++ total_visa_items;
        "• Amount Match Percentage: " ++ amount_match;
        "";
        "ADDITIONAL DETAILS:";
        rule;
        "• Total Fee Mappings: " ++ total_mappings;
        "• Sheets Analyzed: " ++ sheet_count;
        "";
        "ACTION REQUIRED:";
        rule;
        "The reconciliation percentage is below the acceptable threshold of 95%.";
        "Please review the detailed reconciliation report and investigate discrepancies.";
        "";
        "This is an automated alert from the Card Reconciliation Tool."
      ] in
      ok (Some {| subject := subj; sender := EMAIL_SENDER;
                  recipient := EMAIL_RECIPIENT; body := text |}).

(** The three [except] clauses. *)
Definition on_error (e : exn) : bool :=
  match e with
  | SMTPAuthenticationError _ => false
  | SMTPException _ => false
  | _ => false
  end.

(** Returns the messages for which the SMTP conversation was started (at
    most one) and the function's boolean result. A message in the list
    reached the server only if the conversation got as far as
    [send_message]; the boolean is [True] exactly when the whole
    conversation went through. *)
Definition send_reconciliation_alert (report : pyval) (transaction_name : pyval)
  : list email * bool :=
  match alert_message report transaction_name with
  | inl e => ([], on_error e)
  | inr None => ([], false)
  | inr (Some msg) =>
      match smtp_deliver msg with
      | inl e => ([msg], on_error e)
      | inr _ => ([msg], true)
      end
  end.

End alert.

End Alert.

(* ===================================================================== *)
(** * String helpers used by the file mapper                              *)
(* ===================================================================== *)

Module Str.

(** [needle in hay]. *)
Fixpoint contains (needle hay : string) : bool :=
  String.prefix needle hay
  || match hay with
     | EmptyString => false
     | String _ rest => contains needle rest
     end.

(** [s.endswith(suffix)]. *)
Definition endswith (s suffix : string) : bool :=
  let n := String.length s in
  let m := String.length suffix in
  (m <=? n)%nat && String.eqb (String.substring (n - m) m s) suffix.

(** [s.lower()] on the ASCII letters; other bytes are left alone. *)
Definition lower_ascii (c : ascii) : ascii :=
  let n := nat_of_ascii c in
  if ((65 <=? n) && (n <=? 90))%nat then ascii_of_nat (n + 32) else c.

Fixpoint lower (s : string) : string :=
  match s with
  | EmptyString => EmptyString
  | String c rest => String (lower_ascii c) (lower rest)
  end.

(** [sorted(xs, key=...)]: a stable insertion sort on byte order. *)
Section sorted.
Context {A : Type} (key : A -> string).

Fixpoint insert_sorted (x : A) (xs : list A) : list A :=
  match xs with
  | [] => [x]
  | y :: ys =>
      if String.ltb (key x) (key y) then x :: y :: ys
      else y :: insert_sorted x ys
  end.

Definition sorted (xs : list A) : list A :=
  fold_left (fun acc x => insert_sorted x acc) xs [].
End sorted.

End Str.

(* ===================================================================== *)
(** * app.py: batch orchestration                                         *)
(* ===================================================================== *)

Module Batch.

Import Alert.

(** The part of the disk the code looks at: a path is a regular file, a
    directory with the names [os.listdir] returns, in that order, or a
    directory whose listing raises: [PermissionError] when the process
    may not read it, [FileNotFoundError] when it is gone by the time it
    is listed. *)
Inductive node :=
  | File
  | Dir (entries : list string)
  | Unlistable (e : exn).

(** A [FileStorage] of the request; it is truthy when it has a name. *)
Record upload := { filename : string }.

(** What the orchestration calls but does not define: the engine entry
    point and the upload helper of rate_tool_integration, the disk, and
    writing a report as JSON ([open] followed by [json.dump]). *)
Class Host := {
  disk : gmap string node;
  run_rate_analysis : pyval -> result pyval;
  save_uploaded_file : option upload -> string -> result pyval;
  dump_json : string -> pyval -> result unit;
}.

Record folder_info := { name : string; path : string }.

(** The dict [map_files_in_folder] returns has six fixed keys. *)
Record file_mapping := {
  summary : option string;
  card : option string;
  international : option string;
  domestic : option string;
  dispute : option string;
  invoice : option string;
}.

Definition opt_path (p : option string) : pyval :=
  match p with
  | Some s => VStr s
  | None => VNone
  end.

Definition mapping_dict (m : file_mapping) : pyval :=
  VDict {[ "summary" := opt_path (summary m);
           "card" := opt_path (card m);
           "international" := opt_path (international m);
           "domestic" := opt_path (domestic m);
           "dispute" := opt_path (dispute m);
           "invoice" := opt_path (invoice m) ]}.

(** One element of the list [process_transaction_batch] returns. *)
Record batch_result := {
  transaction_name : string;
  status : string;
  error : option string;
  report : pyval;
  email_sent : bool;
}.

(** The ledger [batch_jobs]: job id to a dict of progress fields. *)
Definition set_job (jobs : gmap string (gmap string pyval))
    (job_id k : string) (v : pyval) : result (gmap string (gmap string pyval)) :=
  match jobs !! job_id with
  | Some job => ok (<[job_id := <[k := v]> job]> jobs)
  | None => raise (KeyError job_id)
  end.

Section batch.
Context `{Builtins} `{Mail} `{Host}.

(** ** os.path *)

Definition path_exists (p : string) : bool := bool_decide (is_Some (disk !! p)).

Definition isdir (p : string) : bool :=
  match disk !! p with Some (Dir _) | Some (Unlistable _) => true | _ => false end.

Definition isfile (p : string) : bool :=
  match disk !! p with Some File => true | _ => false end.

Definition listdir (p : string) : result (list string) :=
  match disk !! p with
  | Some (Dir entries) => ok entries
  | Some (Unlistable e) => raise e
  | Some File => raise (OtherError ("[Errno 20] Not a directory: '" ++ p ++ "'"))
  | None => raise (OtherError ("[Errno 2] No such file or directory: '" ++ p ++ "'"))
  end.

Definition join (a b : string) : string :=
  if String.prefix "/" b then b
  else if String.eqb a "" || Str.endswith a "/" then a ++ b
  else a ++ "/" ++ b.

(** ** scan_transaction_folders *)

Definition scan_transaction_folders (base_path : string) : result (list folder_info) :=
  if negb (path_exists base_path) then ok []
  else
    let* items := listdir base_path in
    let transaction_folders :=
      omap (fun item =>
              let item_path := join base_path item in
              if isdir item_path
              then Some {| name := item; path := item_path |}
              else None) items in
    ok (Str.sorted name transaction_folders).

(** ** map_files_in_folder *)

Definition no_files : file_mapping :=
  {| summary := None; card := None; international := None;
     domestic := None; dispute := None; invoice := None |}.

(** One iteration of the loop over the directory's names. *)
Definition map_file (folder_path : string) (m : file_mapping) (fname : string)
  : file_mapping :=
  let filepath := join folder_path fname in
  if negb (isfile filepath) then m
  else if negb (Str.endswith fname ".xlsx" || Str.endswith fname ".xls") then m
  else
    let filename_lower := Str.lower fname in
    if Str.contains "summary" filename_lower then
      {| summary := Some filepath; card := card m; international := international m;
         domestic := domestic m; dispute := dispute m; invoice := invoice m |}
    else if Str.contains "invoice" filename_lower then
      {| summary := summary m; card := card m; international := international m;
         domestic := domestic m; dispute := dispute m; invoice := Some filepath |}
    else if Str.contains "card" filename_lower
            && Str.contains "issuance" filename_lower then
      {| summary := summary m; card := Some filepath; international := international m;
         domestic := domestic m; dispute := dispute m; invoice := invoice m |}
    else if Str.contains "international" filename_lower then
      {| summary := summary m; card := card m; international := Some filepath;
         domestic := domestic m; dispute := dispute m; invoice := invoice m |}
    else if Str.contains "domestic" filename_lower then
      {| summary := summary m; card := card m; international := international m;
         domestic := Some filepath; dispute := dispute m; invoice := invoice m |}
    else if Str.contains "vrol" filename_lower
            || Str.contains "dispute" filename_lower then
      {| summary := summary m; card := card m; international := international m;
         domestic := domestic m; dispute := Some filepath; invoice := invoice m |}
    else m.

Definition map_files_in_folder (folder_path : string) : result file_mapping :=
  if negb (path_exists folder_path) then ok no_files
  else
    let* names := listdir folder_path in
    ok (fold_left (map_file folder_path) names no_files).

(** ** process_transaction_batch *)

(** [if report and report.get("summary"):] followed by the threshold
    test [report["summary"]["amount_reconciled_percentage"] < 95]. *)
Definition below_threshold (report : pyval) : result bool :=
  if negb (truthy report) then ok false
  else
    let* s := get report "summary" VNone in
    if negb (truthy s) then ok false
    else
      let* s' := getitem report "summary" in
      let* amount_reconciled := getitem s' "amount_reconciled_percentage" in
      lt_int amount_reconciled 95.

(** The [try] block of one loop iteration: the result it appends and the
    mail the alert tried to deliver. The alert's return value is
    dropped and [email_sent] is set to [True]. *)
Definition reconcile_folder (folder_name : string) (file_paths : file_mapping)
  : result (batch_result * list email) :=
  let* report := run_rate_analysis (mapping_dict file_paths) in
  let* below := below_threshold report in
  let '(mails, email_sent) :=
    if below
    then (fst (send_reconciliation_alert report (VStr "")), true)
    else ([], false) in
  ok ({| transaction_name := folder_name; status := "success"; error := None;
         report := report; email_sent := email_sent |}, mails).

(** One loop iteration after the progress update: the summary check, the
    [try] block and its [except Exception] handler. *)
Definition process_folder (folder_name : string) (file_paths : file_mapping)
  : batch_result * list email :=
  match summary file_paths with
  | None =>
      ({| transaction_name := folder_name; status := "failed";
          error := Some "Summary file not found";
          report := VNone; email_sent := false |}, [])
  | Some p =>
      if String.eqb p "" then
        ({| transaction_name := folder_name; status := "failed";
            error := Some "Summary file not found";
            report := VNone; email_sent := false |}, [])
      else
        match reconcile_folder folder_name file_paths with
        | inr r => r
        | inl e =>
            ({| transaction_name := folder_name; status := "failed";
                error := Some (str_exn e);
                report := VNone; email_sent := false |}, [])
        end
  end.

(** [if job_id: batch_jobs[job_id][k] = v]. *)
Definition track (job_id : option string) (k : string) (v : pyval)
    (jobs : gmap string (gmap string pyval))
  : result (gmap string (gmap string pyval)) :=
  match job_id with
  | None => ok jobs
  | Some j => if String.eqb j "" then ok jobs else set_job jobs j k v
  end.

(** The progress update at the head of a loop iteration. It raises only
    when the ledger lacks the job, and then none of its assignments has
    taken place. *)
Definition track_folder (job_id : option string) (idx : nat) (folder : folder_info)
    (jobs : gmap string (gmap string pyval))
  : result (gmap string (gmap string pyval)) :=
  let* jobs := track job_id "progress" (VStr "reconciling") jobs in
  let* jobs := track job_id "current_transaction" (VStr (name folder)) jobs in
  track job_id "processed" (VInt (Z.of_nat idx)) jobs.

(** The [for idx, folder_info in enumerate(transaction_folders)] loop.
    Besides the loop's outcome (the results, or the exception that left
    the loop) it returns the ledger and the mail as they stand when the
    loop ends: updates made and alerts sent before an exception remain.
    The call of [map_files_in_folder] is outside the [try] block, so an
    exception of it leaves the loop. *)
Fixpoint batch_loop (job_id : option string) (idx : nat) (folders : list folder_info)
    (jobs : gmap string (gmap string pyval))
    (results : list batch_result) (outbox : list email)
  : result (list batch_result) * gmap string (gmap string pyval) * list email :=
  match folders with
  | [] => (ok results, jobs, outbox)
  | folder :: rest =>
      match track_folder job_id idx folder jobs with
      | inl e => (raise e, jobs, outbox)
      | inr jobs =>
          match map_files_in_folder (path folder) with
          | inl e => (raise e, jobs, outbox)
          | inr file_paths =>
              let '(r, mails) := process_folder (name folder) file_paths in
              batch_loop job_id (S idx) rest jobs (results ++ [r]) (outbox ++ mails)
          end
      end
  end.

(** The progress update before the loop; like [track_folder] it raises
    only when the ledger lacks the job. *)
Definition track_start (job_id : option string) (total : nat)
    (jobs : gmap string (gmap string pyval))
  : result (gmap string (gmap string pyval)) :=
  let* jobs := track job_id "progress" (VStr "fetching") jobs in
  let* jobs := track job_id "total_transactions" (VInt (Z.of_nat total)) jobs in
  track job_id "processed" (VInt 0) jobs.

(** Returns the function's outcome (the list of results, or the exception
    it raises) together with the ledger and the mail it leaves behind
    in either case. *)
Definition process_transaction_batch (base_path : string) (job_id : option string)
    (jobs : gmap string (gmap string pyval))
  : result (list batch_result) * gmap string (gmap string pyval) * list email :=
  match scan_transaction_folders base_path with
  | inl e => (raise e, jobs, [])
  | inr transaction_folders =>
      match track_start job_id (length transaction_folders) jobs with
      | inl e => (raise e, jobs, [])
      | inr jobs =>
          match batch_loop job_id 0 transaction_folders jobs [] [] with
          | (inl e, jobs, outbox) => (raise e, jobs, outbox)
          | (inr results, jobs, outbox) =>
              match track job_id "progress" (VStr "finalizing") jobs with
              | inl e => (raise e, jobs, outbox)
              | inr jobs => (ok results, jobs, outbox)
              end
          end
      end
  end.

(** ** process_single_transaction *)

(** The dict a worker returns: the success shape has no [error] key, the
    failure shape no [email_sent] key. *)
Record single_result := {
  index : Z;
  s_status : string;
  s_email_sent : option bool;
  s_error : option string;
  s_transaction_name : pyval;
}.

(** The [except Exception] handler: marks the transaction dict as it
    stands when the exception is raised. *)
Definition single_failed (idx : Z) (transaction : gmap string pyval) (e : exn)
  : single_result * gmap string pyval :=
  ({| index := idx; s_status := "failed"; s_email_sent := None;
      s_error := Some (str_exn e);
      s_transaction_name := default (VStr "") (transaction !! "name") |},
   <["error" := VStr (str_exn e)]> (<["status" := VStr "failed"]> transaction)).

(** Returns the worker's result, the transaction dict after the in-place
    updates, and the mail the alert tried to deliver. The lock around
    the updates is not modelled. *)
Definition process_single_transaction (idx : Z) (transaction : gmap string pyval)
    (temp_dir : string)
  : single_result * gmap string pyval * list email :=
  let t1 := <["status" := VStr "processing"]> transaction in
  match (let* file_paths := getitem (VDict t1) "files" in
         let* report := run_rate_analysis file_paths in
         let* below := below_threshold report in
         ok (report, below)) with
  | inl e => (single_failed idx t1 e, [])
  | inr (report, below) =>
      let '(mails, email_sent) :=
        if below
        then send_reconciliation_alert report (default (VStr "") (t1 !! "name"))
        else ([], false) in
      let report_filename := "report_" ++ decimal idx ++ ".json" in
      let report_path := join temp_dir report_filename in
      match dump_json report_path report with
      | inl e => (single_failed idx t1 e, mails)
      | inr _ =>
          let t2 := <["email_sent" := VBool email_sent]>
                      (<["report_file" := VStr report_filename]>
                         (<["status" := VStr "completed"]> t1)) in
          match (let* s := getitem report "summary" in
                 getitem s "amount_reconciled_display") with
          | inl e => (single_failed idx t2 e, mails)
          | inr display =>
              ({| index := idx; s_status := "success";
                  s_email_sent := Some email_sent; s_error := None;
                  s_transaction_name := default (VStr "") (t2 !! "name") |},
               <["amount_reconciled" := display]> t2, mails)
          end
      end
  end.

(** ** The /rates-file route *)

(** What the template is rendered with. *)
Record page := {
  page_report : pyval;
  error_message : option string;
}.

(** The statements of the [try] block up to the assignment of [report]. *)
Definition rates_analysis (files : gmap string upload) (temp_dir : string)
  : result pyval :=
  let summary_file := files !! "summary_file" in
  let absent :=
    match summary_file with
    | None => true
    | Some f => String.eqb (filename f) ""
    end in
  if absent then raise (ValueError "Summary file is required.")
  else
    let* summary_path := save_uploaded_file summary_file temp_dir in
    let* card_path := save_uploaded_file (files !! "card_file") temp_dir in
    let* international_path := save_uploaded_file (files !! "international_file") temp_dir in
    let* domestic_path := save_uploaded_file (files !! "domestic_file") temp_dir in
    let* dispute_path := save_uploaded_file (files !! "dispute_file") temp_dir in
    let* invoice_path := save_uploaded_file (files !! "invoice_file") temp_dir in
    run_rate_analysis
      (VDict {[ "summary" := summary_path; "card" := card_path;
                "international" := international_path;
                "domestic" := domestic_path; "dispute" := dispute_path;
                "invoice" := invoice_path ]}).

(** [if report and report.get("summary"):] of the route. *)
Definition has_summary (report : pyval) : result bool :=
  if negb (truthy report) then ok false
  else
    let* s := get report "summary" VNone in
    ok (truthy s).

(** Returns the rendered page, the new value of the global
    [last_rate_report], and the mail the alert tried to deliver. *)
Definition rates_file (method : string) (files : gmap string upload)
    (temp_dir : string) (last_rate_report : pyval)
  : page * pyval * list email :=
  if negb (String.eqb method "POST")
  then ({| page_report := VNone; error_message := None |}, last_rate_report, [])
  else
    match rates_analysis files temp_dir with
    | inl exc =>
        ({| page_report := VNone; error_message := Some (str_exn exc) |},
         last_rate_report, [])
    | inr report =>
        match has_summary report with
        | inl exc =>
            ({| page_report := report; error_message := Some (str_exn exc) |},
             report, [])
        | inr true =>
            ({| page_report := report; error_message := None |}, report,
             fst (send_reconciliation_alert report (VStr "")))
        | inr false =>
            ({| page_report := report; error_message := None |}, report, [])
        end
    end.

End batch.

End Batch.

(* ===================================================================== *)
(** * root_cause_analysis.py                                              *)
(* ===================================================================== *)

Module RCA.

Definition dq : string := String (ascii_of_nat 34) EmptyString.

(** The OpenAI client: one chat completion request returns the contents
    of the response's choices ([None] for a choice without content) or
    raises. [_format_analysis_html] is regular-expression post-processing
    of the model's answer; it is kept abstract. *)
Class OpenAI := {
  chat_completions_create :
    string (* model *) -> string (* system *) -> string (* user *)
    -> result (list (option string));
  _format_analysis_html : string -> string;
}.

Record RootCauseAnalyzer := {
  api_key : option string;
  client : bool;
  model : string;
}.

Definition nonempty (s : option string) : bool :=
  match s with
  | Some k => negb (String.eqb k "")
  | None => false
  end.

(** [RootCauseAnalyzer(api_key)], with the value of the environment
    variable OPENAI_API_KEY. *)
Definition init (key env_key : option string) : RootCauseAnalyzer :=
  let k := if nonempty key then key else env_key in
  {| api_key := k; client := nonempty k; model := "gpt-3.5-turbo" |}.

(** One entry of the list [_extract_discrepancies] builds. *)
Record discrepancy := {
  fee_type : pyval;
  percentage_diff : pyval;
  diff_status : pyval;
  calculated_value : pyval;
  visa_value : pyval;
  calculation_method : pyval;
  percentage_diff_display : pyval;
}.

Section analyzer.
Context `{Builtins} `{OpenAI}.

Definition check_openai_availability (self : RootCauseAnalyzer) : bool :=
  client self && bool_decide (is_Some (api_key self)).

Definition system_prompt : string :=
  "You are a financial reconciliation expert specializing in card payment transaction analysis and fee reconciliation. Provide detailed, technical analysis of discrepancies.".

(** Returns the prompts sent to the API and the function's result. *)
Definition generate_analysis (self : RootCauseAnalyzer) (prompt : string)
  : list string * option string :=
  if negb (check_openai_availability self) then ([], None)
  else
    match chat_completions_create (model self) system_prompt prompt with
    | inl _ => ([prompt], None)
    | inr [] => ([prompt], None)
    | inr (Some content :: _) => ([prompt], Some (strip content))
    | inr (None :: _) => ([prompt], None)
    end.

(** [diff_status in ["higher", "lower", "missing"]]. *)
Definition is_discrepancy (diff_status : pyval) : bool :=
  eq_str diff_status "higher" || eq_str diff_status "lower"
  || eq_str diff_status "missing".

(** The body of the inner loop: reads the row, appends when it is a
    discrepancy. *)
Definition extract_row (discrepancies : list discrepancy) (row : pyval)
  : result (list discrepancy) :=
  let* fee := get row "fee_type" (VStr "Unknown") in
  let* pdiff := get row "percentage_diff" VNone in
  let* dstatus := get row "diff_status" (VStr "") in
  let* calculated_amount_display := get row "calculated_amount_display" (VStr "N/A") in
  let* visa_amount_display := get row "visa_amount_display" (VStr "N/A") in
  let* final_amount_display := get row "final_amount_display" (VStr "N/A") in
  let* method := get row "calculation_method" (VStr "N/A") in
  if is_discrepancy dstatus then
    let* pdisplay := get row "percentage_diff_display" (VStr "N/A") in
    ok (discrepancies ++ [
          {| fee_type := fee; percentage_diff := pdiff; diff_status := dstatus;
             calculated_value := final_amount_display;
             visa_value := visa_amount_display;
             calculation_method := method;
             percentage_diff_display := pdisplay |} ])%list
  else ok discrepancies.

Fixpoint extract_rows (discrepancies : list discrepancy) (rows : list pyval)
  : result (list discrepancy) :=
  match rows with
  | [] => ok discrepancies
  | row :: rest =>
      let* discrepancies := extract_row discrepancies row in
      extract_rows discrepancies rest
  end.

Fixpoint extract_sheets (discrepancies : list discrepancy) (sheets : list pyval)
  : result (list discrepancy) :=
  match sheets with
  | [] => ok discrepancies
  | sheet :: rest =>
      let* rows := get sheet "rows" (VList []) in
      let* rows := iter rows in
      let* discrepancies := extract_rows discrepancies rows in
      extract_sheets discrepancies rest
  end.

Definition _extract_discrepancies (report : pyval) : result (list discrepancy) :=
  let* sheets := get report "sheets" (VList []) in
  let* sheets := iter sheets in
  extract_sheets [] sheets.

(** The text appended for the [i]-th discrepancy. *)
Definition discrepancy_text (i : nat) (disc : discrepancy) : string :=
  nl ++ lines [
    decimal (Z.of_nat i) ++ ". " ++ str (fee_type disc);
    "   - Calculated Value: " ++ str (calculated_value disc);
    "   - VISA Invoice Value: " ++ str (visa_value disc);
    "   - Difference: " ++ str (percentage_diff_display disc);
    "   - Status: " ++ str (diff_status disc);
    "   - Calculation Method: " ++ str (calculation_method disc)
  ].

(** [for i, disc in enumerate(discrepancies, 1): prompt += ...]. *)
Fixpoint append_discrepancies (prompt : string) (i : nat)
    (discrepancies : list discrepancy) : string :=
  match discrepancies with
  | [] => prompt
  | disc :: rest =>
      append_discrepancies (prompt ++ discrepancy_text i disc) (S i) rest
  end.

Definition task_text : string :=
  nl ++ lines [
        "TASK:";
        "Provide a detailed, fee-specific root cause analysis of why these discrepancies exist.";
        "";
        "FORMATTING REQUIREMENTS:";
        "- Use clear structure with numbered sections and subsections";
        "- Use bullet points (•) for listing causes";
        "- Keep each point concise and specific";
        "- Use proper paragraph breaks between sections";
        "- Reference exact fee names and percentages from the data";
        "";
        "ANALYSIS STRUCTURE:";
        "";
        "PART 1: FEE-BY-FEE ANALYSIS";
        "For EACH fee type listed above with a discrepancy, provide:";
        "- Fee name with variance percentage in parentheses (e.g., " ++ dq ++ "Integrity Fee variance (+56.9%)" ++ dq ++ ")";
        "- Brief description of the discrepancy (calculated vs VISA)";
        "- " ++ dq ++ "Possible causes:" ++ dq ++ " followed by bullet points with specific root causes";
        "";
        "Example format for each fee:";
        "Fee Name variance (+X.X%)";
        "Brief description.";
        "Possible causes:";
        "• Specific cause related to this fee (e.g., tier application, rate mismatch)";
        "• Data quality issue specific to this fee";
        "• FX conversion or timing issue if applicable";
        "";
        "PART 2: MISSING FEES ANALYSIS";
        "If there are fees showing " ++ dq ++ "Missing" ++ dq ++ " status:";
        "- List which fees are missing";
        "- Explain what " ++ dq ++ "Missing Calculations" ++ dq ++ " means";
        "- Connect to reconciliation metrics (Item Reconciled, Match %)";
        "";
        "PART 3: OVERALL PATTERNS";
        "Identify cross-cutting issues:";
        "• Systematic problems affecting multiple fees";
        "• Common root causes across fee types";
        "• Data quality patterns";
        "";
        "IMPORTANT RULES:";
        "- Provide ONLY analysis, NO recommendations or action items";
        "- Be VERY specific - reference actual amounts, rates, and percentages";
        "- For each fee, identify the MOST PROBABLE specific root cause";
        "- Focus on technical/operational causes (formulas, data, rates, mapping)";
        "- Keep total length 400-600 words";
        "- Use technical terminology appropriately (FX conversion, tier application, fee mapping, etc.)";
        ""
  ] ++ "ROOT CAUSE ANALYSIS:".

Definition _build_analysis_prompt (report : pyval) (discrepancies : list discrepancy)
  : result string :=
  let* summary := get report "summary" (VDict ∅) in
  let* amount_reconciled := get summary "amount_reconciled_display" (VStr "N/A") in
  let* fee_reconciled := get summary "fee_reconciled_display" (VStr "N/A") in
  let* matched_items := get summary "matched_items" (VInt 0) in
  let* total_visa_items := get summary "total_visa_items" (VInt 0) in
  let* total_final := get summary "total_final_amount_display" (VStr "N/A") in
  let* total_visa := get summary "total_visa_amount_display" (VStr "N/A") in
  let prompt := lines [
    "You are a financial reconciliation expert. Analyze the following reconciliation discrepancies and provide a root cause analysis.";
    "";
    "RECONCILIATION SUMMARY:";
    "- Amount Reconciled: " ++ str amount_reconciled;
    "- Fee Reconciled: " ++ str fee_reconciled;
    "- Items Reconciled: " ++ str matched_items ++ "/" ++ str total_visa_items;
    "- Calculated Total: " ++ str total_final;
    "- VISA Invoice Total: " ++ str total_visa;
    "";
    "IDENTIFIED DISCREPANCIES:"
  ] in
  ok (append_discrepancies prompt 1 discrepancies ++ task_text).

(** Returns the prompts sent to the API and the function's outcome. *)
Definition analyze_reconciliation_discrepancies (self : RootCauseAnalyzer)
    (report : pyval) : list string * result (option string) :=
  match (let* summary := get report "summary" (VDict ∅) in
         let* amount_reconciled :=
           get summary "amount_reconciled_percentage" (VInt 100) in
         ge_int amount_reconciled 95) with
  | inl e => ([], raise e)
  | inr true => ([], ok None)
  | inr false =>
      if negb (check_openai_availability self) then
        ([], ok (Some "❌ Root Cause Analysis unavailable: OpenAI API key is not configured. Please set the OPENAI_API_KEY environment variable."))
      else
        match _extract_discrepancies report with
        | inl e => ([], raise e)
        | inr [] => ([], ok (Some "No significant discrepancies found to analyze."))
        | inr discrepancies =>
            match _build_analysis_prompt report discrepancies with
            | inl e => ([], raise e)
            | inr prompt =>
                let '(calls, analysis) := generate_analysis self prompt in
                (calls,
                 ok (if nonempty analysis
                     then _format_analysis_html <$> analysis
                     else analysis))
            end
        end
  end.

Definition generate_root_cause_analysis (report : pyval)
    (key env_key : option string) : list string * result (option string) :=
  analyze_reconciliation_discrepancies (init key env_key) report.

End analyzer.

End RCA.

(* ===================================================================== *)
(** * The reconciliation engine (rate_tool_integration)                   *)
(* ===================================================================== *)

Module Engine.

Local Open Scope Q_scope.

(** Modelled from the spec: the calculated fee entry (FeeLine) that the
    engine in rate_tool_integration extracts; section 3 of the
    specification gives its fields. *)
Record FeeLine := {
  fee_type : string;
  rate_chart : string;
  calculation_method : string;
  raw_amount : Q;
  exchange_rate : option Q;
  final_amount : Q;
}.

(** Modelled from the spec: the externally reported fee entry
    (InvoiceLine) of rate_tool_integration, section 3. *)
Record InvoiceLine := {
  inv_fee_type : string;
  inv_rate_chart : string;
  visa_amount : Q;
}.

(** Modelled from the spec: the four classifications of a MatchResult
    produced by rate_tool_integration, section 3. *)
Inductive status := matched | higher | lower | missing.

(** Modelled from the spec: the percentage difference computed by
    rate_tool_integration; section 4.3 makes it unbounded when the
    invoice amount is zero and the calculated amount is not. *)
Inductive pct :=
  | Finite (d : Q)
  | PlusInfinity
  | MinusInfinity.

(** Modelled from the spec: the MatchResult of rate_tool_integration,
    section 3. *)
Record MatchResult := {
  r_fee_type : string;
  r_rate_chart : string;
  r_calculation_method : string;
  r_final_amount : Q;
  r_visa_amount : option Q;
  r_exchange_rate : option Q;
  percentage_diff : option pct;
  diff_status : status;
}.

(** Modelled from the spec: the SheetResult of rate_tool_integration,
    section 3. *)
Record SheetResult := {
  sheet_name : string;
  sheet_rows : list MatchResult;
}.

(** Modelled from the spec: the Summary of rate_tool_integration, with the
    fields section 4.4 defines by a formula. *)
Record Summary := {
  total_final_amount : Q;
  total_visa_amount : Q;
  matched_items : nat;
  total_visa_items : nat;
  total_calculated_items : nat;
  amount_reconciled_percentage : Q;
}.

(** Modelled from the spec: the tolerance of the matcher in
    rate_tool_integration, fixed at 1.0 percent (section 4.3). *)
Definition TOLERANCE : Q := 1.

(** Modelled from the spec: step 2 of the matcher of
    rate_tool_integration (section 4.3), the percentage difference of a
    calculated amount against an invoice amount. *)
Definition percentage_difference (final visa : Q) : pct :=
  if Qeq_bool visa 0 then
    if Qeq_bool final 0 then Finite 0
    else if Qltb 0 final then PlusInfinity else MinusInfinity
  else Finite ((final - visa) / visa * 100).

(** Modelled from the spec: step 3 of the matcher of
    rate_tool_integration (section 4.3), the tolerance rule; the
    unbounded cases are the maximal deviations. *)
Definition classify (tolerance : Q) (d : pct) : status :=
  match d with
  | Finite q =>
      if Qle_bool (Qabs q) tolerance then matched
      else if Qltb tolerance q then higher
      else lower
  | PlusInfinity => higher
  | MinusInfinity => lower
  end.

(** Modelled from the spec: step 1 of the matcher of
    rate_tool_integration (section 4.3), the lookup table from
    (fee_type, rate_chart) to the invoice line; a later line with the
    same key replaces an earlier one. *)
Definition invoice_index (invoice_lines : list InvoiceLine)
  : gmap (string * string) InvoiceLine :=
  fold_left (fun m i => <[(inv_fee_type i, inv_rate_chart i) := i]> m)
            invoice_lines ∅.

(** Modelled from the spec: step 2 of the matcher of
    rate_tool_integration (section 4.3) for one fee line. *)
Definition match_line (index : gmap (string * string) InvoiceLine) (f : FeeLine)
  : MatchResult :=
  match index !! (fee_type f, rate_chart f) with
  | Some i =>
      let d := percentage_difference (final_amount f) (visa_amount i) in
      {| r_fee_type := fee_type f; r_rate_chart := rate_chart f;
         r_calculation_method := calculation_method f;
         r_final_amount := final_amount f;
         r_visa_amount := Some (visa_amount i);
         r_exchange_rate := exchange_rate f;
         percentage_diff := Some d;
         diff_status := classify TOLERANCE d |}
  | None =>
      {| r_fee_type := fee_type f; r_rate_chart := rate_chart f;
         r_calculation_method := calculation_method f;
         r_final_amount := final_amount f;
         r_visa_amount := None;
         r_exchange_rate := exchange_rate f;
         percentage_diff := None;
         diff_status := missing |}
  end.

(** Modelled from the spec: the contract [match(fee_lines, invoice_lines)]
    of the matcher of rate_tool_integration (section 4.3); results keep
    the order of the fee lines. *)
Definition match_lines (fee_lines : list FeeLine) (invoice_lines : list InvoiceLine)
  : list MatchResult :=
  match_line (invoice_index invoice_lines) <$> fee_lines.

(** Modelled from the spec: sums and counts of the aggregator of
    rate_tool_integration (section 4.4). *)
Definition Qsum (xs : list Q) : Q := foldr Qplus 0 xs.

Definition all_rows (sheets : list SheetResult) : list MatchResult :=
  concat (sheet_rows <$> sheets).

Definition is_matched (r : MatchResult) : bool :=
  match diff_status r with matched => true | _ => false end.

Definition has_visa (r : MatchResult) : bool :=
  match r_visa_amount r with Some _ => true | None => false end.

(** Modelled from the spec: the amount-reconciled percentage of the
    aggregator of rate_tool_integration (section 4.4):
    100 x (1 - |final - visa| / max(visa, epsilon)), floored at 0 and
    capped at 100. *)
Definition reconciled_percentage (epsilon total_final total_visa : Q) : Q :=
  Qmax 0 (Qmin 100
            (100 * (1 - Qabs (total_final - total_visa) / Qmax total_visa epsilon))).

(** Modelled from the spec: the contract
    [aggregate(sheets, unmatched_invoice_count)] of the aggregator of
    rate_tool_integration (section 4.4). *)
Definition aggregate (epsilon : Q) (sheets : list SheetResult)
    (unmatched_invoice_count : nat) : Summary :=
  let rows := all_rows sheets in
  let total_final := Qsum (r_final_amount <$> rows) in
  let total_visa := Qsum ((fun r => default 0 (r_visa_amount r)) <$> rows) in
  {| total_final_amount := total_final;
     total_visa_amount := total_visa;
     matched_items := length (filter (fun r => is_matched r = true) rows);
     total_visa_items :=
       (length (filter (fun r => has_visa r = true) rows) + unmatched_invoice_count)%nat;
     total_calculated_items := length rows;
     amount_reconciled_percentage :=
       reconciled_percentage epsilon total_final total_visa |}.

End Engine.

(* ===================================================================== *)
(** * Sample environments and reports                                     *)
(* ===================================================================== *)

Module Sample.

Import Alert Batch RCA.

Definition sample_str (v : pyval) : string :=
  match v with
  | VNone => "None"
  | VBool true => "True"
  | VBool false => "False"
  | VInt n => decimal n
  | VFloat q => format_fixed 2 q
  | VStr s => s
  | VList _ => "[...]"
  | VDict _ => "{...}"
  | VNan => "nan"
  | VInf => "inf"
  | VNegInf => "-inf"
  end.

Definition builtins : Builtins :=
  {| str := sample_str; strip := fun s => s |}.

(** A mail setup with alerting switched on and a server that accepts
    every message, one whose server rejects the login, and one with
    alerting switched off. *)
Definition mail_on : Mail :=
  {| EMAIL_ENABLED := true; EMAIL_SENDER := "sender@example.com";
     EMAIL_RECIPIENT := "ops@example.com";
     smtp_deliver := fun _ => ok tt |}.

Definition mail_rejected : Mail :=
  {| EMAIL_ENABLED := true; EMAIL_SENDER := "sender@example.com";
     EMAIL_RECIPIENT := "ops@example.com";
     smtp_deliver := fun _ => raise (SMTPAuthenticationError "(535, b'Authentication failed')") |}.

Definition mail_off : Mail :=
  {| EMAIL_ENABLED := false; EMAIL_SENDER := "sender@example.com";
     EMAIL_RECIPIENT := "ops@example.com";
     smtp_deliver := fun _ => ok tt |}.

(** A summary with every field the alert reads. *)
Definition summary_with (amount : pyval) (display : string) : gmap string pyval :=
  {[ "amount_reconciled_percentage" := amount;
     "amount_reconciled_display" := VStr display;
     "total_final_amount_display" := VStr "8,300.00";
     "total_visa_amount_display" := VStr "8,200.00";
     "fee_reconciled_display" := VStr "0.00%";
     "matched_items" := VInt 0;
     "total_visa_items" := VInt 1;
     "amount_match_display" := VStr "98.78%";
     "total_mappings" := VInt 1;
     "sheet_count" := VInt 1 ]}.

Definition row (fee status : string) : pyval :=
  VDict {[ "fee_type" := VStr fee; "diff_status" := VStr status;
           "final_amount_display" := VStr "8,300.00";
           "visa_amount_display" := VStr "8,200.00";
           "percentage_diff_display" := VStr "+1.22%";
           "calculation_method" := VStr "flat" ]}.

Definition report_with (amount : pyval) (display : string) (rows : list pyval) : pyval :=
  VDict {[ "summary" := VDict (summary_with amount display);
           "sheets" := VList [VDict {[ "name" := VStr "Sheet1"; "rows" := VList rows ]}] ]}.

(** The double nearest to 94.995, which lies a little above it and below
    95. *)
Definition double_94_995 : Q := 835584856644649 # 8796093022208.

(** 94.995 shown as 95.00%, 98.78 and 80. *)
Definition report_94_995 : pyval :=
  report_with (VFloat double_94_995) "95.00%" [row "Integrity Fee" "higher"].

Definition report_98_78 : pyval :=
  report_with (VFloat (9878 # 100)) "98.78%" [row "Integrity Fee" "higher"].

Definition report_80 : pyval :=
  report_with (VInt 80) "80.00%" [row "Integrity Fee" "higher"; row "Service Fee" "matched"].

(** A report whose summary holds nothing but the amount 80, and reports
    whose amount is NaN and an int beyond the range of a double. *)
Definition report_80_bare : pyval :=
  VDict {[ "summary" := VDict {[ "amount_reconciled_percentage" := VInt 80 ]} ]}.

Definition report_nan : pyval :=
  report_with VNan "nan%" [row "Integrity Fee" "higher"].

Definition report_huge : pyval :=
  report_with (VInt (- 10 ^ 400)) "-1e400%" [row "Integrity Fee" "higher"].

(** The same summary and discrepancy as [report_80], other matched rows. *)
Definition report_80_other : pyval :=
  report_with (VInt 80) "80.00%"
    [row "Interchange" "matched"; row "Integrity Fee" "higher"; row "Scheme Fee" "matched"].

(** An API that answers every prompt with one choice. *)
Definition openai : OpenAI :=
  {| chat_completions_create := fun _ _ _ => ok [Some "PART 1: FEE-BY-FEE ANALYSIS"];
     _format_analysis_html := fun a => a |}.

(** The fee line of the tolerance boundary examples, a calculated amount
    of 100, and an invoice line for the same key. *)
Definition fee_100 : Engine.FeeLine :=
  {| Engine.fee_type := "Integrity Fee"; Engine.rate_chart := "A";
     Engine.calculation_method := "flat"; Engine.raw_amount := 100;
     Engine.exchange_rate := None; Engine.final_amount := 100 |}.

Definition invoice_of (amount : Q) : Engine.InvoiceLine :=
  {| Engine.inv_fee_type := "Integrity Fee"; Engine.inv_rate_chart := "A";
     Engine.visa_amount := amount |}.

(** A disk with three transaction folders: T1 is complete, T2 has no
    summary workbook, and the engine rejects T3's summary workbook. *)
Definition sample_disk : gmap string node :=
  {[ "/data" := Dir ["T3"; "T1"; "readme.txt"; "T2"];
     "/data/readme.txt" := File;
     "/data/T1" := Dir ["Fee Summary.xlsx"; "VISA Invoice.xlsx"];
     "/data/T1/Fee Summary.xlsx" := File;
     "/data/T1/VISA Invoice.xlsx" := File;
     "/data/T2" := Dir ["VISA Invoice.xlsx"; "summary.txt"];
     "/data/T2/VISA Invoice.xlsx" := File;
     "/data/T2/summary.txt" := File;
     "/data/T3" := Dir ["summary.xls"];
     "/data/T3/summary.xls" := File ]}.

Definition sample_engine (file_paths : pyval) : result pyval :=
  match file_paths with
  | VDict d =>
      match d !! "summary" with
      | Some (VStr p) =>
          if String.eqb p "/data/T3/summary.xls"
          then raise (ValueError "Worksheet named 'Rates' not found")
          else ok report_80
      | _ => raise (ValueError "Summary file is required")
      end
  | _ => raise (TypeError "'NoneType' object is not subscriptable")
  end.

Definition host : Host :=
  {| disk := sample_disk;
     run_rate_analysis := sample_engine;
     save_uploaded_file := fun f dir =>
       ok (match f with
           | Some u => VStr (dir ++ "/" ++ filename u)
           | None => VNone
           end);
     dump_json := fun _ _ => ok tt |}.

Definition folder_T1 : folder_info := {| name := "T1"; path := "/data/T1" |}.
Definition folder_T2 : folder_info := {| name := "T2"; path := "/data/T2" |}.
Definition folder_T3 : folder_info := {| name := "T3"; path := "/data/T3" |}.

Definition files_T1 : file_mapping :=
  {| summary := Some "/data/T1/Fee Summary.xlsx"; card := None;
     international := None; domestic := None; dispute := None;
     invoice := Some "/data/T1/VISA Invoice.xlsx" |}.

(** A transaction dict as the upload route stores it in the session. *)
Definition transaction_T1 : gmap string pyval :=
  {[ "name" := VStr "T1"; "path" := VStr "/data/T1";
     "files" := mapping_dict files_T1;
     "status" := VStr "pending"; "has_summary" := VBool true ]}.

Definition transaction_T3 : gmap string pyval :=
  {[ "name" := VStr "T3"; "path" := VStr "/data/T3";
     "files" := VDict {[ "summary" := VStr "/data/T3/summary.xls" ]};
     "status" := VStr "pending"; "has_summary" := VBool true ]}.

End Sample.


(* ===================================================================== *)
(** * Shapes of reports                                                   *)
(* ===================================================================== *)

Import Alert Batch.

(** The summary fields the alert's message interpolates, in reading order. *)
Definition alert_fields : list string :=
  [ "total_final_amount_display"; "total_visa_amount_display";
    "fee_reconciled_display"; "matched_items"; "total_visa_items";
    "amount_match_display"; "total_mappings"; "sheet_count" ].

(** [report] is a dict whose summary is a dict holding the number [q]
    under amount_reconciled_percentage. *)
Definition reports_amount (report : pyval) (q : Q) : Prop :=
  exists d s v,
    report = VDict d /\ d !! "summary" = Some (VDict s)
    /\ s !! "amount_reconciled_percentage" = Some v /\ as_number v = Some q.

(** [report] is a dict whose summary is a dict holding the value [v]
    under amount_reconciled_percentage. *)
Definition reports_value (report : pyval) (v : pyval) : Prop :=
  exists d s,
    report = VDict d /\ d !! "summary" = Some (VDict s)
    /\ s !! "amount_reconciled_percentage" = Some v.

(** [report] is a dict whose summary is a dict that carries every field
    the alert prints. *)
Definition prints_all (report : pyval) : Prop :=
  exists d s,
    report = VDict d /\ d !! "summary" = Some (VDict s)
    /\ Forall (fun k => is_Some (s !! k)) alert_fields.

(** The amount can be formatted with a fixed number of decimals: every
    number can, except an int whose conversion to a float overflows. *)
Definition in_double_range (v : pyval) : bool :=
  match v with
  | VInt n => bool_decide (is_Some (int_to_double n))
  | _ => true
  end.

(** The same report with another value under amount_reconciled_display. *)
Definition with_display (report display : pyval) : pyval :=
  match report with
  | VDict d =>
      match d !! "summary" with
      | Some (VDict s) =>
          VDict (<["summary" := VDict (<["amount_reconciled_display" := display]> s)]> d)
      | _ => report
      end
  | _ => report
  end.

(** The alert builds a message and starts the SMTP conversation for it. *)
Definition attempts `{Builtins} `{Mail} (report name : pyval) : Prop :=
  exists msg, fst (send_reconciliation_alert report name) = [msg].

(** The alert reports the notification as sent: it returns [True]. *)
Definition notifies `{Builtins} `{Mail} (report name : pyval) : Prop :=
  snd (send_reconciliation_alert report name) = true.

(** The prompt the analyzer builds for a report: the discrepancies it
    extracts, passed to the prompt builder. *)
Definition analysis_prompt `{Builtins} `{RCA.OpenAI} (report : pyval) : result string :=
  let* discrepancies := RCA._extract_discrepancies report in
  RCA._build_analysis_prompt report discrepancies.

(** A row the engine classified as matched. *)
Definition matched_row (row : pyval) : Prop :=
  exists d, row = VDict d /\ d !! "diff_status" = Some (VStr "matched").

(** Two row lists that agree up to matched rows: either list may hold
    matched rows the other lacks; all other rows are the same, in order. *)
Inductive rows_agree : list pyval -> list pyval -> Prop :=
  | rows_agree_nil : rows_agree [] []
  | rows_agree_same row l1 l2 :
      rows_agree l1 l2 -> rows_agree (row :: l1) (row :: l2)
  | rows_agree_left row l1 l2 :
      matched_row row -> rows_agree l1 l2 -> rows_agree (row :: l1) l2
  | rows_agree_right row l1 l2 :
      matched_row row -> rows_agree l1 l2 -> rows_agree l1 (row :: l2).

(** Two sheets that are equal, or dicts whose rows agree up to matched rows
    (their other keys, such as the name, are free). *)
Inductive sheet_agree : pyval -> pyval -> Prop :=
  | sheet_agree_same sheet : sheet_agree sheet sheet
  | sheet_agree_rows (d1 d2 : gmap string pyval) l1 l2 :
      d1 !! "rows" = Some (VList l1) -> d2 !! "rows" = Some (VList l2) ->
      rows_agree l1 l2 -> sheet_agree (VDict d1) (VDict d2).

(** Two sheet lists that agree up to matched rows: sheets pair up in
    order, except that either list may hold sheets made of matched rows
    only. *)
Inductive sheets_agree : list pyval -> list pyval -> Prop :=
  | sheets_agree_nil : sheets_agree [] []
  | sheets_agree_cons s1 s2 ss1 ss2 :
      sheet_agree s1 s2 -> sheets_agree ss1 ss2 ->
      sheets_agree (s1 :: ss1) (s2 :: ss2)
  | sheets_agree_left (d : gmap string pyval) l ss1 ss2 :
      d !! "rows" = Some (VList l) -> Forall matched_row l ->
      sheets_agree ss1 ss2 -> sheets_agree (VDict d :: ss1) ss2
  | sheets_agree_right (d : gmap string pyval) l ss1 ss2 :
      d !! "rows" = Some (VList l) -> Forall matched_row l ->
      sheets_agree ss1 ss2 -> sheets_agree ss1 (VDict d :: ss2).

(** Two reports with the same summary whose sheets agree up to matched
    rows. *)
Definition reports_agree (r1 r2 : pyval) : Prop :=
  exists (d1 d2 : gmap string pyval) ss1 ss2,
    r1 = VDict d1 /\ r2 = VDict d2
    /\ d1 !! "summary" = d2 !! "summary"
    /\ d1 !! "sheets" = Some (VList ss1) /\ d2 !! "sheets" = Some (VList ss2)
    /\ sheets_agree ss1 ss2.

(** The summary is missing, or it is a dict without the amount, or the
    amount is a number that is at least 95. *)
Definition amount_passes (d : gmap string pyval) : Prop :=
  d !! "summary" = None
  \/ exists s : gmap string pyval,
       d !! "summary" = Some (VDict s)
       /\ (s !! "amount_reconciled_percentage" = None
           \/ exists v q, s !! "amount_reconciled_percentage" = Some v
                          /\ as_number v = Some q /\ (95 <= q)%Q).

(** A job id the ledger can be updated for: none given, the empty string
    (which the code treats as none), or an id the ledger holds. *)
Definition tracked (job_id : option string) (jobs : gmap string (gmap string pyval))
  : Prop :=
  match job_id with
  | None => True
  | Some j => j = "" \/ is_Some (jobs !! j)
  end.

(** A folder whose directory can be listed. *)
Definition listable `{Host} (f : folder_info) : Prop :=
  exists entries, disk !! path f = Some (Dir entries).

(** What one loop iteration of the batch makes of a folder whose files can
    be mapped. For a folder whose listing raises, [folder_files] is the
    empty mapping; the loop ends before it gets that far. *)
Definition folder_files `{Host} (f : folder_info) : file_mapping :=
  match map_files_in_folder (path f) with
  | inr m => m
  | inl _ => no_files
  end.

Definition folder_result `{Builtins} `{Mail} `{Host} (f : folder_info) : batch_result :=
  fst (process_folder (name f) (folder_files f)).

Definition folder_mail `{Builtins} `{Mail} `{Host} (f : folder_info) : list email :=
  snd (process_folder (name f) (folder_files f)).

(** The entry recorded for a transaction that failed with [reason]. *)
Definition failed_result (folder_name reason : string) : batch_result :=
  {| transaction_name := folder_name; status := "failed"; error := Some reason;
     report := VNone; email_sent := false |}.

(** A directory entry the mapper takes for the summary workbook. *)
Definition summary_candidate `{Host} (folder_path fname : string) : bool :=
  isfile (join folder_path fname)
  && (Str.endswith fname ".xlsx" || Str.endswith fname ".xls")
  && Str.contains "summary" (Str.lower fname).

From Stdlib Require Import Sorted.

(* ===================================================================== *)
(** * app.py: the routes around the batch and the workers                 *)
(* ===================================================================== *)

Module Routes.

(** What the routes call besides the engine: reading a stored report
    ([open] followed by [json.load]) and laying out the PDF
    ([doc.build] on the elements of [generate_batch_pdf_report]). *)
Class Store := {
  load_json : string -> result pyval;
  build_pdf : list batch_result -> result unit;
}.

(** What a view function returns: an error page with its status code, or a
    report page (template, report, transaction name, e-mail flag). *)
Inductive response :=
  | ErrorPage (code : nat) (message : string)
  | ReportPage (template : string) (report transaction_name email_flag : pyval).

(** The dict [process_transaction_batch] appends for a result. *)
Definition result_dict (r : batch_result) : pyval :=
  VDict {[ "transaction_name" := VStr (transaction_name r);
           "status" := VStr (status r);
           "error" := match error r with Some e => VStr e | None => VNone end;
           "report" := report r;
           "email_sent" := VBool (email_sent r) ]}.

(** [l[i]] on a list, with Python's negative indices; the [IndexError]
    of an index out of range is an [OtherError] with its message. *)
Definition list_item {A} (l : list A) (i : Z) : result A :=
  let n := Z.of_nat (length l) in
  let pos := if (i <? 0)%Z then (n + i)%Z else i in
  if (pos <? 0)%Z || (n <=? pos)%Z then raise (OtherError "list index out of range")
  else
    match l !! Z.to_nat pos with
    | Some x => ok x
    | None => raise (OtherError "list index out of range")
    end.

(** ** generate_batch_pdf_report: the executive summary *)

Definition count_where {A} (test : A -> bool) (xs : list A) : nat :=
  length (List.filter test xs).

(** The rows of the summary table, after its header row. *)
Definition executive_summary (results : list batch_result) : list (string * string) :=
  let total_transactions := length results in
  let successful := count_where (fun r => String.eqb (status r) "success") results in
  let failed := count_where (fun r => String.eqb (status r) "failed") results in
  let emails_sent := count_where email_sent results in
  [ ("Total Transactions", decimal (Z.of_nat total_transactions));
    ("Successful", decimal (Z.of_nat successful));
    ("Failed", decimal (Z.of_nat failed));
    ("Email Alerts Sent", decimal (Z.of_nat emails_sent)) ].

Section routes.
Context `{Builtins} `{Mail} `{Host} `{Store}.

(** ** upload_transactions: the metadata kept for each folder *)

Definition count_files (m : file_mapping) : nat :=
  count_where (fun p => truthy (opt_path p))
    [summary m; card m; international m; domestic m; dispute m; invoice m].

Definition transaction_entry (f : folder_info) (m : file_mapping) : gmap string pyval :=
  {[ "name" := VStr (name f);
     "path" := VStr (path f);
     "files" := mapping_dict m;
     "status" := VStr "pending";
     "has_summary" := VBool (bool_decide (is_Some (summary m)));
     "has_invoice" := VBool (bool_decide (is_Some (invoice m)));
     "file_count" := VInt (Z.of_nat (count_files m)) ]}.

(** The loop that builds [transactions_data]. *)
Fixpoint transactions_data (folders : list folder_info)
  : result (list (gmap string pyval)) :=
  match folders with
  | [] => ok []
  | f :: rest =>
      let* file_mapping := map_files_in_folder (path f) in
      let* others := transactions_data rest in
      ok (transaction_entry f file_mapping :: others)
  end.

(** ** processing_page and execute_batch_processing: what is pending *)

(** [txn.get('status') == 'pending' and txn.get('has_summary')]. *)
Definition is_pending (txn : gmap string pyval) : bool :=
  eq_str (default VNone (txn !! "status")) "pending"
  && truthy (default VNone (txn !! "has_summary")).

(** [total_count] of the processing page. *)
Definition total_count (transactions : list (gmap string pyval)) : nat :=
  count_where is_pending transactions.

(** [pending_tasks] of execute_batch_processing: index and transaction. *)
Fixpoint pending_from (idx : nat) (transactions : list (gmap string pyval))
  : list (nat * gmap string pyval) :=
  match transactions with
  | [] => []
  | txn :: rest =>
      if is_pending txn then (idx, txn) :: pending_from (S idx) rest
      else pending_from (S idx) rest
  end.

Definition pending_tasks (transactions : list (gmap string pyval))
  : list (nat * gmap string pyval) :=
  pending_from 0 transactions.

(** [max_workers = min(2, len(pending_tasks))]. *)
Definition max_workers (tasks : list (nat * gmap string pyval)) : nat :=
  Nat.min 2 (length tasks).

(** ** process_workspace_transactions: the tasks for the chosen indices *)

Fixpoint workspace_tasks (indices : list Z) (transactions : list (gmap string pyval))
  : result (list (Z * gmap string pyval)) :=
  match indices with
  | [] => ok []
  | idx :: rest =>
      if (idx <? Z.of_nat (length transactions))%Z then
        let* txn := list_item transactions idx in
        let* tasks := workspace_tasks rest transactions in
        ok ((idx, txn) :: tasks)
      else workspace_tasks rest transactions
  end.

(** ** workspace_result *)

(** [os.path.join(temp_dir, name)] for a name read from a dict. *)
Definition join_value (dir : string) (v : pyval) : result string :=
  match v with
  | VStr s => ok (join dir s)
  | _ => raise (TypeError ("join() argument must be str, bytes, or os.PathLike object, not '"
                             ++ type_name v ++ "'"))
  end.

Definition workspace_result (index : nat) (transactions : list (gmap string pyval))
    (temp_dir : string) : result response :=
  match transactions !! index with
  | None => ok (ErrorPage 404 "Transaction not found")
  | Some transaction =>
      let* st := getitem (VDict transaction) "status" in
      if negb (eq_str st "completed") then
        ok (ErrorPage 400 ("Transaction not processed yet. Status: " ++ str st))
      else
        let report_filename := default VNone (transaction !! "report_file") in
        if negb (truthy report_filename) then
          ok (ErrorPage 404 "Report data not available")
        else
          let* report_path := join_value temp_dir report_filename in
          if negb (path_exists report_path) then
            ok (ErrorPage 404 "Report file not found")
          else
            match load_json report_path with
            | inl e => ok (ErrorPage 500 ("Error loading report: " ++ str_exn e))
            | inr report =>
                let* transaction_name := getitem (VDict transaction) "name" in
                ok (ReportPage "rates_tab.html" report transaction_name
                      (default (VBool false) (transaction !! "email_sent")))
            end
  end.

(** ** batch_transaction_detail *)

(** The first result with the requested name. *)
Fixpoint find_result (results : list batch_result) (wanted : string)
  : option batch_result :=
  match results with
  | [] => None
  | r :: rest =>
      if String.eqb (transaction_name r) wanted then Some r
      else find_result rest wanted
  end.

(** The page for one stored result. *)
Definition detail_page (r : batch_result) (wanted : string) : response :=
  if String.eqb (status r) "failed" then
    ErrorPage 500 ("Transaction '" ++ wanted ++ "' failed: "
                     ++ match error r with Some e => e | None => "None" end)
  else if negb (truthy (report r)) then
    ErrorPage 404 "Report data not available"
  else
    ReportPage "batch_transaction_detail.html" (report r) (VStr wanted)
      (VBool (email_sent r)).

Definition batch_transaction_detail (batch_results : list batch_result)
    (wanted : string) : response :=
  match find_result batch_results wanted with
  | None => ErrorPage 404 "Transaction not found. Please run batch analysis again."
  | Some r => detail_page r wanted
  end.

(** ** start_batch_analysis, run_batch_processing_thread, batch_progress *)

(** The ledger entry a new job starts with. *)
Definition new_job (folder_path : string) : gmap string pyval :=
  {[ "status" := VStr "processing";
     "progress" := VStr "initializing";
     "folder_path" := VStr folder_path;
     "total_transactions" := VInt 0;
     "processed" := VInt 0;
     "current_transaction" := VStr "";
     "results" := VNone;
     "error" := VNone ]}.

(** Returns the JSON answer (status code and body), the ledger, and the
    thread it starts (job id and folder), if any. [job_id] is the fresh
    id [uuid.uuid4()] yields. *)
Definition start_batch_analysis (folder_path_field job_id : string)
    (jobs : gmap string (gmap string pyval))
  : (nat * gmap string pyval) * gmap string (gmap string pyval)
    * option (string * string) :=
  let folder_path := strip folder_path_field in
  if String.eqb folder_path "" then
    ((400%nat, {[ "error" := VStr "Please enter a folder path." ]}), jobs, None)
  else if negb (path_exists folder_path) then
    ((400%nat, {[ "error" := VStr ("Folder path does not exist: " ++ folder_path) ]}),
     jobs, None)
  else if negb (isdir folder_path) then
    ((400%nat, {[ "error" := VStr "Path must be a directory." ]}), jobs, None)
  else
    ((200%nat, {[ "job_id" := VStr job_id; "status" := VStr "started" ]}),
     <[job_id := new_job folder_path]> jobs,
     Some (job_id, folder_path)).

(** The [except] branch of the thread. *)
Definition fail_job (job_id : string) (e : exn)
    (jobs : gmap string (gmap string pyval))
  : result (gmap string (gmap string pyval)) :=
  let* jobs := set_job jobs job_id "status" (VStr "failed") in
  set_job jobs job_id "error" (VStr (str_exn e)).

(** Returns the ledger the thread leaves (or the exception that ends the
    thread) and the mail the alerts tried to deliver. When the batch
    raises, the handler starts from the ledger the batch left. *)
Definition run_batch_processing_thread (job_id folder_path : string)
    (jobs : gmap string (gmap string pyval))
  : result (gmap string (gmap string pyval)) * list email :=
  match process_transaction_batch folder_path (Some job_id) jobs with
  | (inl e, jobs1, mails) => (fail_job job_id e jobs1, mails)
  | (inr results, jobs1, mails) =>
      match build_pdf results with
      | inl e => (fail_job job_id e jobs1, mails)
      | inr _ =>
          (let* jobs2 := set_job jobs1 job_id "status" (VStr "completed") in
           let* jobs3 := set_job jobs2 job_id "results"
                           (VList (result_dict <$> results)) in
           set_job jobs3 job_id "pdf_path" (VStr "batch_reconciliation_report.pdf"),
           mails)
      end
  end.

(** Returns the status code and the JSON body. *)
Definition batch_progress (job_id : string) (jobs : gmap string (gmap string pyval))
  : result (nat * gmap string pyval) :=
  match jobs !! job_id with
  | None => ok (404%nat, {[ "error" := VStr "Job not found" ]})
  | Some job =>
      if negb (truthy (VDict job)) then
        ok (404%nat, {[ "error" := VStr "Job not found" ]})
      else
        let* st := getitem (VDict job) "status" in
        let* progress := getitem (VDict job) "progress" in
        let response : gmap string pyval :=
          {[ "status" := st; "progress" := progress ]} in
        if eq_str st "processing" then
          ok (200%nat,
              <["current_transaction" :=
                  default (VStr "") (job !! "current_transaction")]>
                (<["processed" := default (VInt 0) (job !! "processed")]>
                   (<["total_transactions" :=
                        default (VInt 0) (job !! "total_transactions")]> response)))
        else if eq_str st "completed" then
          let* results := getitem (VDict job) "results" in
          ok (200%nat, <["results" := results]> response)
        else if eq_str st "failed" then
          ok (200%nat,
              <["error" := default (VStr "Unknown error") (job !! "error")]> response)
        else ok (200%nat, response)
  end.

End routes.

End Routes.

(* ===================================================================== *)
(** * Shapes used by the further properties                               *)
(* ===================================================================== *)

(** The six keys of the file mapping. *)
Inductive slot :=
  | SSummary | SInvoice | SCard | SInternational | SDomestic | SDispute.

Definition get_slot (m : file_mapping) (s : slot) : option string :=
  match s with
  | SSummary => summary m
  | SInvoice => invoice m
  | SCard => card m
  | SInternational => international m
  | SDomestic => domestic m
  | SDispute => dispute m
  end.

(** The key a workbook name is filed under, read as a table: the first
    pattern that occurs in the lower-cased name decides. *)
Definition slot_of (fname : string) : option slot :=
  if negb (Str.endswith fname ".xlsx" || Str.endswith fname ".xls") then None
  else
    let l := Str.lower fname in
    if Str.contains "summary" l then Some SSummary
    else if Str.contains "invoice" l then Some SInvoice
    else if Str.contains "card" l && Str.contains "issuance" l then Some SCard
    else if Str.contains "international" l then Some SInternational
    else if Str.contains "domestic" l then Some SDomestic
    else if Str.contains "vrol" l || Str.contains "dispute" l then Some SDispute
    else None.

(** The key a directory entry is filed under: only regular files count. *)
Definition entry_slot `{Host} (folder_path fname : string) : option slot :=
  if isfile (join folder_path fname) then slot_of fname else None.

(** Whether an entry is filed under [s]. *)
Definition filed_under `{Host} (folder_path : string) (s : slot) (fname : string) : bool :=
  match entry_slot folder_path fname with
  | Some s' =>
      match s, s' with
      | SSummary, SSummary | SInvoice, SInvoice | SCard, SCard
      | SInternational, SInternational | SDomestic, SDomestic
      | SDispute, SDispute => true
      | _, _ => false
      end
  | None => false
  end.

(** The last element of a list that passes a test. *)
Fixpoint last_such {A} (test : A -> bool) (xs : list A) : option A :=
  match xs with
  | [] => None
  | x :: rest =>
      match last_such test rest with
      | Some y => Some y
      | None => if test x then Some x else None
      end
  end.

(** The sub-directories of a listing, as the scan records them. *)
Definition subfolders `{Host} (base_path : string) (items : list string)
  : list folder_info :=
  omap (fun item =>
          if isdir (join base_path item)
          then Some {| name := item; path := join base_path item |}
          else None) items.

(** [key a <= key b] in the byte order of strings. *)
Definition key_le {A} (key : A -> string) (a b : A) : Prop :=
  String.ltb (key b) (key a) = false.




(** The task an index of the request selects, if any: indices at or past
    the end select nothing, negative indices count from the end. *)
Definition chosen_task (transactions : list (gmap string pyval)) (idx : Z)
  : option (Z * gmap string pyval) :=
  let n := Z.of_nat (length transactions) in
  if (idx <? n)%Z then
    (fun t => (idx, t))
      <$> transactions !! Z.to_nat (if (idx <? 0)%Z then (n + idx)%Z else idx)
  else None.

(* ===================================================================== *)
(** * Further sample environments                                         *)
(* ===================================================================== *)

Module Cases.

Import Routes.

(** A folder with two summary workbooks (one also named like an invoice),
    a workbook that matches no pattern and a sub-directory whose name looks
    like a workbook; and the directory the workers write reports to. *)
Definition disk : gmap string node :=
  {[ "/in" := Dir ["T"; "b.txt"; "A"];
     "/in/b.txt" := File;
     "/in/A" := Dir [];
     "/in/T" := Dir ["summary_v1.xlsx"; "Domestic.xls"; "Invoice Summary.xlsx";
                     "notes.xlsx"; "invoice.xlsx"];
     "/in/T/summary_v1.xlsx" := File;
     "/in/T/Domestic.xls" := File;
     "/in/T/Invoice Summary.xlsx" := File;
     "/in/T/notes.xlsx" := File;
     "/in/T/invoice.xlsx" := Dir [];
     "/tmp/batch" := Dir ["report_0.json"];
     "/tmp/batch/report_0.json" := File ]}.

Definition upload_helper (f : option upload) (dir : string) : result pyval :=
  ok match f with
     | Some u => VStr (dir ++ "/" ++ filename u)
     | None => VNone
     end.

(** The engine returns [report_80] and reports can be written. *)
Definition host : Host :=
  {| Batch.disk := disk;
     run_rate_analysis := fun _ => ok Sample.report_80;
     save_uploaded_file := upload_helper;
     dump_json := fun _ _ => ok tt |}.

(** The engine returns [None]. *)
Definition host_none : Host :=
  {| Batch.disk := disk;
     run_rate_analysis := fun _ => ok VNone;
     save_uploaded_file := upload_helper;
     dump_json := fun _ _ => ok tt |}.

(** Reports cannot be written. *)
Definition host_read_only : Host :=
  {| Batch.disk := disk;
     run_rate_analysis := fun _ => ok Sample.report_80;
     save_uploaded_file := upload_helper;
     dump_json := fun p _ =>
       raise (OtherError ("[Errno 30] Read-only file system: '" ++ p ++ "'")) |}.

(** Every stored report loads as [report_80]; the PDF can be laid out. *)
Definition store : Store :=
  {| load_json := fun _ => ok Sample.report_80;
     build_pdf := fun _ => ok tt |}.

Definition files_T : file_mapping :=
  {| summary := Some "/in/T/Invoice Summary.xlsx"; card := None;
     international := None; domestic := Some "/in/T/Domestic.xls";
     dispute := None; invoice := None |}.

Definition transaction_T : gmap string pyval :=
  {[ "name" := VStr "T"; "path" := VStr "/in/T";
     "files" := mapping_dict files_T;
     "status" := VStr "pending"; "has_summary" := VBool true ]}.


(** Three transaction folders, of which the process may not list the
    second. *)
Definition disk_locked : gmap string node :=
  {[ "/batch" := Dir ["A"; "B"; "C"];
     "/batch/A" := Dir ["summary.xlsx"];
     "/batch/A/summary.xlsx" := File;
     "/batch/B" := Unlistable (PermissionError "[Errno 13] Permission denied: '/batch/B'");
     "/batch/C" := Dir ["summary.xlsx"];
     "/batch/C/summary.xlsx" := File ]}.

Definition host_locked : Host :=
  {| Batch.disk := disk_locked;
     run_rate_analysis := fun _ => ok Sample.report_80;
     save_uploaded_file := upload_helper;
     dump_json := fun _ _ => ok tt |}.

(** A ledger with one registered job. *)
Definition ledger : gmap string (gmap string pyval) :=
  {[ "job-1" := new_job "/data" ]}.

End Cases.


(* ===================================================================== *)
(** * Properties                                                          *)
(* ===================================================================== *)

Lemma Qltb_lt (x y : Q) : Qltb x y = true <-> (x < y)%Q.
Proof.
  unfold Qltb. rewrite negb_true_iff. split.
  - intros Hb. apply Qnot_le_lt. intros Hle.
    apply Qle_bool_iff in Hle. congruence.
  - intros Hlt. apply not_true_is_false. intros Hb.
    apply Qle_bool_iff in Hb. apply Qle_not_lt in Hb. contradiction.
Qed.

Lemma Qle_bool_false (x y : Q) : Qle_bool x y = false <-> (y < x)%Q.
Proof.
  rewrite <- Qltb_lt. unfold Qltb. rewrite negb_true_iff. reflexivity.
Qed.

Lemma ge_int_number v q n :
  as_number v = Some q -> ge_int v n = ok (Qle_bool (inject_Z n) q).
Proof.
  destruct v; simpl; try discriminate; intros [= <-]; reflexivity.
Qed.

Lemma lt_int_number v q n :
  as_number v = Some q -> lt_int v n = ok (Qltb q (inject_Z n)).
Proof.
  destruct v; simpl; try discriminate; intros [= <-]; reflexivity.
Qed.

(** Away from NaN, [v >= n] is false exactly when [v < n] is true. *)
Lemma ge_int_false_lt v n :
  v <> VNan -> (ge_int v n = ok false <-> lt_int v n = ok true).
Proof.
  intros Hnan. destruct v; simpl; unfold Qltb, ok, raise;
    try (split; discriminate); try (split; reflexivity); try contradiction.
  - split; intros [= Hq]; f_equal; [rewrite Hq|apply negb_true_iff in Hq; rewrite Hq];
      reflexivity.
  - split; intros [= Hq]; f_equal; [rewrite Hq|apply negb_true_iff in Hq; rewrite Hq];
      reflexivity.
  - split; intros [= Hq]; f_equal; [rewrite Hq|apply negb_true_iff in Hq; rewrite Hq];
      reflexivity.
Qed.

Lemma ge_int_is_number v n b : ge_int v n = ok b -> is_number v = true.
Proof.
  destruct v; simpl; try discriminate; reflexivity.
Qed.

Lemma format_f_ok_range digits v txt :
  format_f digits v = ok txt -> in_double_range v = true.
Proof.
  destruct v; try reflexivity. simpl.
  destruct (int_to_double n); [|discriminate].
  intros _. apply bool_decide_eq_true. eauto.
Qed.

Lemma format_f_in_range digits v :
  is_number v = true -> in_double_range v = true ->
  exists txt, format_f digits v = ok txt.
Proof.
  destruct v; simpl; try discriminate; eauto.
  intros _ Hr. apply bool_decide_eq_true in Hr as [z ->]. eauto.
Qed.

Lemma reports_amount_value report q :
  reports_amount report q -> exists v, reports_value report v /\ as_number v = Some q.
Proof.
  intros (d & s & v & ? & ? & ? & ?). exists v. split; [exists d, s|]; auto.
Qed.

Section alert_props.
Context `{Builtins} `{Mail}.

Lemma summary_field_present d s k x :
  d !! "summary" = Some (VDict s) -> s !! k = Some x ->
  summary_field (VDict d) k = ok (str x).
Proof.
  intros Hd Hs. unfold summary_field, getitem. rewrite Hd. simpl. rewrite Hs. reflexivity.
Qed.

(** With alerting on, a report whose amount is a number of at least 95
    yields no message: the function skips the alert, or formatting the
    amount for the log line raises. *)
Lemma alert_message_enough report name q :
  reports_amount report q -> (95 <= q)%Q ->
  alert_message report name = ok None
  \/ exists e, alert_message report name = raise e.
Proof.
  intros (d & s & v & -> & Hd & Hs & Hv) Hq.
  unfold alert_message. destruct EMAIL_ENABLED; cbn [negb]; [|left; reflexivity].
  cbn [getitem]. rewrite Hd. cbn [rbind ok getitem]. rewrite Hs. cbn [rbind ok].
  rewrite (ge_int_number v q 95 Hv). cbn [rbind ok].
  replace (Qle_bool (inject_Z 95) q) with true
    by (symmetry; apply Qle_bool_iff; exact Hq).
  destruct (format_f 2 v) as [e|txt]; [right; exists e|left]; reflexivity.
Qed.

(** A message is built only when alerting is on and the report is a dict
    whose summary is a dict holding an amount that is a number, is not
    [>= 95], can be formatted, and comes with every printed field. *)
Lemma alert_message_some_inv report name msg :
  alert_message report name = ok (Some msg) ->
  EMAIL_ENABLED = true
  /\ exists v, reports_value report v /\ ge_int v 95 = ok false
               /\ in_double_range v = true /\ prints_all report.
Proof.
  unfold alert_message. destruct EMAIL_ENABLED; cbn [negb]; [|discriminate].
  destruct report as [| | | | | |d| | |]; try discriminate.
  cbn [getitem]. destruct (d !! "summary") as [sv|] eqn:Hd; [|discriminate].
  cbn [rbind ok]. destruct sv as [| | | | | |s| | |]; try discriminate.
  cbn [getitem].
  destruct (s !! "amount_reconciled_percentage") as [v|] eqn:Hs; [|discriminate].
  cbn [rbind ok].
  destruct (ge_int v 95) as [e|[|]] eqn:Hge; [discriminate| |]; cbn [rbind ok].
  { destruct (format_f 2 v); discriminate. }
  destruct (format_f 2 v) as [e|a2] eqn:Hf2; [discriminate|]. cbn [rbind ok].
  destruct (format_f 4 v) as [e|a4] eqn:Hf4; [discriminate|]. cbn [rbind ok].
  unfold summary_field. cbn [getitem]. rewrite Hd. cbn [rbind ok getitem].
  destruct (s !! "total_final_amount_display") eqn:K1; [|discriminate]. cbn [rbind ok].
  destruct (s !! "total_visa_amount_display") eqn:K2; [|discriminate]. cbn [rbind ok].
  destruct (s !! "fee_reconciled_display") eqn:K3; [|discriminate]. cbn [rbind ok].
  destruct (s !! "matched_items") eqn:K4; [|discriminate]. cbn [rbind ok].
  destruct (s !! "total_visa_items") eqn:K5; [|discriminate]. cbn [rbind ok].
  destruct (s !! "amount_match_display") eqn:K6; [|discriminate]. cbn [rbind ok].
  destruct (s !! "total_mappings") eqn:K7; [|discriminate]. cbn [rbind ok].
  destruct (s !! "sheet_count") eqn:K8; [|discriminate]. cbn [rbind ok].
  intros _. split; [reflexivity|]. exists v.
  split; [exists d, s; auto|]. split; [exact Hge|].
  split; [exact (format_f_ok_range _ _ _ Hf2)|].
  exists d, s. split; [reflexivity|]. split; [exact Hd|].
  unfold alert_fields.
  repeat (apply Forall_cons; split; [eauto|]). apply Forall_nil. exact I.
Qed.

Lemma alert_message_ready report name v :
  EMAIL_ENABLED = true -> reports_value report v -> ge_int v 95 = ok false ->
  in_double_range v = true -> prints_all report ->
  exists msg, alert_message report name = ok (Some msg).
Proof.
  intros Hon (d & s & -> & Hd & Hs) Hge Hr (d' & s' & Hrep & Hd' & Hfields).
  injection Hrep as <-. rewrite Hd in Hd'. injection Hd' as <-.
  pose proof (ge_int_is_number _ _ _ Hge) as Hnum.
  destruct (format_f_in_range 2 v Hnum Hr) as [a2 Hf2].
  destruct (format_f_in_range 4 v Hnum Hr) as [a4 Hf4].
  unfold alert_message. rewrite Hon. cbn [negb getitem].
  rewrite Hd. cbn [rbind ok getitem]. rewrite Hs. cbn [rbind ok].
  rewrite Hge. cbn [rbind ok]. rewrite Hf2. cbn [rbind ok].
  rewrite Hf4. cbn [rbind ok].
  unfold alert_fields in Hfields.
  repeat match goal with
         | Hf : Forall _ (_ :: _) |- _ =>
             let Hx := fresh "Hx" in
             apply Forall_cons in Hf as [[? Hx] Hf];
             rewrite (summary_field_present _ _ _ _ Hd Hx); cbn [rbind ok]
         end.
  eexists. reflexivity.
Qed.

Lemma send_alert_cases report name :
  (alert_message report name = ok None
   /\ send_reconciliation_alert report name = ([], false))
  \/ (exists e, alert_message report name = raise e
      /\ send_reconciliation_alert report name = ([], false))
  \/ (exists msg e, alert_message report name = ok (Some msg)
      /\ smtp_deliver msg = raise e
      /\ send_reconciliation_alert report name = ([msg], false))
  \/ (exists msg, alert_message report name = ok (Some msg)
      /\ smtp_deliver msg = ok tt
      /\ send_reconciliation_alert report name = ([msg], true)).
Proof.
  unfold send_reconciliation_alert.
  destruct (alert_message report name) as [e|[msg|]] eqn:Hm.
  - right; left. exists e. split; [reflexivity|]. destruct e; reflexivity.
  - destruct (smtp_deliver msg) as [e|[]] eqn:Hs.
    + right; right; left. exists msg, e.
      split; [reflexivity|]. split; [exact Hs|]. destruct e; reflexivity.
    + right; right; right. exists msg. split; [reflexivity|]. split; [exact Hs|reflexivity].
  - left. split; reflexivity.
Qed.

(** The exact condition under which the alert starts a delivery. *)
Lemma attempts_iff report name :
  attempts report name
  <-> EMAIL_ENABLED = true
      /\ exists v, reports_value report v /\ ge_int v 95 = ok false
                   /\ in_double_range v = true /\ prints_all report.
Proof.
  split.
  - intros [msg Hsent].
    destruct (send_alert_cases report name)
      as [[_ Hs]|[(e & _ & Hs)|[(m & e & Hm & _ & Hs)|(m & Hm & _ & Hs)]]];
      rewrite Hs in Hsent; cbn in Hsent; try discriminate;
      exact (alert_message_some_inv _ _ _ Hm).
  - intros (Hon & v & Hv & Hge & Hr & Hp).
    destruct (alert_message_ready report name v Hon Hv Hge Hr Hp) as [msg Hmsg].
    exists msg. unfold send_reconciliation_alert. rewrite Hmsg.
    unfold ok. destruct (smtp_deliver msg); reflexivity.
Qed.

(** The alert returns [True] exactly when it started a delivery and the
    SMTP conversation went through. *)
Lemma notifies_iff report name :
  notifies report name
  <-> exists msg, fst (send_reconciliation_alert report name) = [msg]
                  /\ smtp_deliver msg = ok tt.
Proof.
  unfold notifies.
  destruct (send_alert_cases report name)
    as [[_ Hs]|[(e & _ & Hs)|[(m & e & _ & Hd & Hs)|(m & _ & Hd & Hs)]]];
    rewrite Hs; cbn [fst snd]; split; try discriminate.
  - intros (msg & Hm & _). discriminate.
  - intros (msg & Hm & _). discriminate.
  - intros (msg & Hm & Hok). injection Hm as <-. rewrite Hd in Hok. discriminate.
  - intros _. exists m. auto.
  - reflexivity.
Qed.

(** The alert never reads amount_reconciled_display. *)
Lemma alert_message_with_display report display name :
  alert_message (with_display report display) name = alert_message report name.
Proof.
  unfold with_display.
  destruct report as [| | | | | |d| | |]; try reflexivity.
  destruct (d !! "summary") as [sv|] eqn:Hd; [|reflexivity].
  destruct sv as [| | | | | |s| | |]; try reflexivity.
  unfold alert_message, summary_field. cbn [getitem].
  rewrite lookup_insert_eq, Hd. cbn [rbind ok getitem].
  rewrite !lookup_insert_ne by discriminate. reflexivity.
Qed.

End alert_props.

Section alert_theorems.
Context `{Builtins} `{Mail}.

(** C1. With alerting enabled and an amount that is not NaN, the alert
    builds its message and starts the delivery exactly when the report's
    summary holds a numeric amount_reconciled_percentage strictly below
    95 that can be formatted (an int beyond the range of a double
    cannot) together with every field the message prints. It returns
    [True], the notification went out, exactly when in addition the SMTP
    conversation succeeds. The value stored under
    amount_reconciled_display plays no part: replacing it by anything
    leaves the outcome unchanged, and the amount 94.995, which the
    two-decimal format prints as 95.00, triggers the alert. *)
Theorem alert_decided_on_unrounded_amount report name :
  EMAIL_ENABLED = true -> ~ reports_value report VNan ->
  (attempts report name
   <-> exists v, reports_value report v /\ lt_int v 95 = ok true
                 /\ in_double_range v = true /\ prints_all report)
  /\ (notifies report name
      <-> exists msg, fst (send_reconciliation_alert report name) = [msg]
                      /\ smtp_deliver msg = ok tt)
  /\ (forall display,
        send_reconciliation_alert (with_display report display) name
        = send_reconciliation_alert report name)
  /\ (format_f 2 (VFloat Sample.double_94_995) = ok "95.00"
      /\ lt_int (VFloat Sample.double_94_995) 95 = ok true
      /\ attempts Sample.report_94_995 name).
Proof.
  intros Hon Hnan. split.
  { rewrite attempts_iff. split.
    - intros (_ & v & Hv & Hge & Hr & Hp). exists v. split; [exact Hv|].
      split; [|auto]. apply ge_int_false_lt; [|exact Hge].
      intros ->. exact (Hnan Hv).
    - intros (v & Hv & Hlt & Hr & Hp). split; [exact Hon|]. exists v.
      split; [exact Hv|]. split; [|auto]. apply ge_int_false_lt; [|exact Hlt].
      intros ->. exact (Hnan Hv). }
  split; [apply notifies_iff|].
  split.
  { intros display. unfold send_reconciliation_alert.
    rewrite alert_message_with_display. reflexivity. }
  split; [reflexivity|]. split; [reflexivity|].
  apply attempts_iff. split; [exact Hon|]. exists (VFloat Sample.double_94_995).
  split; [eexists _, _; repeat split; reflexivity|].
  split; [reflexivity|]. split; [reflexivity|].
  eexists _, _. split; [reflexivity|]. split; [reflexivity|].
  unfold alert_fields.
  repeat (apply Forall_cons; split; [eexists; reflexivity|]).
  apply Forall_nil. exact I.
Qed.

(** C10. [send_reconciliation_alert] always returns a boolean: every
    exception of its body, whatever its class, ends in one of the handlers
    and yields [False]. It returns [False] when alerting is disabled, when
    the amount is at least 95, when building the message raises (a
    malformed report) and when the mail server raises; it returns [True]
    only when the message was built and the server accepted it. *)
Theorem send_alert_never_raises report name :
  (forall e, on_error e = false)
  /\ (EMAIL_ENABLED = false -> send_reconciliation_alert report name = ([], false))
  /\ (forall q, reports_amount report q -> (95 <= q)%Q ->
        send_reconciliation_alert report name = ([], false))
  /\ (forall e, alert_message report name = raise e ->
        send_reconciliation_alert report name = ([], false))
  /\ (forall msg e, alert_message report name = ok (Some msg) ->
        smtp_deliver msg = raise e ->
        send_reconciliation_alert report name = ([msg], false))
  /\ (snd (send_reconciliation_alert report name) = true ->
        exists msg, alert_message report name = ok (Some msg)
                    /\ smtp_deliver msg = ok tt
                    /\ fst (send_reconciliation_alert report name) = [msg]).
Proof.
  split; [intros e; destruct e; reflexivity|].
  split.
  { intros Hoff. unfold send_reconciliation_alert, alert_message.
    rewrite Hoff. reflexivity. }
  split.
  { intros q Hrep Hq. unfold send_reconciliation_alert.
    destruct (alert_message_enough report name q Hrep Hq) as [-> |[e ->]];
      [reflexivity|destruct e; reflexivity]. }
  split.
  { intros e He. unfold send_reconciliation_alert. rewrite He.
    destruct e; reflexivity. }
  split.
  { intros msg e Hm Hs. unfold send_reconciliation_alert. rewrite Hm.
    unfold ok. cbn. rewrite Hs. destruct e; reflexivity. }
  intros Hret.
  destruct (send_alert_cases report name)
    as [[_ Hs]|[(e & _ & Hs)|[(msg & e & _ & _ & Hs)|(msg & Hm & Hd & Hs)]]];
    rewrite Hs in Hret; simpl in Hret; try discriminate.
  exists msg. rewrite Hs. auto.
Qed.

End alert_theorems.

Lemma alert_decided_on_unrounded_amount_witness :
  @attempts Sample.builtins Sample.mail_on Sample.report_80 (VStr "T1")
  <-> exists v, reports_value Sample.report_80 v /\ lt_int v 95 = ok true
                /\ in_double_range v = true /\ prints_all Sample.report_80.
Proof.
  destruct (@alert_decided_on_unrounded_amount Sample.builtins Sample.mail_on
              Sample.report_80 (VStr "T1")) as (Hiff & _).
  - reflexivity.
  - intros (d & s & Hrep & Hd & Hs). injection Hrep as <-.
    vm_compute in Hd. injection Hd as <-. vm_compute in Hs. discriminate.
  - exact Hiff.
Defined.

(** An amount of 80 is strictly below 95, yet no notification goes out:
    a summary that lacks a field the message prints is dropped before
    any delivery starts, and a server that refuses the login leaves the
    function returning [False]. *)
Lemma alert_below_95_without_notification :
  @EMAIL_ENABLED Sample.mail_on = true
  /\ reports_value Sample.report_80_bare (VInt 80)
  /\ reports_value Sample.report_80 (VInt 80)
  /\ lt_int (VInt 80) 95 = ok true
  /\ @send_reconciliation_alert Sample.builtins Sample.mail_on
        Sample.report_80_bare (VStr "") = ([], false)
  /\ ~ @notifies Sample.builtins Sample.mail_rejected Sample.report_80 (VStr "").
Proof.
  split; [reflexivity|].
  split; [eexists _, _; repeat split; reflexivity|].
  split; [eexists _, _; repeat split; reflexivity|].
  split; [reflexivity|].
  split; [reflexivity|].
  unfold notifies. discriminate.
Qed.

Lemma send_alert_never_raises_witness :
  @send_reconciliation_alert Sample.builtins Sample.mail_off Sample.report_80 (VStr "")
    = ([], false)
  /\ @send_reconciliation_alert Sample.builtins Sample.mail_on VNone (VStr "")
    = ([], false)
  /\ @send_reconciliation_alert Sample.builtins Sample.mail_on Sample.report_98_78 (VStr "")
    = ([], false).
Proof.
  split; [|split].
  - apply (@send_alert_never_raises Sample.builtins Sample.mail_off
             Sample.report_80 (VStr "")). reflexivity.
  - apply (proj1 (proj2 (proj2 (proj2
             (@send_alert_never_raises Sample.builtins Sample.mail_on
                VNone (VStr ""))))) (TypeError "'NoneType' object is not subscriptable")).
    reflexivity.
  - apply (proj1 (proj2 (proj2
             (@send_alert_never_raises Sample.builtins Sample.mail_on
                Sample.report_98_78 (VStr "")))) (9878 # 100)).
    + eexists _, _, _. repeat split; reflexivity.
    + unfold Qle. simpl. lia.
Defined.

Section batch_props.
Context `{Builtins} `{Mail} `{Host}.

Lemma truthy_dict (d : gmap string pyval) k x :
  d !! k = Some x -> truthy (VDict d) = true.
Proof.
  intros Hk. simpl. apply negb_true_iff, Nat.eqb_neq.
  apply (map_size_ne_0_lookup_2 d k). eauto.
Qed.

(** On a report whose amount is the number [q], the threshold test of the
    orchestration is the comparison [q < 95]. *)
Lemma below_threshold_amount report q :
  reports_amount report q -> below_threshold report = ok (Qltb q 95).
Proof.
  intros (d & s & v & -> & Hd & Hs & Hv).
  unfold below_threshold. rewrite (truthy_dict d _ _ Hd).
  unfold get, getitem. rewrite Hd. cbn -[truthy].
  rewrite (truthy_dict s _ _ Hs). cbn. rewrite Hs. cbn.
  exact (lt_int_number v q 95 Hv).
Qed.

Lemma track_ok job_id k v jobs :
  tracked job_id jobs ->
  exists jobs', track job_id k v jobs = ok jobs' /\ tracked job_id jobs'.
Proof.
  destruct job_id as [j|]; simpl; [|eauto].
  intros [->|[job Hj]].
  - exists jobs. simpl. auto.
  - destruct (String.eqb j "") eqn:E.
    + exists jobs. eauto.
    + unfold set_job. rewrite Hj. eexists. split; [reflexivity|].
      right. rewrite lookup_insert_eq. eauto.
Qed.

Lemma track_folder_ok job_id idx f jobs :
  tracked job_id jobs ->
  exists jobs', track_folder job_id idx f jobs = ok jobs' /\ tracked job_id jobs'.
Proof.
  intros Hj. unfold track_folder.
  destruct (track_ok job_id "progress" (VStr "reconciling") jobs Hj)
    as (jobs1 & -> & Hj1). cbn [rbind ok].
  destruct (track_ok job_id "current_transaction" (VStr (name f)) jobs1 Hj1)
    as (jobs2 & -> & Hj2). cbn [rbind ok].
  apply track_ok. exact Hj2.
Qed.

Lemma track_start_ok job_id total jobs :
  tracked job_id jobs ->
  exists jobs', track_start job_id total jobs = ok jobs' /\ tracked job_id jobs'.
Proof.
  intros Hj. unfold track_start.
  destruct (track_ok job_id "progress" (VStr "fetching") jobs Hj)
    as (jobs1 & -> & Hj1). cbn [rbind ok].
  destruct (track_ok job_id "total_transactions" (VInt (Z.of_nat total)) jobs1 Hj1)
    as (jobs2 & -> & Hj2). cbn [rbind ok].
  apply track_ok. exact Hj2.
Qed.

Lemma map_files_in_folder_dir p entries :
  disk !! p = Some (Dir entries) ->
  map_files_in_folder p = ok (fold_left (map_file p) entries no_files).
Proof.
  intros Hp. unfold map_files_in_folder, path_exists, listdir. rewrite Hp.
  rewrite bool_decide_eq_true_2 by eauto. reflexivity.
Qed.

Lemma map_files_in_folder_unlistable p e :
  disk !! p = Some (Unlistable e) -> map_files_in_folder p = raise e.
Proof.
  intros Hp. unfold map_files_in_folder, path_exists, listdir. rewrite Hp.
  rewrite bool_decide_eq_true_2 by eauto. reflexivity.
Qed.

Lemma isdir_inv p :
  isdir p = true ->
  (exists entries, disk !! p = Some (Dir entries))
  \/ exists e, disk !! p = Some (Unlistable e).
Proof.
  unfold isdir. destruct (disk !! p) as [[|entries|e]|]; try discriminate; eauto.
Qed.

Lemma folder_files_listable f :
  listable f -> map_files_in_folder (path f) = ok (folder_files f).
Proof.
  intros [entries Hp].
  unfold folder_files. rewrite (map_files_in_folder_dir _ _ Hp). reflexivity.
Qed.

(** Scanned folders are all listable, or there is a first one that is
    not. *)
Lemma folders_split folders :
  Forall (fun f => isdir (path f) = true) folders ->
  Forall listable folders
  \/ exists pre f post e,
       folders = (pre ++ f :: post)%list /\ Forall listable pre
       /\ map_files_in_folder (path f) = raise e.
Proof.
  induction 1 as [|f rest Hf _ IH]; [left; constructor|].
  destruct (isdir_inv _ Hf) as [Hl|[e He]].
  - destruct IH as [Hall|(pre & g & post & e & -> & Hpre & Hg)].
    + left. constructor; assumption.
    + right. exists (f :: pre), g, post, e. split; [reflexivity|].
      split; [constructor; assumption|exact Hg].
  - right. exists [], f, rest, e. split; [reflexivity|]. split; [constructor|].
    apply map_files_in_folder_unlistable. exact He.
Qed.

(** The loop runs to its end when the ledger knows the job and every
    folder can be listed: it appends one result per folder, each computed
    from that folder alone. *)
Lemma batch_loop_ok folders : forall job_id idx jobs results outbox,
  tracked job_id jobs ->
  Forall listable folders ->
  exists jobs',
    tracked job_id jobs'
    /\ batch_loop job_id idx folders jobs results outbox
       = (ok (results ++ (folder_result <$> folders))%list, jobs',
          (outbox ++ concat (folder_mail <$> folders))%list).
Proof.
  induction folders as [|f rest IH]; intros job_id idx jobs results outbox Hj Hdirs.
  - exists jobs. simpl. rewrite !app_nil_r. auto.
  - apply Forall_cons in Hdirs as [Hf Hrest].
    destruct (track_folder_ok job_id idx f jobs Hj) as (jobs3 & E3 & Hj3).
    cbn [batch_loop]. rewrite E3. unfold ok at 1.
    rewrite (folder_files_listable f Hf). unfold ok at 1.
    destruct (process_folder (name f) (folder_files f)) as [r mails] eqn:Hp.
    destruct (IH job_id (S idx) jobs3 (results ++ [r])%list (outbox ++ mails)%list
                Hj3 Hrest) as (jobs' & Hj' & E).
    exists jobs'. split; [exact Hj'|]. rewrite E.
    unfold folder_result, folder_mail. cbn [fmap list_fmap concat].
    rewrite Hp. cbn [fst snd]. rewrite <- !app_assoc. reflexivity.
Qed.

(** The loop ends at the first folder whose files cannot be mapped, with
    the exception of that listing; the mail of the folders before it
    has gone out. *)
Lemma batch_loop_abort pre f post e : forall job_id idx jobs results outbox,
  tracked job_id jobs ->
  Forall listable pre ->
  map_files_in_folder (path f) = raise e ->
  exists jobs',
    tracked job_id jobs'
    /\ batch_loop job_id idx (pre ++ f :: post) jobs results outbox
       = (raise e, jobs', (outbox ++ concat (folder_mail <$> pre))%list).
Proof.
  induction pre as [|g pre IH]; intros job_id idx jobs results outbox Hj Hpre He.
  - destruct (track_folder_ok job_id idx f jobs Hj) as (jobs3 & E3 & Hj3).
    exists jobs3. split; [exact Hj3|].
    cbn [app batch_loop]. rewrite E3. unfold ok at 1. rewrite He. unfold raise at 1.
    cbn [fmap list_fmap concat]. rewrite app_nil_r. reflexivity.
  - apply Forall_cons in Hpre as [Hg Hpre].
    destruct (track_folder_ok job_id idx g jobs Hj) as (jobs3 & E3 & Hj3).
    change ((g :: pre) ++ f :: post)%list with (g :: (pre ++ f :: post))%list.
    cbn [batch_loop]. rewrite E3. unfold ok at 1.
    rewrite (folder_files_listable g Hg). unfold ok at 1.
    destruct (process_folder (name g) (folder_files g)) as [r mails] eqn:Hp.
    destruct (IH job_id (S idx) jobs3 (results ++ [r])%list (outbox ++ mails)%list
                Hj3 Hpre He) as (jobs' & Hj' & E).
    exists jobs'. split; [exact Hj'|]. rewrite E.
    unfold folder_mail. cbn [fmap list_fmap concat].
    rewrite Hp. cbn [snd]. rewrite <- !app_assoc. reflexivity.
Qed.

Lemma insert_sorted_Forall {A} (key : A -> string) (P : A -> Prop) x xs :
  P x -> Forall P xs -> Forall P (Str.insert_sorted key x xs).
Proof.
  intros Hx. induction 1 as [|y ys Hy Hys IH]; simpl.
  - repeat constructor; assumption.
  - destruct (String.ltb (key x) (key y)); repeat constructor; assumption.
Qed.

Lemma sorted_Forall {A} (key : A -> string) (P : A -> Prop) xs :
  Forall P xs -> Forall P (Str.sorted key xs).
Proof.
  unfold Str.sorted. generalize (@nil A) (Forall_nil_2 P).
  induction xs as [|x xs IH]; intros acc Hacc Hxs; simpl; [exact Hacc|].
  apply Forall_cons in Hxs as [Hx Hxs].
  apply IH; [|exact Hxs]. apply insert_sorted_Forall; assumption.
Qed.

Lemma scan_folders_isdir base_path folders :
  scan_transaction_folders base_path = ok folders ->
  Forall (fun f => isdir (path f) = true) folders.
Proof.
  unfold scan_transaction_folders.
  destruct (negb (path_exists base_path)).
  { intros E. injection E as <-. constructor. }
  destruct (listdir base_path) as [e|items]; [discriminate|].
  cbn [rbind]. intros E. injection E as <-.
  apply sorted_Forall. apply Forall_forall. intros f Hin.
  apply list_elem_of_omap in Hin as (item & _ & Hitem).
  destruct (isdir (join base_path item)) eqn:Hd; [|discriminate].
  injection Hitem as <-. exact Hd.
Qed.

Lemma process_transaction_batch_ok base_path job_id jobs folders :
  scan_transaction_folders base_path = ok folders ->
  tracked job_id jobs ->
  Forall listable folders ->
  exists jobs',
    process_transaction_batch base_path job_id jobs
    = (ok (folder_result <$> folders), jobs', concat (folder_mail <$> folders)).
Proof.
  intros Hscan Hj Hall. unfold process_transaction_batch. rewrite Hscan. unfold ok at 1.
  destruct (track_start_ok job_id (length folders) jobs Hj) as (j3 & E3 & Hj3).
  rewrite E3. unfold ok at 1.
  destruct (batch_loop_ok folders job_id 0%nat j3 [] [] Hj3 Hall) as (j4 & Hj4 & E4).
  rewrite E4. unfold ok at 1. cbn [app].
  destruct (track_ok job_id "progress" (VStr "finalizing") j4 Hj4) as (j5 & E5 & _).
  rewrite E5. unfold ok at 1. eauto.
Qed.

Lemma process_transaction_batch_abort base_path job_id jobs pre f post e :
  scan_transaction_folders base_path = ok (pre ++ f :: post)%list ->
  tracked job_id jobs ->
  Forall listable pre ->
  map_files_in_folder (path f) = raise e ->
  exists jobs',
    process_transaction_batch base_path job_id jobs
    = (raise e, jobs', concat (folder_mail <$> pre)).
Proof.
  intros Hscan Hj Hpre He. unfold process_transaction_batch. rewrite Hscan. unfold ok at 1.
  destruct (track_start_ok job_id (length (pre ++ f :: post)) jobs Hj) as (j3 & E3 & Hj3).
  rewrite E3. unfold ok at 1.
  destruct (batch_loop_abort pre f post e job_id 0%nat j3 [] [] Hj3 Hpre He)
    as (j4 & Hj4 & E4).
  rewrite E4. unfold raise at 1. cbn [app]. eauto.
Qed.

End batch_props.

Section batch_theorems.
Context `{Builtins} `{Mail} `{Host}.

Lemma process_folder_raise folder_name file_paths p e :
  summary file_paths = Some p -> p <> "" ->
  reconcile_folder folder_name file_paths = raise e ->
  process_folder folder_name file_paths = (failed_result folder_name (str_exn e), []).
Proof.
  intros Hs Hp He. unfold process_folder. rewrite Hs.
  replace (String.eqb p "") with false
    by (symmetry; apply String.eqb_neq; exact Hp).
  rewrite He. reflexivity.
Qed.

Lemma process_folder_no_summary folder_name file_paths :
  summary file_paths = None ->
  process_folder folder_name file_paths
  = (failed_result folder_name "Summary file not found", []).
Proof.
  intros Hs. unfold process_folder. rewrite Hs. reflexivity.
Qed.

(** Every entry of the batch is a success without error text or a failure
    with an error text, no report and no mail. *)
Lemma process_folder_status folder_name file_paths :
  let r := fst (process_folder folder_name file_paths) in
  (status r = "failed" /\ is_Some (error r) /\ report r = VNone
   /\ email_sent r = false /\ snd (process_folder folder_name file_paths) = [])
  \/ (status r = "success" /\ error r = None).
Proof.
  unfold process_folder.
  destruct (summary file_paths) as [p|]; [|left; cbn; eauto 6].
  destruct (String.eqb p ""); [left; cbn; eauto 6|].
  destruct (reconcile_folder folder_name file_paths) as [e|[r mails]] eqn:Hr.
  - left. cbn. eauto 6.
  - right. unfold reconcile_folder in Hr.
    destruct (run_rate_analysis (mapping_dict file_paths)) as [e|rep];
      [discriminate|]. cbn [rbind] in Hr.
    destruct (below_threshold rep) as [e|b]; [discriminate|]. cbn [rbind] in Hr.
    destruct b; injection Hr as <- <-; cbn; auto.
Qed.

Lemma single_lookup_files (transaction : gmap string pyval) fp :
  transaction !! "files" = Some fp ->
  getitem (VDict (<["status" := VStr "processing"]> transaction)) "files" = ok fp.
Proof.
  intros Hf. unfold getitem. rewrite lookup_insert_ne by discriminate.
  rewrite Hf. reflexivity.
Qed.

(** The worker always hands back a result: a success, or a failure that
    carries the text of the exception and marks the transaction failed. *)
Lemma process_single_transaction_status idx transaction temp_dir :
  let r := fst (fst (process_single_transaction idx transaction temp_dir)) in
  let t' := snd (fst (process_single_transaction idx transaction temp_dir)) in
  (s_status r = "success" /\ s_error r = None
   /\ t' !! "status" = Some (VStr "completed"))
  \/ (exists e, s_status r = "failed" /\ s_error r = Some (str_exn e)
                /\ t' !! "status" = Some (VStr "failed")
                /\ t' !! "error" = Some (VStr (str_exn e))).
Proof.
  unfold process_single_transaction.
  set (t1 := <["status" := VStr "processing"]> transaction).
  assert (Hfail : forall t e,
             (single_failed idx t e).2 !! "status" = Some (VStr "failed")
             /\ (single_failed idx t e).2 !! "error" = Some (VStr (str_exn e))).
  { intros t e. unfold single_failed. cbn [snd]. split.
    - rewrite lookup_insert_ne by discriminate. apply lookup_insert_eq.
    - apply lookup_insert_eq. }
  destruct (rbind _ _) as [e|[rep below]].
  { right. exists e. cbn [fst snd]. destruct (Hfail t1 e). auto. }
  destruct (if below then _ else _) as [mails sent].
  destruct (dump_json _ rep) as [e|[]].
  { right. exists e. cbn [fst snd]. destruct (Hfail t1 e). auto. }
  destruct (rbind _ _) as [e|display].
  { right. exists e. cbn [fst snd].
    match goal with |- context [single_failed idx ?t e] =>
      destruct (Hfail t e) end. auto. }
  left. cbn [fst snd s_status s_error]. split; [reflexivity|]. split; [reflexivity|].
  do 3 (rewrite lookup_insert_ne by discriminate). apply lookup_insert_eq.
Qed.

Lemma process_single_transaction_engine_raises idx transaction temp_dir fp e :
  transaction !! "files" = Some fp -> run_rate_analysis fp = raise e ->
  process_single_transaction idx transaction temp_dir
  = (single_failed idx (<["status" := VStr "processing"]> transaction) e, []).
Proof.
  intros Hf He. unfold process_single_transaction.
  rewrite (single_lookup_files _ _ Hf). cbn [rbind ok]. rewrite He. reflexivity.
Qed.

Lemma map_file_summary_none folder_path m fname :
  summary m = None -> summary_candidate folder_path fname = false ->
  summary (map_file folder_path m fname) = None.
Proof.
  intros Hm Hc. unfold map_file. unfold summary_candidate in Hc.
  destruct (isfile (join folder_path fname)); [|exact Hm].
  destruct (Str.endswith fname ".xlsx" || Str.endswith fname ".xls"); [|exact Hm].
  cbn in Hc. rewrite Hc. cbn [negb].
  repeat match goal with
         | |- context [if ?c then _ else _] => destruct c
         end; exact Hm.
Qed.

Lemma map_files_summary_none folder_path entries : forall m,
  summary m = None ->
  Forall (fun fname => summary_candidate folder_path fname = false) entries ->
  summary (fold_left (map_file folder_path) entries m) = None.
Proof.
  induction entries as [|fname rest IH]; intros m Hm Hall; [exact Hm|].
  apply Forall_cons in Hall as [Hc Hrest]. cbn [fold_left].
  apply IH; [|exact Hrest]. apply map_file_summary_none; assumption.
Qed.

(** C6. A transaction folder without a summary workbook is mapped to a
    file set with no summary, and the batch records it as failed with the
    reason "Summary file not found" and no report. In the /rates-file
    route a missing (or unnamed) summary upload ends in the reason
    "Summary file is required." and no report. A batch entry is either
    failed (with a reason and no report) or a success without error text,
    so the two outcomes cannot be confused. *)
Theorem missing_summary_fails_whole_transaction folder_path entries folder_name :
  disk !! folder_path = Some (Dir entries) ->
  Forall (fun fname => summary_candidate folder_path fname = false) entries ->
  (exists m, map_files_in_folder folder_path = ok m
             /\ summary m = None
             /\ process_folder folder_name m
                = (failed_result folder_name "Summary file not found", []))
  /\ (forall file_paths,
        let r := fst (process_folder folder_name file_paths) in
        (status r = "failed" /\ is_Some (error r) /\ report r = VNone)
        \/ (status r = "success" /\ error r = None))
  /\ (forall files temp_dir last_rate_report,
        (files !! "summary_file" = None
         \/ exists f, files !! "summary_file" = Some f /\ filename f = "") ->
        rates_file "POST" files temp_dir last_rate_report
        = ({| page_report := VNone;
              error_message := Some "Summary file is required." |},
           last_rate_report, [])).
Proof.
  intros Hdir Hall. split.
  { eexists. split; [apply (map_files_in_folder_dir _ _ Hdir)|].
    assert (Hnone : summary (fold_left (map_file folder_path) entries no_files) = None)
      by (apply map_files_summary_none; [reflexivity|exact Hall]).
    split; [exact Hnone|]. apply process_folder_no_summary. exact Hnone. }
  split.
  { intros file_paths.
    destruct (process_folder_status folder_name file_paths)
      as [(? & ? & ? & _)|?]; [left|right]; auto. }
  intros files temp_dir last Habs. unfold rates_file, rates_analysis.
  cbn [String.eqb negb]. replace (String.eqb "POST" "POST") with true by reflexivity.
  cbn [negb].
  destruct Habs as [Hn|(f & Hf & Hname)].
  - rewrite Hn. reflexivity.
  - rewrite Hf, Hname. reflexivity.
Qed.

(** C8. For a successfully reconciled transaction whose amount is below 95,
    the batch records [email_sent = True] whatever the alert returned - in
    particular when alerting is disabled and the alert returns [False] -
    whereas the worker [process_single_transaction] records the alert's own
    return value, in its result and in the transaction dict. *)
Theorem batch_email_sent_ignores_alert_result
    folder_name file_paths p idx transaction temp_dir report q display s :
  summary file_paths = Some p -> p <> "" ->
  run_rate_analysis (mapping_dict file_paths) = ok report ->
  transaction !! "files" = Some (mapping_dict file_paths) ->
  dump_json (join temp_dir ("report_" ++ decimal idx ++ ".json")) report = ok tt ->
  getitem report "summary" = ok (VDict s) ->
  s !! "amount_reconciled_display" = Some display ->
  reports_amount report q -> (q < 95)%Q ->
  let sent := snd (send_reconciliation_alert report
                     (default (VStr "") (transaction !! "name"))) in
  let batch := fst (process_folder folder_name file_paths) in
  let single := process_single_transaction idx transaction temp_dir in
  (status batch = "success" /\ email_sent batch = true)
  /\ (EMAIL_ENABLED = false ->
      snd (send_reconciliation_alert report (VStr "")) = false
      /\ email_sent batch = true)
  /\ (s_status (fst (fst single)) = "success"
      /\ s_email_sent (fst (fst single)) = Some sent
      /\ snd (fst single) !! "email_sent" = Some (VBool sent)).
Proof.
  intros Hs Hp Hrun Hfiles Hdump Hsum Hdisp Hrep Hq.
  pose proof (below_threshold_amount report q Hrep) as Hbelow.
  replace (Qltb q 95) with true in Hbelow by (symmetry; apply Qltb_lt; exact Hq).
  assert (Hbatch : process_folder folder_name file_paths
                   = ({| transaction_name := folder_name; status := "success";
                         error := None; report := report; email_sent := true |},
                      fst (send_reconciliation_alert report (VStr "")))).
  { unfold process_folder. rewrite Hs.
    replace (String.eqb p "") with false
      by (symmetry; apply String.eqb_neq; exact Hp).
    unfold reconcile_folder. rewrite Hrun. cbn [rbind ok].
    rewrite Hbelow. reflexivity. }
  cbn zeta. rewrite Hbatch. cbn [fst status email_sent].
  split; [auto|]. split.
  { intros Hoff. split; [|reflexivity].
    unfold send_reconciliation_alert, alert_message. rewrite Hoff. reflexivity. }
  unfold process_single_transaction.
  rewrite (single_lookup_files _ _ Hfiles). cbn [rbind ok].
  rewrite Hrun. cbn [rbind ok]. rewrite Hbelow. cbn [rbind ok].
  rewrite lookup_insert_ne by discriminate.
  destruct (send_reconciliation_alert report (default (VStr "") (transaction !! "name")))
    as [mails sent] eqn:Hsend.
  rewrite Hdump. rewrite Hsum. cbn [rbind ok]. unfold getitem. rewrite Hdisp.
  cbn [ok fst snd s_status s_email_sent].
  split; [reflexivity|]. split; [reflexivity|].
  rewrite lookup_insert_ne by discriminate. apply lookup_insert_eq.
Qed.

End batch_theorems.

(** C5. The batch does not keep every failure of a transaction to that
    transaction. Its call of [map_files_in_folder] stands outside the
    [try] block, so a transaction folder that cannot be listed ends the
    whole batch. On a base folder with the transaction folders A, B and
    C, of which B may not be listed, the batch raises the error of that
    listing: it returns no result at all, not even for A, which it has
    reconciled and alerted for, and C is never processed. The worker
    [process_single_transaction], whose whole body is inside its [try]
    block, turns a transaction it cannot read into a failed result. *)
Theorem batch_aborts_on_unlistable_folder :
  let run := @process_transaction_batch Sample.builtins Sample.mail_on
               Cases.host_locked "/batch" None ∅ in
  @scan_transaction_folders Cases.host_locked "/batch"
  = ok [ {| name := "A"; path := "/batch/A" |};
         {| name := "B"; path := "/batch/B" |};
         {| name := "C"; path := "/batch/C" |} ]
  /\ fst (fst run)
     = raise (PermissionError "[Errno 13] Permission denied: '/batch/B'")
  /\ snd run
     = fst (@send_reconciliation_alert Sample.builtins Sample.mail_on
              Sample.report_80 (VStr ""))
  /\ length (snd run) = 1%nat
  /\ fst (fst (@process_single_transaction Sample.builtins Sample.mail_on
                 Cases.host_locked 1 {[ "name" := VStr "B" ]} "/tmp"))
     = {| index := 1; s_status := "failed"; s_email_sent := None;
          s_error := Some "'files'"; s_transaction_name := VStr "B" |}.
Proof.
  cbv zeta. split; [vm_compute; reflexivity|].
  split; [vm_compute; reflexivity|].
  split; [vm_compute; reflexivity|].
  split; vm_compute; reflexivity.
Qed.

Lemma missing_summary_fails_whole_transaction_witness :
  exists m,
    @map_files_in_folder Sample.host "/data/T2" = ok m
    /\ summary m = None
    /\ @process_folder Sample.builtins Sample.mail_on Sample.host "T2" m
       = (failed_result "T2" "Summary file not found", []).
Proof.
  apply (@missing_summary_fails_whole_transaction
           Sample.builtins Sample.mail_on Sample.host
           "/data/T2" ["VISA Invoice.xlsx"; "summary.txt"] "T2").
  - reflexivity.
  - repeat constructor.
Defined.

Lemma batch_email_sent_ignores_alert_result_witness :
  email_sent (fst (@process_folder Sample.builtins Sample.mail_off Sample.host
                     "T1" Sample.files_T1)) = true
  /\ s_email_sent (fst (fst (@process_single_transaction
                               Sample.builtins Sample.mail_off Sample.host
                               0 Sample.transaction_T1 "/tmp/batch")))
     = Some false.
Proof.
  destruct (@batch_email_sent_ignores_alert_result
              Sample.builtins Sample.mail_off Sample.host
              "T1" Sample.files_T1 "/data/T1/Fee Summary.xlsx" 0
              Sample.transaction_T1 "/tmp/batch" Sample.report_80 (inject_Z 80)
              (VStr "80.00%") (Sample.summary_with (VInt 80) "80.00%"))
    as ((_ & Hbatch) & _ & (_ & Hsingle & _)).
  - reflexivity.
  - discriminate.
  - reflexivity.
  - reflexivity.
  - reflexivity.
  - reflexivity.
  - reflexivity.
  - eexists _, _, _. repeat split; reflexivity.
  - reflexivity.
  - split; [exact Hbatch|]. rewrite Hsingle. reflexivity.
Defined.

Section analyzer_theorems.
Context `{Builtins} `{RCA.OpenAI}.

Import RCA.

Lemma threshold_passes (d : gmap string pyval) :
  amount_passes d ->
  (let* summary := get (VDict d) "summary" (VDict ∅) in
   let* amount_reconciled := get summary "amount_reconciled_percentage" (VInt 100) in
   ge_int amount_reconciled 95) = ok true.
Proof.
  intros [Hnone|(s & Hs & [Hnone|(v & q & Hv & Hq & Hle)])]; unfold get.
  - rewrite Hnone. cbn. rewrite lookup_empty. reflexivity.
  - rewrite Hs. cbn. rewrite Hnone. reflexivity.
  - rewrite Hs. cbn -[ge_int]. rewrite Hv. cbn -[ge_int].
    rewrite (ge_int_number v q 95 Hq).
    replace (Qle_bool (inject_Z 95) q) with true; [reflexivity|].
    symmetry. apply Qle_bool_iff. exact Hle.
Qed.

(** C9. When the report has no summary, or its summary has no
    amount_reconciled_percentage (the value then defaults to 100), or the
    amount is at least 95, the analyzer returns [None] and sends nothing to
    the OpenAI API. *)
Theorem no_analysis_at_or_above_threshold self (d : gmap string pyval) key env_key :
  amount_passes d ->
  analyze_reconciliation_discrepancies self (VDict d) = ([], ok None)
  /\ generate_root_cause_analysis (VDict d) key env_key = ([], ok None).
Proof.
  intros Hd. unfold generate_root_cause_analysis, analyze_reconciliation_discrepancies.
  rewrite (threshold_passes d Hd). split; reflexivity.
Qed.

Lemma extract_row_matched acc row :
  matched_row row -> extract_row acc row = ok acc.
Proof.
  intros (d & -> & Hst). unfold extract_row, get. cbn [rbind ok].
  rewrite Hst. reflexivity.
Qed.

Lemma extract_rows_agree l1 l2 :
  rows_agree l1 l2 -> forall acc, extract_rows acc l1 = extract_rows acc l2.
Proof.
  induction 1 as [|row l1 l2 _ IH|row l1 l2 Hm _ IH|row l1 l2 Hm _ IH]; intros acc.
  - reflexivity.
  - cbn [extract_rows]. destruct (extract_row acc row) as [e|acc']; [reflexivity|].
    cbn [rbind]. apply IH.
  - cbn [extract_rows]. rewrite (extract_row_matched _ _ Hm). cbn [rbind ok]. apply IH.
  - cbn [extract_rows]. rewrite (extract_row_matched _ _ Hm). cbn [rbind ok]. apply IH.
Qed.

Lemma extract_rows_matched l acc :
  Forall matched_row l -> extract_rows acc l = ok acc.
Proof.
  intros Hall. induction Hall as [|row l Hm _ IH]; [reflexivity|].
  cbn [extract_rows]. rewrite (extract_row_matched _ _ Hm). cbn [rbind ok]. exact IH.
Qed.

Lemma extract_sheet_matched (d : gmap string pyval) l ss acc :
  d !! "rows" = Some (VList l) -> Forall matched_row l ->
  extract_sheets acc (VDict d :: ss) = extract_sheets acc ss.
Proof.
  intros Hd Hall. cbn [extract_sheets]. unfold get. rewrite Hd.
  cbn [default from_option id rbind ok iter].
  rewrite (extract_rows_matched _ _ Hall). reflexivity.
Qed.

Lemma extract_sheets_agree ss1 ss2 :
  sheets_agree ss1 ss2 ->
  forall acc, extract_sheets acc ss1 = extract_sheets acc ss2.
Proof.
  induction 1 as [|s1 s2 ss1 ss2 Hs _ IH|d l ss1 ss2 Hd Hall _ IH
                  |d l ss1 ss2 Hd Hall _ IH]; intros acc.
  - reflexivity.
  - cbn [extract_sheets]. destruct Hs as [sheet|d1 d2 l1 l2 H1 H2 Hrows].
    + destruct (get sheet "rows" (VList [])) as [e|rows]; [reflexivity|].
      cbn [rbind]. destruct (iter rows) as [e|rows']; [reflexivity|].
      cbn [rbind]. destruct (extract_rows acc rows') as [e|acc']; [reflexivity|].
      cbn [rbind]. apply IH.
    + unfold get. rewrite H1, H2. cbn [default from_option id rbind ok iter].
      rewrite (extract_rows_agree _ _ Hrows acc).
      destruct (extract_rows acc l2) as [e|acc']; [reflexivity|].
      cbn [rbind]. apply IH.
  - rewrite (extract_sheet_matched _ _ _ _ Hd Hall). apply IH.
  - rewrite (extract_sheet_matched _ _ _ _ Hd Hall). apply IH.
Qed.

Lemma extract_discrepancies_agree r1 r2 :
  reports_agree r1 r2 -> _extract_discrepancies r1 = _extract_discrepancies r2.
Proof.
  intros (d1 & d2 & ss1 & ss2 & -> & -> & _ & H1 & H2 & Hss).
  unfold _extract_discrepancies, get. rewrite H1, H2.
  cbn [default from_option id rbind ok iter]. apply extract_sheets_agree. exact Hss.
Qed.

Lemma build_prompt_agree r1 r2 discrepancies :
  reports_agree r1 r2 ->
  _build_analysis_prompt r1 discrepancies = _build_analysis_prompt r2 discrepancies.
Proof.
  intros (d1 & d2 & ss1 & ss2 & -> & -> & Hsum & _).
  unfold _build_analysis_prompt, get. rewrite Hsum. reflexivity.
Qed.

(** C7. The prompt is built from the report value alone (the analyzer has
    no access to the disk), and two reports with the same summary whose
    sheets differ only in rows classified matched yield the same extracted
    discrepancies, the same prompt, and the same analyzer run, including
    what is sent to the API. *)
Theorem prompt_ignores_matched_rows self r1 r2 :
  reports_agree r1 r2 ->
  _extract_discrepancies r1 = _extract_discrepancies r2
  /\ analysis_prompt r1 = analysis_prompt r2
  /\ analyze_reconciliation_discrepancies self r1
     = analyze_reconciliation_discrepancies self r2.
Proof.
  intros Hagree.
  pose proof (extract_discrepancies_agree r1 r2 Hagree) as Hex.
  split; [exact Hex|]. split.
  - unfold analysis_prompt. rewrite Hex.
    destruct (_extract_discrepancies r2) as [e|discs]; [reflexivity|].
    cbn [rbind]. apply build_prompt_agree. exact Hagree.
  - unfold analyze_reconciliation_discrepancies. rewrite Hex.
    destruct Hagree as (d1 & d2 & ss1 & ss2 & -> & -> & Hsum & H1 & H2 & Hss).
    assert (Hb : forall discs, _build_analysis_prompt (VDict d1) discs
                               = _build_analysis_prompt (VDict d2) discs).
    { intros discs. unfold _build_analysis_prompt, get. rewrite Hsum. reflexivity. }
    unfold get at 1 3. rewrite Hsum.
    destruct (rbind _ _) as [e|[|]]; try reflexivity.
    destruct (negb (check_openai_availability self)); [reflexivity|].
    destruct (_extract_discrepancies (VDict d2)) as [e|[|disc discs]];
      try reflexivity.
    rewrite Hb. reflexivity.
Qed.

End analyzer_theorems.

Lemma no_analysis_at_or_above_threshold_witness :
  @RCA.analyze_reconciliation_discrepancies Sample.builtins Sample.openai
    (RCA.init (Some "sk-test") None) Sample.report_98_78 = ([], ok None)
  /\ @RCA.analyze_reconciliation_discrepancies Sample.builtins Sample.openai
       (RCA.init (Some "sk-test") None) (VDict ∅) = ([], ok None).
Proof.
  split.
  - eapply (@no_analysis_at_or_above_threshold Sample.builtins Sample.openai
              _ _ None None).
    right. eexists. split; [reflexivity|]. right.
    exists (VFloat (9878 # 100)), (9878 # 100).
    split; [reflexivity|]. split; [reflexivity|]. unfold Qle. simpl. lia.
  - eapply (@no_analysis_at_or_above_threshold Sample.builtins Sample.openai
              _ ∅ None None).
    left. reflexivity.
Defined.

Lemma prompt_ignores_matched_rows_witness :
  @analysis_prompt Sample.builtins Sample.openai Sample.report_80
  = @analysis_prompt Sample.builtins Sample.openai Sample.report_80_other.
Proof.
  apply (@prompt_ignores_matched_rows Sample.builtins Sample.openai
           (RCA.init (Some "sk-test") None) Sample.report_80 Sample.report_80_other).
  eexists _, _, _, _. split; [reflexivity|]. split; [reflexivity|].
  split; [reflexivity|]. split; [reflexivity|]. split; [reflexivity|].
  apply sheets_agree_cons; [|apply sheets_agree_nil].
  eapply sheet_agree_rows; [reflexivity|reflexivity|].
  apply rows_agree_right; [eexists; split; reflexivity|].
  apply rows_agree_same.
  apply rows_agree_left; [eexists; split; reflexivity|].
  apply rows_agree_right; [eexists; split; reflexivity|].
  apply rows_agree_nil.
Defined.

Section engine_theorems.
Import Engine Sample.
Local Open Scope Q_scope.

Lemma classify_not_missing tolerance d : classify tolerance d <> missing.
Proof.
  destruct d as [q| |]; simpl; try discriminate.
  destruct (Qle_bool (Qabs q) tolerance); [discriminate|].
  destruct (Qltb tolerance q); discriminate.
Qed.

Lemma match_line_cases index f :
  (r_visa_amount (match_line index f) = None
   /\ percentage_diff (match_line index f) = None
   /\ diff_status (match_line index f) = missing)
  \/ (exists i, index !! (fee_type f, rate_chart f) = Some i
      /\ r_visa_amount (match_line index f) = Some (visa_amount i)
      /\ percentage_diff (match_line index f)
         = Some (percentage_difference (final_amount f) (visa_amount i))
      /\ diff_status (match_line index f)
         = classify TOLERANCE (percentage_difference (final_amount f) (visa_amount i))).
Proof.
  unfold match_line.
  destruct (index !! (fee_type f, rate_chart f)) as [i|]; [right|left]; cbn; eauto.
Qed.

(** C2. Every result of the matcher carries exactly one of the four
    statuses; the status is missing exactly when no invoice amount was
    found; and when one was found, the status is the tolerance rule applied
    to the result's percentage difference. *)
Theorem classification_total fee_lines invoice_lines r :
  r ∈ match_lines fee_lines invoice_lines ->
  (exists! s, diff_status r = s /\ s ∈ [matched; higher; lower; missing])
  /\ (diff_status r = missing <-> r_visa_amount r = None)
  /\ (forall v, r_visa_amount r = Some v ->
        exists d, percentage_diff r = Some d
                  /\ diff_status r = classify TOLERANCE d).
Proof.
  intros Hin. unfold match_lines in Hin.
  apply list_elem_of_fmap in Hin as (f & -> & _).
  split.
  { exists (diff_status (match_line (invoice_index invoice_lines) f)). split.
    - split; [reflexivity|].
      destruct (diff_status _); repeat constructor.
    - intros s [Hs _]. exact Hs. }
  destruct (match_line_cases (invoice_index invoice_lines) f)
    as [(Hv & Hp & Hs)|(i & _ & Hv & Hp & Hs)].
  - split; [split; auto|]. intros v Hv'. congruence.
  - split.
    + split.
      * intros Hm. rewrite Hs in Hm. destruct (classify_not_missing _ _ Hm).
      * intros Hn. congruence.
    + intros v _. eauto.
Qed.

Lemma percentage_difference_nonzero final visa :
  ~ visa == 0 ->
  percentage_difference final visa = Finite ((final - visa) / visa * 100).
Proof.
  intros Hnz. unfold percentage_difference.
  destruct (Qeq_bool visa 0) eqn:E; [|reflexivity].
  apply Qeq_bool_iff in E. contradiction.
Qed.

Lemma classify_finite d :
  (Qabs d <= 1 -> classify TOLERANCE (Finite d) = matched)
  /\ (1 < d -> classify TOLERANCE (Finite d) = higher)
  /\ (d < -1 -> classify TOLERANCE (Finite d) = lower).
Proof.
  unfold classify, TOLERANCE. repeat split.
  - intros Hle. apply Qle_bool_iff in Hle. rewrite Hle. reflexivity.
  - intros Hgt.
    replace (Qle_bool (Qabs d) 1) with false.
    + replace (Qltb 1 d) with true; [reflexivity|]. symmetry. apply Qltb_lt. exact Hgt.
    + symmetry. apply Qle_bool_false. revert Hgt. apply Qabs_case; intros; lra.
  - intros Hlt.
    replace (Qle_bool (Qabs d) 1) with false.
    + replace (Qltb 1 d) with false; [reflexivity|].
      symmetry. unfold Qltb. apply negb_false_iff. apply Qle_bool_iff. lra.
    + symmetry. apply Qle_bool_false. revert Hlt. apply Qabs_case; intros; lra.
Qed.

(** C3. For a fee line paired with an invoice line whose amount is not
    zero, the percentage difference is (final - visa) / visa x 100, and the
    line is matched when its absolute value is at most 1, higher when it
    exceeds 1 and lower when it is under -1. A calculated 100 against an
    invoiced 99.00 is higher; against 99.01 it is matched. *)
Theorem tolerance_classification index f i :
  index !! (fee_type f, rate_chart f) = Some i ->
  ~ visa_amount i == 0 ->
  let r := match_line index f in
  let d := (final_amount f - visa_amount i) / visa_amount i * 100 in
  percentage_diff r = Some (Finite d)
  /\ (Qabs d <= 1 -> diff_status r = matched)
  /\ (1 < d -> diff_status r = higher)
  /\ (d < -1 -> diff_status r = lower)
  /\ diff_status <$> match_lines [fee_100] [invoice_of 99] = [higher]
  /\ diff_status <$> match_lines [fee_100] [invoice_of (9901 # 100)] = [matched].
Proof.
  intros Hi Hnz r d.
  destruct (match_line_cases index f) as [(Hv & _)|(i' & Hi' & _ & Hp & Hs)].
  { unfold match_line in Hv. rewrite Hi in Hv. discriminate. }
  rewrite Hi in Hi'. injection Hi' as <-.
  rewrite (percentage_difference_nonzero _ _ Hnz) in Hp, Hs.
  fold d in Hp, Hs. fold r in Hp, Hs.
  destruct (classify_finite d) as (Hm & Hh & Hl).
  split; [exact Hp|].
  split; [intros H; rewrite Hs; apply Hm; exact H|].
  split; [intros H; rewrite Hs; apply Hh; exact H|].
  split; [intros H; rewrite Hs; apply Hl; exact H|].
  split; reflexivity.
Qed.

Lemma reconciled_percentage_bounds epsilon total_final total_visa :
  0 <= reconciled_percentage epsilon total_final total_visa
  /\ reconciled_percentage epsilon total_final total_visa <= 100.
Proof.
  unfold reconciled_percentage. split.
  - apply Q.le_max_l.
  - apply Q.max_lub; [lra|]. apply Q.le_min_l.
Qed.

(** C4. For every aggregation input and every positive epsilon, the
    denominator max(total_visa_amount, epsilon) is positive (also when the
    invoice total is zero), amount_reconciled_percentage is
    100 x (1 - |total_final - total_visa| / max(total_visa, epsilon))
    floored at 0 and capped at 100, and it lies between 0 and 100 however
    far the totals are apart. *)
Theorem summary_percentage_clamped epsilon sheets unmatched_invoice_count :
  0 < epsilon ->
  let s := aggregate epsilon sheets unmatched_invoice_count in
  0 < Qmax (total_visa_amount s) epsilon
  /\ amount_reconciled_percentage s
     = Qmax 0 (Qmin 100
                 (100 * (1 - Qabs (total_final_amount s - total_visa_amount s)
                             / Qmax (total_visa_amount s) epsilon)))
  /\ 0 <= amount_reconciled_percentage s <= 100
  /\ (forall total_final total_visa,
        0 <= reconciled_percentage epsilon total_final total_visa <= 100).
Proof.
  intros Heps s. split.
  { apply Q.max_lt_iff. right. exact Heps. }
  split; [reflexivity|]. split.
  - apply reconciled_percentage_bounds.
  - intros. apply reconciled_percentage_bounds.
Qed.

End engine_theorems.

Lemma classification_total_witness :
  Engine.diff_status
    (Engine.match_line (Engine.invoice_index [Sample.invoice_of 99]) Sample.fee_100)
  = Engine.missing
  <-> Engine.r_visa_amount
        (Engine.match_line (Engine.invoice_index [Sample.invoice_of 99]) Sample.fee_100)
      = None.
Proof.
  destruct (classification_total [Sample.fee_100] [Sample.invoice_of 99]
              (Engine.match_line (Engine.invoice_index [Sample.invoice_of 99])
                 Sample.fee_100)) as (_ & Hiff & _).
  - apply list_elem_of_here.
  - exact Hiff.
Defined.

Lemma tolerance_classification_witness :
  Engine.percentage_diff
    (Engine.match_line (Engine.invoice_index [Sample.invoice_of 8200]) Sample.fee_100)
  = Some (Engine.Finite ((100 - 8200) / 8200 * 100)%Q).
Proof.
  destruct (tolerance_classification
              (Engine.invoice_index [Sample.invoice_of 8200])
              Sample.fee_100 (Sample.invoice_of 8200)) as (Hd & _).
  - reflexivity.
  - discriminate.
  - exact Hd.
Defined.

Lemma summary_percentage_clamped_witness :
  (0 <= Engine.amount_reconciled_percentage
          (Engine.aggregate (1 # 1000000)
             [ {| Engine.sheet_name := "Sheet1";
                  Engine.sheet_rows :=
                    Engine.match_lines [Sample.fee_100] [Sample.invoice_of 0] |} ] 0)
   <= 100)%Q.
Proof.
  destruct (summary_percentage_clamped (1 # 1000000)
              [ {| Engine.sheet_name := "Sheet1";
                   Engine.sheet_rows :=
                     Engine.match_lines [Sample.fee_100] [Sample.invoice_of 0] |} ]
              0) as (_ & _ & Hb & _).
  - reflexivity.
  - exact Hb.
Defined.

(* ===================================================================== *)
(** * Further properties of the alert                                     *)
(* ===================================================================== *)

Section alert_more.
Context `{Builtins} `{Mail}.

(** X1. The alert builds its message and starts a delivery if and only if
    alerting is enabled and the report is a dict whose summary is a dict
    with an amount_reconciled_percentage that is a number, is not
    [>= 95] (which holds of every number below 95 and also of NaN), can be
    formatted with two decimals (an int beyond the range of a double
    cannot), and with every field the message prints. In particular a
    report below the threshold that lacks one printed field is dropped
    without mail. The alert returns [True] if and only if it built a
    message and the SMTP conversation for it went through. *)
Theorem alert_attempted_exactly report name :
  (attempts report name
   <-> EMAIL_ENABLED = true
       /\ exists v, reports_value report v /\ ge_int v 95 = ok false
                    /\ in_double_range v = true /\ prints_all report)
  /\ (notifies report name
      <-> exists msg, alert_message report name = ok (Some msg)
                      /\ smtp_deliver msg = ok tt).
Proof.
  split; [apply attempts_iff|].
  unfold notifies.
  destruct (send_alert_cases report name)
    as [[Hm Hs]|[(e & Hm & Hs)|[(m & e & Hm & Hd & Hs)|(m & Hm & Hd & Hs)]]];
    rewrite Hs, Hm; cbn [fst snd]; split; try discriminate.
  - intros (msg & Hmsg & _). discriminate.
  - intros (msg & Hmsg & _). discriminate.
  - intros (msg & Hmsg & Hok). injection Hmsg as <-. rewrite Hd in Hok. discriminate.
  - intros _. exists m. auto.
  - reflexivity.
Qed.

End alert_more.

(* ===================================================================== *)
(** * Further properties of the file mapper and the folder scan           *)
(* ===================================================================== *)

Section mapper_more.
Context `{Host}.

Lemma map_file_slot folder_path m fname s :
  get_slot (map_file folder_path m fname) s
  = if filed_under folder_path s fname
    then Some (join folder_path fname) else get_slot m s.
Proof.
  unfold filed_under, entry_slot, slot_of, map_file.
  destruct (isfile (join folder_path fname)); cbn [negb]; [|destruct s; reflexivity].
  destruct (Str.endswith fname ".xlsx" || Str.endswith fname ".xls");
    cbn [negb]; [|destruct s; reflexivity].
  repeat match goal with
         | |- context [Str.contains ?a ?b] => destruct (Str.contains a b)
         end; destruct s; reflexivity.
Qed.

Lemma fold_map_file_slot folder_path entries : forall m s,
  get_slot (fold_left (map_file folder_path) entries m) s
  = match last_such (filed_under folder_path s) entries with
    | Some fname => Some (join folder_path fname)
    | None => get_slot m s
    end.
Proof.
  induction entries as [|fname rest IH]; intros m s; [reflexivity|].
  cbn [fold_left last_such]. rewrite IH.
  destruct (last_such (filed_under folder_path s) rest); [reflexivity|].
  rewrite map_file_slot. destruct (filed_under folder_path s fname); reflexivity.
Qed.

Lemma last_such_elem {A} (test : A -> bool) xs x :
  last_such test xs = Some x -> x ∈ xs /\ test x = true.
Proof.
  induction xs as [|y rest IH]; [discriminate|]. cbn [last_such].
  destruct (last_such test rest) as [z|].
  - intros E. injection E as ->. destruct (IH eq_refl) as [Hin Ht].
    split; [apply list_elem_of_further; exact Hin|exact Ht].
  - destruct (test y) eqn:Hy; [|discriminate].
    intros E. injection E as ->. split; [apply list_elem_of_here|exact Hy].
Qed.

(** X2. For an existing directory, each key of the mapping holds the path
    of the last directory entry filed under that key, and [None] when no
    entry is: later workbooks replace earlier ones, key by key. *)
Theorem map_files_last_entry_wins folder_path entries s :
  disk !! folder_path = Some (Dir entries) ->
  exists m, map_files_in_folder folder_path = ok m
            /\ get_slot m s
               = join folder_path <$> last_such (filed_under folder_path s) entries.
Proof.
  intros Hdir. eexists. split; [apply (map_files_in_folder_dir _ _ Hdir)|].
  rewrite fold_map_file_slot.
  destruct (last_such (filed_under folder_path s) entries); destruct s; reflexivity.
Qed.

(** X3. Whatever the folder, every path in the mapping is the path of an
    entry of that folder which is a regular file and whose name ends in
    .xlsx or .xls. *)
Theorem map_files_only_workbooks folder_path m s p :
  map_files_in_folder folder_path = ok m ->
  get_slot m s = Some p ->
  exists fname entries,
    disk !! folder_path = Some (Dir entries) /\ fname ∈ entries
    /\ p = join folder_path fname /\ isfile p = true
    /\ (Str.endswith fname ".xlsx" || Str.endswith fname ".xls") = true.
Proof.
  unfold map_files_in_folder, path_exists, listdir.
  destruct (disk !! folder_path) as [[|entries|]|] eqn:Hd;
    [| |rewrite bool_decide_eq_true_2 by eauto; discriminate|].
  - rewrite bool_decide_eq_true_2 by eauto. discriminate.
  - rewrite bool_decide_eq_true_2 by eauto. cbn [negb rbind ok].
    intros E Hs. injection E as <-. rewrite fold_map_file_slot in Hs.
    destruct (last_such (filed_under folder_path s) entries) as [fname|] eqn:Hl;
      [|destruct s; discriminate].
    injection Hs as <-. apply last_such_elem in Hl as [Hin Hf].
    exists fname, entries. split; [reflexivity|]. split; [exact Hin|].
    split; [reflexivity|].
    unfold filed_under, entry_slot, slot_of in Hf.
    destruct (isfile (join folder_path fname)); [|discriminate].
    split; [reflexivity|].
    destruct (Str.endswith fname ".xlsx" || Str.endswith fname ".xls");
      [reflexivity|discriminate].
  - rewrite bool_decide_eq_false_2 by (intros [? ?]; discriminate).
    cbn [negb]. intros E Hs. injection E as <-. destruct s; discriminate.
Qed.

(** X4. A workbook with "summary" in its name is filed as the summary and
    as nothing else, even when its name also contains "invoice" or another
    pattern: it leaves the five other keys of the mapping as they were. *)
Theorem summary_name_takes_precedence folder_path m fname s :
  Str.contains "summary" (Str.lower fname) = true ->
  s <> SSummary ->
  get_slot (map_file folder_path m fname) s = get_slot m s.
Proof.
  intros Hc Hs. rewrite map_file_slot.
  unfold filed_under, entry_slot, slot_of. rewrite Hc.
  destruct (isfile _); [|reflexivity].
  destruct (negb _); [reflexivity|].
  destruct s; try reflexivity. contradiction.
Qed.

End mapper_more.

Lemma ltb_asym (a b : string) : String.ltb a b = true -> String.ltb b a = false.
Proof.
  unfold String.ltb. rewrite (String.compare_antisym b a).
  destruct (String.compare a b); cbn; congruence.
Qed.

Lemma insert_sorted_perm {A} (key : A -> string) x xs :
  Str.insert_sorted key x xs ≡ₚ x :: xs.
Proof.
  induction xs as [|y ys IH]; cbn [Str.insert_sorted]; [reflexivity|].
  destruct (String.ltb (key x) (key y)); [reflexivity|].
  rewrite IH. apply Permutation_swap.
Qed.

Lemma sorted_perm {A} (key : A -> string) xs : Str.sorted key xs ≡ₚ xs.
Proof.
  unfold Str.sorted.
  assert (Hgen : forall acc,
             fold_left (fun acc x => Str.insert_sorted key x acc) xs acc ≡ₚ xs ++ acc).
  { induction xs as [|x xs IH]; intros acc; cbn [fold_left]; [reflexivity|].
    rewrite IH, insert_sorted_perm. cbn. symmetry. apply Permutation_middle. }
  rewrite Hgen. rewrite app_nil_r. reflexivity.
Qed.

Lemma insert_sorted_Sorted {A} (key : A -> string) x xs :
  Sorted (key_le key) xs -> Sorted (key_le key) (Str.insert_sorted key x xs).
Proof.
  induction 1 as [|y ys Hys IH Hhd]; cbn [Str.insert_sorted].
  - repeat constructor.
  - destruct (String.ltb (key x) (key y)) eqn:Hxy.
    + constructor; [constructor; assumption|].
      constructor. unfold key_le. apply ltb_asym. exact Hxy.
    + constructor; [exact IH|].
      destruct ys as [|z zs]; cbn [Str.insert_sorted].
      * constructor. exact Hxy.
      * destruct (String.ltb (key x) (key z)).
        -- constructor. exact Hxy.
        -- constructor. inversion Hhd; assumption.
Qed.

Lemma sorted_Sorted {A} (key : A -> string) xs : Sorted (key_le key) (Str.sorted key xs).
Proof.
  unfold Str.sorted.
  assert (Hgen : forall acc, Sorted (key_le key) acc ->
             Sorted (key_le key)
               (fold_left (fun acc x => Str.insert_sorted key x acc) xs acc)).
  { induction xs as [|x xs IH]; intros acc Hacc; cbn [fold_left]; [exact Hacc|].
    apply IH. apply insert_sorted_Sorted. exact Hacc. }
  apply Hgen. constructor.
Qed.

Section scan_more.
Context `{Host}.

(** X5. Scanning an existing directory returns exactly its sub-directories
    (each with its name and its path under the base), ordered by name;
    regular files are left out. A base path that does not exist gives the
    empty list. *)
Theorem scan_sorted_subfolders base_path :
  (disk !! base_path = None -> scan_transaction_folders base_path = ok [])
  /\ (forall items, disk !! base_path = Some (Dir items) ->
        exists folders,
          scan_transaction_folders base_path = ok folders
          /\ folders ≡ₚ subfolders base_path items
          /\ Sorted (key_le name) folders
          /\ (forall f, f ∈ folders ->
                isdir (path f) = true /\ path f = join base_path (name f)
                /\ name f ∈ items)).
Proof.
  unfold scan_transaction_folders, path_exists, listdir. split.
  - intros Hnone. rewrite Hnone.
    rewrite bool_decide_eq_false_2 by (intros [? ?]; discriminate). reflexivity.
  - intros items Hdir. rewrite Hdir.
    rewrite bool_decide_eq_true_2 by eauto. cbn [negb rbind ok].
    eexists. split; [reflexivity|].
    split; [apply sorted_perm|]. split; [apply sorted_Sorted|].
    intros f Hf. rewrite sorted_perm in Hf.
    apply list_elem_of_omap in Hf as (item & Hin & Hitem).
    destruct (isdir (join base_path item)) eqn:Hd; [|discriminate].
    injection Hitem as <-. cbn. auto.
Qed.

End scan_more.

(* ===================================================================== *)
(** * Further properties of the batch and its job ledger                  *)
(* ===================================================================== *)

Section ledger_more.
Context `{Builtins} `{Mail} `{Host}.

Lemma track_registered (j k : string) v (jobs : gmap string (gmap string pyval)) job :
  j <> "" -> jobs !! j = Some job ->
  track (Some j) k v jobs = ok (<[j := <[k := v]> job]> jobs).
Proof.
  intros Hj Hjob. unfold track, set_job.
  replace (String.eqb j "") with false by (symmetry; apply String.eqb_neq; exact Hj).
  rewrite Hjob. reflexivity.
Qed.

Lemma track_folder_registered (j : string) idx f
    (jobs : gmap string (gmap string pyval)) job :
  j <> "" -> jobs !! j = Some job ->
  exists jobs',
    track_folder (Some j) idx f jobs = ok jobs'
    /\ jobs' !! j = Some (<["processed" := VInt (Z.of_nat idx)]>
                            (<["current_transaction" := VStr (name f)]>
                               (<["progress" := VStr "reconciling"]> job)))
    /\ (forall j', j' <> j -> jobs' !! j' = jobs !! j').
Proof.
  intros Hj Hjob. unfold track_folder.
  rewrite (track_registered j _ _ jobs job Hj Hjob). cbn [rbind ok].
  rewrite (track_registered j _ _ _ _ Hj (lookup_insert_eq _ _ _)). cbn [rbind ok].
  rewrite (track_registered j _ _ _ _ Hj (lookup_insert_eq _ _ _)).
  eexists. split; [reflexivity|]. split; [apply lookup_insert_eq|].
  intros j' Hne. do 3 (rewrite lookup_insert_ne by congruence). reflexivity.
Qed.

Lemma track_start_registered (j : string) total
    (jobs : gmap string (gmap string pyval)) job :
  j <> "" -> jobs !! j = Some job ->
  exists jobs',
    track_start (Some j) total jobs = ok jobs'
    /\ jobs' !! j = Some (<["processed" := VInt 0]>
                            (<["total_transactions" := VInt (Z.of_nat total)]>
                               (<["progress" := VStr "fetching"]> job)))
    /\ (forall j', j' <> j -> jobs' !! j' = jobs !! j').
Proof.
  intros Hj Hjob. unfold track_start.
  rewrite (track_registered j _ _ jobs job Hj Hjob). cbn [rbind ok].
  rewrite (track_registered j _ _ _ _ Hj (lookup_insert_eq _ _ _)). cbn [rbind ok].
  rewrite (track_registered j _ _ _ _ Hj (lookup_insert_eq _ _ _)).
  eexists. split; [reflexivity|]. split; [apply lookup_insert_eq|].
  intros j' Hne. do 3 (rewrite lookup_insert_ne by congruence). reflexivity.
Qed.

Lemma batch_unknown_job_raises base_path (j : string)
    (jobs : gmap string (gmap string pyval)) folders :
  scan_transaction_folders base_path = ok folders ->
  j <> "" -> jobs !! j = None ->
  process_transaction_batch base_path (Some j) jobs = (raise (KeyError j), jobs, []).
Proof.
  intros Hscan Hj Hnone. unfold process_transaction_batch. rewrite Hscan.
  unfold ok at 1. unfold track_start, track, set_job.
  replace (String.eqb j "") with false by (symmetry; apply String.eqb_neq; exact Hj).
  rewrite Hnone. reflexivity.
Qed.

(** X6. The batch raises in three cases only. Listing the base path
    raises, or the job id is a non-empty string the ledger does not hold
    ([KeyError] at the first progress update): in both cases nothing has
    been reconciled, no mail has gone out and the ledger is unchanged.
    Or the files of a scanned folder cannot be mapped because listing it
    raises: the batch then ends with that exception after it has
    reconciled the folders before it and sent their alerts, and it
    returns none of their results. *)
Theorem batch_raises_exactly_when base_path job_id
    (jobs : gmap string (gmap string pyval)) e :
  (fst (fst (process_transaction_batch base_path job_id jobs)) = raise e
   <-> scan_transaction_folders base_path = raise e
       \/ (exists folders j,
             scan_transaction_folders base_path = ok folders
             /\ job_id = Some j /\ j <> "" /\ jobs !! j = None /\ e = KeyError j)
       \/ (exists pre f post,
             scan_transaction_folders base_path = ok (pre ++ f :: post)%list
             /\ tracked job_id jobs /\ Forall listable pre
             /\ map_files_in_folder (path f) = raise e))
  /\ (scan_transaction_folders base_path = raise e ->
        process_transaction_batch base_path job_id jobs = (raise e, jobs, []))
  /\ (forall folders j,
        scan_transaction_folders base_path = ok folders ->
        job_id = Some j -> j <> "" -> jobs !! j = None ->
        process_transaction_batch base_path job_id jobs = (raise (KeyError j), jobs, []))
  /\ (forall pre f post,
        scan_transaction_folders base_path = ok (pre ++ f :: post)%list ->
        tracked job_id jobs -> Forall listable pre ->
        map_files_in_folder (path f) = raise e ->
        snd (process_transaction_batch base_path job_id jobs)
        = concat (folder_mail <$> pre)).
Proof.
  assert (Hscanraise : forall e', scan_transaction_folders base_path = raise e' ->
            process_transaction_batch base_path job_id jobs = (raise e', jobs, [])).
  { intros e' Hscan. unfold process_transaction_batch. rewrite Hscan. reflexivity. }
  split; [|split; [apply Hscanraise|split]].
  - split.
    + intros Hraise.
      destruct (scan_transaction_folders base_path) as [e'|folders] eqn:Hscan.
      { left. rewrite (Hscanraise e' eq_refl) in Hraise. cbn in Hraise.
        injection Hraise as ->. reflexivity. }
      right.
      assert (Hok : tracked job_id jobs ->
                exists pre f post,
                  folders = (pre ++ f :: post)%list /\ Forall listable pre
                  /\ map_files_in_folder (path f) = raise e).
      { intros Ht.
        destruct (folders_split folders (scan_folders_isdir _ _ Hscan))
          as [Hall|(pre & f & post & e' & -> & Hpre & He')].
        - destruct (process_transaction_batch_ok base_path job_id jobs folders
                      Hscan Ht Hall) as (jobs' & Hrun).
          rewrite Hrun in Hraise. discriminate.
        - destruct (process_transaction_batch_abort base_path job_id jobs pre f post e'
                      Hscan Ht Hpre He') as (jobs' & Hrun).
          rewrite Hrun in Hraise. cbn in Hraise. injection Hraise as <-.
          exists pre, f, post. split; [reflexivity|]. split; [exact Hpre|exact He']. }
      assert (Hthird : tracked job_id jobs ->
                exists pre f post,
                  inr folders = ok (pre ++ f :: post)%list /\ tracked job_id jobs
                  /\ Forall listable pre /\ map_files_in_folder (path f) = raise e).
      { intros Ht. destruct (Hok Ht) as (pre & f & post & -> & Hpre & He).
        exists pre, f, post. auto. }
      destruct job_id as [j|]; [|right; exact (Hthird I)].
      destruct (String.eqb_spec j "") as [->|Hj];
        [right; exact (Hthird (or_introl eq_refl))|].
      destruct (jobs !! j) as [job|] eqn:Hjob;
        [right; exact (Hthird (or_intror (ex_intro _ job Hjob)))|].
      left. exists folders, j.
      rewrite (batch_unknown_job_raises _ _ _ _ Hscan Hj Hjob) in Hraise.
      cbn in Hraise. injection Hraise as <-. auto.
    + intros [Hscan|[(folders & j & Hscan & -> & Hj & Hjob & ->)
                    |(pre & f & post & Hscan & Ht & Hpre & He)]].
      * rewrite (Hscanraise e Hscan). reflexivity.
      * rewrite (batch_unknown_job_raises _ _ _ _ Hscan Hj Hjob). reflexivity.
      * destruct (process_transaction_batch_abort base_path job_id jobs pre f post e
                    Hscan Ht Hpre He) as (jobs' & Hrun).
        rewrite Hrun. reflexivity.
  - intros folders j Hscan -> Hj Hjob.
    apply (batch_unknown_job_raises _ _ _ _ Hscan Hj Hjob).
  - intros pre f post Hscan Ht Hpre He.
    destruct (process_transaction_batch_abort base_path job_id jobs pre f post e
                Hscan Ht Hpre He) as (jobs' & Hrun).
    rewrite Hrun. reflexivity.
Qed.

Lemma batch_loop_ledger (j : string) folders :
  forall idx (jobs : gmap string (gmap string pyval)) job results outbox out jobs' mails,
    j <> "" -> jobs !! j = Some job ->
    batch_loop (Some j) idx folders jobs results outbox = (out, jobs', mails) ->
    exists job',
      jobs' !! j = Some job'
      /\ (forall j', j' <> j -> jobs' !! j' = jobs !! j')
      /\ (forall k, k <> "progress" -> k <> "current_transaction" ->
                    k <> "processed" -> job' !! k = job !! k)
      /\ (folders = [] -> job' = job)
      /\ (forall rs f, out = ok rs -> last folders = Some f ->
            job' !! "progress" = Some (VStr "reconciling")
            /\ job' !! "current_transaction" = Some (VStr (name f))
            /\ job' !! "processed"
               = Some (VInt (Z.of_nat (idx + length folders - 1))))
      /\ (forall e, out = raise e ->
            exists pre f post,
              folders = (pre ++ f :: post)%list
              /\ map_files_in_folder (path f) = raise e
              /\ job' !! "progress" = Some (VStr "reconciling")
              /\ job' !! "current_transaction" = Some (VStr (name f))
              /\ job' !! "processed" = Some (VInt (Z.of_nat (idx + length pre)))).
Proof.
  induction folders as [|folder rest IH];
    intros idx jobs job results outbox out jobs' mails Hj Hjob Hloop.
  - cbn in Hloop. injection Hloop as <- <- <-.
    exists job. split; [exact Hjob|]. split; [auto|]. split; [auto|].
    split; [auto|]. split; [intros rs f _ Hf; discriminate|].
    intros e He. discriminate.
  - cbn [batch_loop] in Hloop.
    destruct (track_folder_registered j idx folder jobs job Hj Hjob)
      as (jobs3 & E3 & Hj3 & Hother3).
    rewrite E3 in Hloop. unfold ok at 1 in Hloop.
    destruct (map_files_in_folder (path folder)) as [e|fp] eqn:Hmap.
    + unfold raise in Hloop. injection Hloop as <- <- <-.
      eexists. split; [exact Hj3|]. split; [exact Hother3|].
      split.
      { intros k K1 K2 K3. do 3 (rewrite lookup_insert_ne by congruence). reflexivity. }
      split; [discriminate|]. split; [intros rs f Hrs; discriminate|].
      intros e' He'. injection He' as <-.
      exists [], folder, rest. split; [reflexivity|]. split; [exact Hmap|].
      split; [do 2 (rewrite lookup_insert_ne by discriminate); apply lookup_insert_eq|].
      split; [rewrite lookup_insert_ne by discriminate; apply lookup_insert_eq|].
      rewrite lookup_insert_eq. do 3 f_equal. cbn. lia.
    + destruct (process_folder (name folder) fp) as [r ms].
      apply IH with (job := <["processed" := VInt (Z.of_nat idx)]>
                              (<["current_transaction" := VStr (name folder)]>
                                 (<["progress" := VStr "reconciling"]> job)))
        in Hloop as (job' & Hj' & Hother & Hkeys & Hnil & Hlast & Hraise);
        [|exact Hj|exact Hj3].
      exists job'. split; [exact Hj'|]. split.
      { intros j' Hne. rewrite (Hother j' Hne). apply Hother3. exact Hne. }
      split.
      { intros k K1 K2 K3. rewrite (Hkeys k K1 K2 K3).
        do 3 (rewrite lookup_insert_ne by congruence). reflexivity. }
      split; [discriminate|]. split.
      * intros rs f Hrs Hf. destruct rest as [|g rest'].
        -- cbn in Hf. injection Hf as <-. rewrite (Hnil eq_refl).
           split; [|split].
           ++ do 2 (rewrite lookup_insert_ne by discriminate). apply lookup_insert_eq.
           ++ rewrite lookup_insert_ne by discriminate. apply lookup_insert_eq.
           ++ rewrite lookup_insert_eq. do 3 f_equal. cbn. lia.
        -- destruct (Hlast rs f Hrs) as (P1 & P2 & P3); [exact Hf|].
           split; [exact P1|]. split; [exact P2|]. rewrite P3. do 3 f_equal.
           cbn [length]. lia.
      * intros e He. destruct (Hraise e He) as (pre & f & post & -> & Hf & P1 & P2 & P3).
        exists (folder :: pre), f, post. split; [reflexivity|]. split; [exact Hf|].
        split; [exact P1|]. split; [exact P2|]. rewrite P3. do 3 f_equal.
        cbn [length]. lia.
Qed.

(** A run of the batch for a registered job: what it returns and what it
    leaves in the ledger, whether it returns or raises. *)
Lemma batch_registered_run base_path (j : string)
    (jobs : gmap string (gmap string pyval)) job folders :
  scan_transaction_folders base_path = ok folders ->
  j <> "" -> jobs !! j = Some job ->
  exists out jobs' job' mails,
    process_transaction_batch base_path (Some j) jobs = (out, jobs', mails)
    /\ jobs' !! j = Some job'
    /\ (forall j', j' <> j -> jobs' !! j' = jobs !! j')
    /\ job' !! "total_transactions" = Some (VInt (Z.of_nat (length folders)))
    /\ (forall k, k <> "progress" -> k <> "total_transactions" ->
                  k <> "processed" -> k <> "current_transaction" ->
                  job' !! k = job !! k)
    /\ (forall results, out = ok results ->
          results = folder_result <$> folders
          /\ job' !! "progress" = Some (VStr "finalizing")
          /\ (forall f, last folders = Some f ->
                job' !! "processed" = Some (VInt (Z.of_nat (length folders) - 1))
                /\ job' !! "current_transaction" = Some (VStr (name f)))
          /\ (folders = [] -> job' !! "processed" = Some (VInt 0)))
    /\ (forall e, out = raise e ->
          job' !! "progress" = Some (VStr "reconciling")
          /\ exists pre f post,
               folders = (pre ++ f :: post)%list
               /\ map_files_in_folder (path f) = raise e
               /\ job' !! "current_transaction" = Some (VStr (name f))
               /\ job' !! "processed" = Some (VInt (Z.of_nat (length pre))))
    /\ (Forall listable folders -> exists results, out = ok results).
Proof.
  intros Hscan Hj Hjob.
  assert (Ht : tracked (Some j) jobs) by (right; eauto).
  destruct (process_transaction_batch base_path (Some j) jobs)
    as [[out jobs'] mails] eqn:Hrun.
  pose proof Hrun as Hrun'.
  unfold process_transaction_batch in Hrun. rewrite Hscan in Hrun.
  unfold ok at 1 in Hrun.
  destruct (track_start_registered j (length folders) jobs job Hj Hjob)
    as (jobs0 & E0 & Hj0 & Hother0).
  rewrite E0 in Hrun. unfold ok at 1 in Hrun.
  destruct (batch_loop _ _ _ _ _ _) as [[lout jobs1] out1] eqn:Hloop.
  apply batch_loop_ledger with
    (job := <["processed" := VInt 0]>
              (<["total_transactions" := VInt (Z.of_nat (length folders))]>
                 (<["progress" := VStr "fetching"]> job)))
    in Hloop as (job1 & Hj1 & Hother & Hkeys & Hnil & Hlast & Hraise);
    [|exact Hj|exact Hj0].
  assert (Htotal : job1 !! "total_transactions"
                   = Some (VInt (Z.of_nat (length folders)))).
  { rewrite Hkeys by discriminate.
    rewrite lookup_insert_ne by discriminate. apply lookup_insert_eq. }
  assert (Hrest : forall k, k <> "progress" -> k <> "total_transactions" ->
                    k <> "processed" -> k <> "current_transaction" ->
                    job1 !! k = job !! k).
  { intros k K1 K2 K3 K4. rewrite (Hkeys k K1 K4 K3).
    do 3 (rewrite lookup_insert_ne by congruence). reflexivity. }
  assert (Hothers : forall j', j' <> j -> jobs1 !! j' = jobs !! j').
  { intros j' Hne. rewrite (Hother j' Hne). apply Hother0. exact Hne. }
  destruct lout as [e|results].
  - unfold raise in Hrun. injection Hrun as <- <- <-.
    exists (raise e), jobs1, job1, out1.
    split; [reflexivity|]. split; [exact Hj1|]. split; [exact Hothers|].
    split; [exact Htotal|]. split; [exact Hrest|].
    split; [intros results Hr; discriminate|]. split.
    + intros e' He'. injection He' as <-.
      destruct (Hraise e eq_refl) as (pre & f & post & -> & Hf & P1 & P2 & P3).
      split; [exact P1|]. exists pre, f, post. auto.
    + intros Hall.
      destruct (process_transaction_batch_ok base_path (Some j) jobs folders
                  Hscan Ht Hall) as (jobs'' & Hrun'').
      rewrite Hrun'' in Hrun'. discriminate.
  - rewrite (track_registered j _ _ jobs1 job1 Hj Hj1) in Hrun.
    unfold ok at 1 in Hrun. injection Hrun as <- <- <-.
    eexists (ok results), _, _, out1.
    split; [reflexivity|]. split; [apply lookup_insert_eq|]. split.
    { intros j' Hne. rewrite lookup_insert_ne by congruence. apply Hothers. exact Hne. }
    split; [rewrite lookup_insert_ne by discriminate; exact Htotal|].
    split.
    { intros k K1 K2 K3 K4. rewrite lookup_insert_ne by congruence.
      apply Hrest; assumption. }
    split.
    + intros results' Hr. injection Hr as <-. split.
      { destruct (folders_split folders (scan_folders_isdir _ _ Hscan))
          as [Hall|(pre & f & post & e' & -> & Hpre & He')].
        - destruct (process_transaction_batch_ok base_path (Some j) jobs folders
                      Hscan Ht Hall) as (jobs'' & Hrun'').
          rewrite Hrun'' in Hrun'. injection Hrun' as <- _ _. reflexivity.
        - destruct (process_transaction_batch_abort base_path (Some j) jobs pre f post e'
                      Hscan Ht Hpre He') as (jobs'' & Hrun'').
          rewrite Hrun'' in Hrun'. discriminate. }
      split; [apply lookup_insert_eq|]. split.
      * intros f Hf. destruct (Hlast results f eq_refl Hf) as (_ & P2 & P3).
        rewrite !lookup_insert_ne by discriminate. split; [|exact P2].
        rewrite P3. do 2 f_equal.
        destruct folders; [discriminate|]. cbn [length]. lia.
      * intros Hnone. rewrite lookup_insert_ne by discriminate.
        rewrite (Hnil Hnone). apply lookup_insert_eq.
    + split; [intros e He; discriminate|]. intros _. eauto.
Qed.

(** X7. A run of the batch for a registered job always leaves that job's
    ledger entry with total_transactions equal to the number of scanned
    folders, and leaves other jobs and the job's other fields alone. When
    the run returns, it returns one result per folder, progress is
    "finalizing", and after a non-empty batch the counter "processed" is
    the index of the last folder, one less than the total, and
    current_transaction is the last folder's name. When the run raises
    (a folder that cannot be listed), progress stays "reconciling" and
    current_transaction and "processed" name the folder it stopped at.
    The run returns whenever every scanned folder can be listed. *)
Theorem batch_ledger_after_run base_path (j : string)
    (jobs : gmap string (gmap string pyval)) job folders :
  scan_transaction_folders base_path = ok folders ->
  j <> "" -> jobs !! j = Some job ->
  exists out jobs' job' mails,
    process_transaction_batch base_path (Some j) jobs = (out, jobs', mails)
    /\ jobs' !! j = Some job'
    /\ (forall j', j' <> j -> jobs' !! j' = jobs !! j')
    /\ job' !! "total_transactions" = Some (VInt (Z.of_nat (length folders)))
    /\ (forall k, k <> "progress" -> k <> "total_transactions" ->
                  k <> "processed" -> k <> "current_transaction" ->
                  job' !! k = job !! k)
    /\ (forall results, out = ok results ->
          results = folder_result <$> folders
          /\ job' !! "progress" = Some (VStr "finalizing")
          /\ (forall f, last folders = Some f ->
                job' !! "processed" = Some (VInt (Z.of_nat (length folders) - 1))
                /\ job' !! "current_transaction" = Some (VStr (name f)))
          /\ (folders = [] -> job' !! "processed" = Some (VInt 0)))
    /\ (forall e, out = raise e ->
          job' !! "progress" = Some (VStr "reconciling")
          /\ exists pre f post,
               folders = (pre ++ f :: post)%list
               /\ map_files_in_folder (path f) = raise e
               /\ job' !! "current_transaction" = Some (VStr (name f))
               /\ job' !! "processed" = Some (VInt (Z.of_nat (length pre))))
    /\ (Forall listable folders -> exists results, out = ok results).
Proof.
  apply batch_registered_run.
Qed.

End ledger_more.

(* ===================================================================== *)
(** * Further properties of the workers and the /rates-file route         *)
(* ===================================================================== *)

Section worker_more.
Context `{Builtins} `{Mail} `{Host}.

(** X8. When the engine returns [None] the two orchestration paths
    disagree: the batch records a success with no report and no mail,
    while the worker writes the JSON file, records report_file and
    email_sent in the transaction dict, and then fails on
    [report['summary']] with a [TypeError]. *)
Theorem none_report_splits_paths folder_name file_paths p idx transaction temp_dir :
  summary file_paths = Some p -> p <> "" ->
  run_rate_analysis (mapping_dict file_paths) = ok VNone ->
  transaction !! "files" = Some (mapping_dict file_paths) ->
  dump_json (join temp_dir ("report_" ++ decimal idx ++ ".json")) VNone = ok tt ->
  let single := process_single_transaction idx transaction temp_dir in
  process_folder folder_name file_paths
  = ({| transaction_name := folder_name; status := "success"; error := None;
        report := VNone; email_sent := false |}, [])
  /\ s_status (fst (fst single)) = "failed"
  /\ s_error (fst (fst single)) = Some "'NoneType' object is not subscriptable"
  /\ snd single = []
  /\ snd (fst single) !! "status" = Some (VStr "failed")
  /\ snd (fst single) !! "report_file"
     = Some (VStr ("report_" ++ decimal idx ++ ".json"))
  /\ snd (fst single) !! "email_sent" = Some (VBool false).
Proof.
  intros Hs Hp Hrun Hfiles Hdump. split.
  { unfold process_folder. rewrite Hs.
    replace (String.eqb p "") with false
      by (symmetry; apply String.eqb_neq; exact Hp).
    unfold reconcile_folder. rewrite Hrun. reflexivity. }
  cbn zeta. unfold process_single_transaction.
  rewrite (single_lookup_files _ _ Hfiles). cbn [rbind ok].
  rewrite Hrun. cbn [rbind ok below_threshold truthy negb].
  rewrite Hdump. unfold ok, single_failed.
  cbn [getitem rbind raise type_name fst snd s_status s_error str_exn].
  split; [reflexivity|]. split; [reflexivity|]. split; [reflexivity|].
  split; [rewrite lookup_insert_ne by discriminate; apply lookup_insert_eq|].
  split.
  - do 3 (rewrite lookup_insert_ne by discriminate). apply lookup_insert_eq.
  - do 2 (rewrite lookup_insert_ne by discriminate). apply lookup_insert_eq.
Qed.

(** X9. The worker changes the transaction dict only under the keys
    status, error, report_file, email_sent and amount_reconciled; every
    other key (name, path, files, ...) keeps its value, and the name it
    returns is the dict's name (or the empty string). *)
Theorem worker_touches_only_its_keys idx (transaction : gmap string pyval) temp_dir k :
  k <> "status" -> k <> "error" -> k <> "report_file" ->
  k <> "email_sent" -> k <> "amount_reconciled" ->
  let single := process_single_transaction idx transaction temp_dir in
  snd (fst single) !! k = transaction !! k
  /\ s_transaction_name (fst (fst single)) = default (VStr "") (transaction !! "name")
  /\ index (fst (fst single)) = idx.
Proof.
  intros K1 K2 K3 K4 K5. cbn zeta. unfold process_single_transaction.
  set (t1 := <["status" := VStr "processing"]> transaction).
  assert (Hname : t1 !! "name" = transaction !! "name")
    by (unfold t1; apply lookup_insert_ne; discriminate).
  assert (Hk : t1 !! k = transaction !! k)
    by (unfold t1; apply lookup_insert_ne; congruence).
  destruct (rbind _ _) as [e|[rep below]].
  { unfold single_failed. cbn [fst snd s_transaction_name index].
    rewrite Hname. do 2 (rewrite lookup_insert_ne by congruence). auto. }
  destruct (if below then _ else _) as [mails sent].
  destruct (dump_json _ rep) as [e|[]].
  { unfold single_failed. cbn [fst snd s_transaction_name index].
    rewrite Hname. do 2 (rewrite lookup_insert_ne by congruence). auto. }
  destruct (rbind _ _) as [e|display];
    unfold single_failed; cbn [fst snd s_transaction_name index].
  - do 3 (rewrite (lookup_insert_ne _ _ "name") by discriminate).
    rewrite Hname. do 5 (rewrite lookup_insert_ne by congruence). auto.
  - do 3 (rewrite (lookup_insert_ne _ _ "name") by discriminate).
    rewrite Hname. do 4 (rewrite lookup_insert_ne by congruence). auto.
Qed.

(** X10. Once the engine has returned a report below the threshold, the
    worker's mail is the alert's mail whatever happens afterwards: when
    writing the JSON file raises, the result is failed with that error and
    the alert has run all the same. *)
Theorem worker_alert_precedes_failure idx (transaction : gmap string pyval)
    temp_dir fp report e :
  transaction !! "files" = Some fp ->
  run_rate_analysis fp = ok report ->
  below_threshold report = ok true ->
  dump_json (join temp_dir ("report_" ++ decimal idx ++ ".json")) report = raise e ->
  let single := process_single_transaction idx transaction temp_dir in
  snd single
  = fst (send_reconciliation_alert report (default (VStr "") (transaction !! "name")))
  /\ s_status (fst (fst single)) = "failed"
  /\ s_error (fst (fst single)) = Some (str_exn e)
  /\ s_email_sent (fst (fst single)) = None.
Proof.
  intros Hfiles Hrun Hbelow Hdump. cbn zeta. unfold process_single_transaction.
  rewrite (single_lookup_files _ _ Hfiles). cbn [rbind ok].
  rewrite Hrun. cbn [rbind ok]. rewrite Hbelow. cbn [rbind ok].
  rewrite lookup_insert_ne by discriminate.
  destruct (send_reconciliation_alert report _) as [mails sent].
  rewrite Hdump. unfold raise. cbn. auto.
Qed.

(** X11. On a POST the route replaces the global last_rate_report exactly
    when the analysis returned a report, and shows that report; when the
    analysis raises, the page carries the exception text, no report, and
    the global keeps its value. The route starts a mail delivery exactly
    when the alert's own conditions hold for the report: alerting is
    enabled and the summary holds a numeric amount that is not [>= 95]
    (below 95, or NaN) and can be formatted, with every printed field.
    Any other method changes nothing. *)
Theorem rates_file_outcomes method files temp_dir last_rate_report :
  let out := rates_file method files temp_dir last_rate_report in
  (method <> "POST" ->
   out = ({| page_report := VNone; error_message := None |}, last_rate_report, []))
  /\ (method = "POST" -> forall e, rates_analysis files temp_dir = raise e ->
      out = ({| page_report := VNone; error_message := Some (str_exn e) |},
             last_rate_report, []))
  /\ (method = "POST" -> forall report, rates_analysis files temp_dir = ok report ->
      page_report (fst (fst out)) = report /\ snd (fst out) = report
      /\ (snd out <> [] <->
          EMAIL_ENABLED = true
          /\ exists v, reports_value report v /\ ge_int v 95 = ok false
                       /\ in_double_range v = true /\ prints_all report)).
Proof.
  cbn zeta. unfold rates_file. split.
  { intros Hm. replace (String.eqb method "POST") with false
      by (symmetry; apply String.eqb_neq; exact Hm). reflexivity. }
  split.
  { intros -> e He. cbn [String.eqb Ascii.eqb Bool.eqb negb]. rewrite He. reflexivity. }
  intros -> report Hr. cbn [String.eqb Ascii.eqb Bool.eqb negb]. rewrite Hr.
  unfold ok.
  assert (Hready : EMAIL_ENABLED = true
            /\ (exists v, reports_value report v /\ ge_int v 95 = ok false
                          /\ in_double_range v = true /\ prints_all report) ->
            has_summary report = inr true).
  { intros (_ & v & (d & s & -> & Hd & Hs) & _).
    unfold has_summary. rewrite (truthy_dict d _ _ Hd). cbn [negb get].
    rewrite Hd. cbn -[truthy]. rewrite (truthy_dict s _ _ Hs). reflexivity. }
  destruct (has_summary report) as [e|[|]] eqn:Hsum; cbn [fst snd page_report];
    (split; [reflexivity|]); (split; [reflexivity|]).
  - split; [congruence|]. intros Hc.
    specialize (Hready Hc). discriminate.
  - rewrite <- attempts_iff. unfold attempts.
    destruct (send_alert_cases report (VStr ""))
      as [[_ Hs]|[(e & _ & Hs)|[(m & e & _ & _ & Hs)|(m & _ & _ & Hs)]]];
      rewrite Hs; cbn [fst]; split.
    + congruence.
    + intros [msg Hm]. rewrite Hs in Hm. discriminate.
    + congruence.
    + intros [msg Hm]. rewrite Hs in Hm. discriminate.
    + intros _. exists m. rewrite Hs. reflexivity.
    + intros _. discriminate.
    + intros _. exists m. rewrite Hs. reflexivity.
    + intros _. discriminate.
  - split; [congruence|]. intros Hc.
    specialize (Hready Hc). discriminate.
Qed.

End worker_more.

(* ===================================================================== *)
(** * Further properties of the root-cause analyzer                       *)
(* ===================================================================== *)



Section analyzer_more.
Context `{Builtins} `{RCA.OpenAI}.

Import RCA.







Lemma threshold_false_inv report :
  (let* summary := get report "summary" (VDict ∅) in
   let* amount_reconciled := get summary "amount_reconciled_percentage" (VInt 100) in
   ge_int amount_reconciled 95) = ok false ->
  exists v, reports_value report v /\ ge_int v 95 = ok false.
Proof.
  destruct report as [| | | | | |d| | |]; try discriminate.
  cbn [get rbind ok].
  destruct (d !! "summary") as [sv|] eqn:Hd; cbn [default from_option id].
  2:{ cbn. rewrite lookup_empty. cbn. discriminate. }
  destruct sv as [| | | | | |s| | |]; try discriminate.
  cbn [get rbind ok].
  destruct (s !! "amount_reconciled_percentage") as [v|] eqn:Hs;
    cbn [default from_option id]; [|discriminate].
  intros E. exists v. split; [exists d, s; auto|exact E].
Qed.

(** X14. The analyzer sends something to the OpenAI API only when it has a
    key, the report's summary holds an amount that is a number and is not
    [>= 95] (a number below 95, or NaN) and the extraction found at least
    one discrepancy; it then sends exactly one request, whose user
    message is the prompt built from that report. *)
Theorem api_called_only_for_discrepancies self report :
  fst (analyze_reconciliation_discrepancies self report) <> [] ->
  check_openai_availability self = true
  /\ (exists v, reports_value report v /\ ge_int v 95 = ok false)
  /\ exists discs prompt,
       _extract_discrepancies report = ok discs /\ discs <> []
       /\ _build_analysis_prompt report discs = ok prompt
       /\ fst (analyze_reconciliation_discrepancies self report) = [prompt].
Proof.
  unfold analyze_reconciliation_discrepancies.
  destruct (rbind _ _) as [e|[|]] eqn:Hth; cbn [fst]; try congruence.
  destruct (check_openai_availability self) eqn:Hav; cbn [negb fst]; [|congruence].
  destruct (_extract_discrepancies report) as [e|[|disc discs]] eqn:Hex;
    cbn [fst]; try congruence.
  destruct (_build_analysis_prompt report (disc :: discs)) as [e|prompt] eqn:Hb;
    cbn [fst]; [congruence|].
  unfold generate_analysis. rewrite Hav. cbn [negb].
  intros _. split; [reflexivity|].
  split; [apply threshold_false_inv; exact Hth|].
  exists (disc :: discs), prompt.
  split; [first [exact Hex|reflexivity]|]. split; [discriminate|].
  split; [first [exact Hb|reflexivity]|].
  destruct (chat_completions_create _ _ _) as [e|[|[c|] rest]]; reflexivity.
Qed.

(** X15. The defaults of the threshold test cover absent keys only: a
    report whose "summary" key holds something that is not a dict (for
    instance [None]) makes the analyzer raise [AttributeError], and a
    summary whose amount is not a number (no bool, int or float) makes it
    raise [TypeError]; in both cases nothing is sent to the API. *)
Theorem analyzer_raises_on_malformed_summary self (d : gmap string pyval) v :
  d !! "summary" = Some v ->
  (as_number v = None -> (forall s, v <> VDict s) ->
   analyze_reconciliation_discrepancies self (VDict d)
   = ([], raise (AttributeError ("'" ++ type_name v ++ "' object has no attribute 'get'"))))
  /\ (forall (s : gmap string pyval) a,
        v = VDict s -> s !! "amount_reconciled_percentage" = Some a ->
        is_number a = false ->
        analyze_reconciliation_discrepancies self (VDict d)
        = ([], raise (TypeError ("'>=' not supported between instances of '"
                                   ++ type_name a ++ "' and 'int'")))).
Proof.
  intros Hd. unfold analyze_reconciliation_discrepancies. cbn [get rbind ok].
  rewrite Hd. cbn [default from_option id]. split.
  - intros _ Hnd. destruct v as [| | | | | |s| | |]; try reflexivity.
    destruct (Hnd s eq_refl).
  - intros s a -> Hs Ha. cbn [get rbind ok]. rewrite Hs.
    cbn [default from_option id]. destruct a; try discriminate Ha; reflexivity.
Qed.

(** X16. An analyzer built without a usable key (the argument and the
    environment variable are both absent or empty) answers a report below
    the threshold with the "unavailable" text and sends nothing to the
    API; an explicit non-empty key always wins over the environment. *)
Theorem analyzer_without_key_is_unavailable report key env_key q :
  reports_amount report q -> (q < 95)%Q ->
  (nonempty key = false -> nonempty env_key = false ->
   generate_root_cause_analysis report key env_key
   = ([], ok (Some "❌ Root Cause Analysis unavailable: OpenAI API key is not configured. Please set the OPENAI_API_KEY environment variable.")))
  /\ (nonempty key = true ->
      api_key (init key env_key) = key
      /\ check_openai_availability (init key env_key) = true)
  /\ (nonempty key = false ->
      api_key (init key env_key) = env_key
      /\ check_openai_availability (init key env_key) = nonempty env_key).
Proof.
  intros (d & s & v & -> & Hd & Hs & Hv) Hq.
  assert (Hth : (let* summary := get (VDict d) "summary" (VDict ∅) in
                 let* amount_reconciled :=
                   get summary "amount_reconciled_percentage" (VInt 100) in
                 ge_int amount_reconciled 95) = ok false).
  { cbn [get rbind ok]. rewrite Hd. cbn [default from_option id get rbind ok].
    rewrite Hs. cbn [default from_option id]. rewrite (ge_int_number v q 95 Hv).
    f_equal. apply Qle_bool_false. exact Hq. }
  split; [|split].
  - intros Hk He. unfold generate_root_cause_analysis,
      analyze_reconciliation_discrepancies.
    rewrite Hth. unfold check_openai_availability, init. rewrite Hk.
    cbn [client api_key]. rewrite He. reflexivity.
  - intros Hk. unfold check_openai_availability, init. rewrite Hk.
    cbn [client api_key]. rewrite Hk. split; [reflexivity|].
    destruct key; [reflexivity|discriminate].
  - intros Hk. unfold check_openai_availability, init. rewrite Hk.
    cbn [client api_key]. split; [reflexivity|].
    destruct env_key as [k|]; cbn; [|reflexivity].
    rewrite andb_true_r. reflexivity.
Qed.

End analyzer_more.

(* ===================================================================== *)
(** * Properties of the routes                                            *)
(* ===================================================================== *)

Section routes_more.
Context `{Builtins} `{Mail} `{Host} `{Routes.Store}.

Import Routes.

Lemma folder_result_counts f :
  (status (folder_result f) = "failed" /\ email_sent (folder_result f) = false)
  \/ status (folder_result f) = "success".
Proof.
  unfold folder_result.
  destruct (process_folder_status (name f) (folder_files f))
    as [(Hs & _ & _ & He & _)|(Hs & _)]; auto.
Qed.

(** X17. For the results of a batch, the executive summary of the PDF
    report adds up: every transaction is counted as successful or as
    failed, never as both or neither, and the number of e-mail alerts is
    at most the number of successful transactions. *)
Theorem executive_summary_adds_up folders :
  exists successful failed emails_sent,
    executive_summary (folder_result <$> folders)
    = [ ("Total Transactions", decimal (Z.of_nat (length folders)));
        ("Successful", decimal (Z.of_nat successful));
        ("Failed", decimal (Z.of_nat failed));
        ("Email Alerts Sent", decimal (Z.of_nat emails_sent)) ]
    /\ successful + failed = length folders
    /\ emails_sent <= successful.
Proof.
  unfold executive_summary. rewrite length_fmap.
  eexists _, _, _. split; [reflexivity|].
  unfold count_where. induction folders as [|f rest [IH1 IH2]]; [cbn; lia|].
  cbn [fmap list_fmap List.filter].
  destruct (folder_result_counts f) as [[Hs He]|Hs]; rewrite Hs; [rewrite He|];
    cbn [String.eqb Ascii.eqb Bool.eqb length].
  - lia.
  - destruct (email_sent (folder_result f)); cbn [length]; lia.
Qed.

Lemma pending_from_length ts : forall idx,
  length (pending_from idx ts) = total_count ts.
Proof.
  unfold total_count, count_where.
  induction ts as [|t rest IH]; intros idx; [reflexivity|].
  cbn [pending_from List.filter]. destruct (is_pending t); cbn [length]; rewrite IH;
    reflexivity.
Qed.

Lemma pending_from_elem ts : forall idx i t,
  (i, t) ∈ pending_from idx ts
  <-> idx <= i /\ ts !! (i - idx) = Some t /\ is_pending t = true.
Proof.
  induction ts as [|t0 rest IH]; intros idx i t; cbn [pending_from].
  - split; [intros Hin; inversion Hin|intros (_ & Hl & _); discriminate].
  - assert (Hrest : (i, t) ∈ pending_from (S idx) rest
                    <-> S idx <= i /\ (t0 :: rest) !! (i - idx) = Some t
                        /\ is_pending t = true).
    { rewrite IH. split.
      - intros (Hle & Hl & Hp). split; [exact Hle|]. split; [|exact Hp].
        replace (i - idx) with (S (i - S idx)) by lia. exact Hl.
      - intros (Hle & Hl & Hp). split; [exact Hle|]. split; [|exact Hp].
        replace (i - idx) with (S (i - S idx)) in Hl by lia. exact Hl. }
    destruct (is_pending t0) eqn:Hp0.
    + rewrite elem_of_cons, Hrest. split.
      * intros [E|(Hle & Hl & Hp)].
        -- injection E as -> ->. rewrite Nat.sub_diag. auto.
        -- split; [lia|]. auto.
      * intros (Hle & Hl & Hp). destruct (decide (i = idx)) as [->|Hne].
        -- left. rewrite Nat.sub_diag in Hl. cbn in Hl. congruence.
        -- right. split; [lia|]. auto.
    + rewrite Hrest. split.
      * intros (Hle & Hl & Hp). split; [lia|]. auto.
      * intros (Hle & Hl & Hp). destruct (decide (i = idx)) as [->|Hne].
        -- rewrite Nat.sub_diag in Hl. cbn in Hl. congruence.
        -- split; [lia|]. auto.
Qed.

(** X18. The tasks [execute_batch_processing] submits are exactly the
    transactions that are pending and have a summary, each with its
    position in the session list; their number is the count the processing
    page shows, and at most two workers are used. *)
Theorem pending_tasks_are_the_pending (transactions : list (gmap string pyval)) :
  (forall i t, (i, t) ∈ pending_tasks transactions
               <-> transactions !! i = Some t /\ is_pending t = true)
  /\ length (pending_tasks transactions) = total_count transactions
  /\ max_workers (pending_tasks transactions) <= 2
  /\ (pending_tasks transactions <> [] ->
      1 <= max_workers (pending_tasks transactions)).
Proof.
  unfold pending_tasks, max_workers. split; [|split; [|split]].
  - intros i t. rewrite pending_from_elem, Nat.sub_0_r. split.
    + intros (_ & ? & ?). auto.
    + intros (? & ?). split; [lia|auto].
  - apply pending_from_length.
  - lia.
  - intros Hne. destruct (pending_from 0 transactions); [contradiction|]. cbn. lia.
Qed.

Lemma transaction_entry_pending f m :
  is_pending (transaction_entry f m) = bool_decide (is_Some (summary m)).
Proof. reflexivity. Qed.

(** X19. A folder uploaded without a summary workbook is stored with
    has_summary false and is never handed to a worker, and a transaction a
    worker has processed (completed or failed) is no longer pending, so a
    second run does not pick it again. *)
Theorem workers_skip_incomplete_and_done f entries idx
    (transaction : gmap string pyval) temp_dir :
  disk !! path f = Some (Dir entries) ->
  Forall (fun fname => summary_candidate (path f) fname = false) entries ->
  (exists txn, transactions_data [f] = ok [txn]
               /\ txn !! "has_summary" = Some (VBool false)
               /\ pending_tasks [txn] = [])
  /\ is_pending (snd (fst (process_single_transaction idx transaction temp_dir)))
     = false.
Proof.
  intros Hdir Hall. split.
  - cbn [transactions_data]. rewrite (map_files_in_folder_dir _ _ Hdir).
    cbn [rbind ok]. eexists. split; [reflexivity|].
    assert (Hnone : summary (fold_left (map_file (path f)) entries no_files) = None)
      by (apply map_files_summary_none; [reflexivity|exact Hall]).
    unfold pending_tasks. cbn [pending_from]. rewrite transaction_entry_pending.
    unfold transaction_entry. rewrite Hnone.
    split; [reflexivity|]. reflexivity.
  - destruct (process_single_transaction_status idx transaction temp_dir)
      as [(_ & _ & Hst)|(e & _ & _ & Hst & _)];
      unfold is_pending; rewrite Hst; reflexivity.
Qed.

Lemma list_item_in_range {A} (l : list A) (i : Z) :
  (- Z.of_nat (length l) <= i < Z.of_nat (length l))%Z ->
  exists x,
    l !! Z.to_nat (if (i <? 0)%Z then (Z.of_nat (length l) + i)%Z else i) = Some x
    /\ list_item l i = ok x.
Proof.
  intros Hi. unfold list_item.
  set (pos := if (i <? 0)%Z then (Z.of_nat (length l) + i)%Z else i).
  assert (Hpos : (0 <= pos < Z.of_nat (length l))%Z).
  { unfold pos. destruct (Z.ltb_spec i 0); lia. }
  replace ((pos <? 0)%Z || (Z.of_nat (length l) <=? pos)%Z) with false.
  2:{ symmetry. apply orb_false_iff. split; [apply Z.ltb_ge|apply Z.leb_gt]; lia. }
  destruct (lookup_lt_is_Some_2 l (Z.to_nat pos)) as [x Hx]; [lia|].
  exists x. rewrite Hx. auto.
Qed.

Lemma list_item_too_low {A} (l : list A) (i : Z) :
  (i < - Z.of_nat (length l))%Z ->
  list_item l i = raise (OtherError "list index out of range").
Proof.
  intros Hi. unfold list_item.
  replace (i <? 0)%Z with true by (symmetry; apply Z.ltb_lt; lia).
  replace (Z.of_nat (length l) + i <? 0)%Z with true
    by (symmetry; apply Z.ltb_lt; lia).
  reflexivity.
Qed.

Lemma workspace_tasks_ok indices (ts : list (gmap string pyval)) :
  Forall (fun i => (- Z.of_nat (length ts) <= i)%Z) indices ->
  workspace_tasks indices ts = ok (omap (chosen_task ts) indices).
Proof.
  induction 1 as [|i rest Hi _ IH]; [reflexivity|].
  cbn [workspace_tasks omap list_omap]. unfold chosen_task at 1.
  destruct (Z.ltb_spec i (Z.of_nat (length ts))) as [Hlt|Hge].
  - destruct (list_item_in_range ts i) as (x & Hx & Hitem); [lia|].
    rewrite Hitem, Hx, IH. reflexivity.
  - rewrite IH. reflexivity.
Qed.

(** X20. [process_workspace_transactions] turns the requested indices into
    tasks as follows: an index at or past the end of the list is skipped
    silently, an index from 0 selects that transaction, and a negative
    index counts from the end (so -1 selects the last transaction). An
    index below minus the length makes the whole request fail with "list
    index out of range", also for the valid indices before it. *)
Theorem workspace_indices_wrap_around pre i rest (ts : list (gmap string pyval)) :
  Forall (fun k => (- Z.of_nat (length ts) <= k)%Z) pre ->
  workspace_tasks pre ts = ok (omap (chosen_task ts) pre)
  /\ ((i < - Z.of_nat (length ts))%Z ->
      workspace_tasks (pre ++ i :: rest) ts
      = raise (OtherError "list index out of range"))
  /\ ((Z.of_nat (length ts) <= i)%Z -> chosen_task ts i = None)
  /\ (ts <> [] -> chosen_task ts (-1) = (fun t => ((-1)%Z, t)) <$> last ts).
Proof.
  intros Hpre. split; [apply workspace_tasks_ok; exact Hpre|]. split; [|split].
  - intros Hlow. induction Hpre as [|k pre' Hk _ IH]; cbn [app workspace_tasks].
    + replace (i <? Z.of_nat (length ts))%Z with true
        by (symmetry; apply Z.ltb_lt; lia).
      rewrite (list_item_too_low ts i Hlow). reflexivity.
    + destruct (Z.ltb_spec k (Z.of_nat (length ts))) as [Hlt|Hge];
        [|exact IH].
      destruct (list_item_in_range ts k) as (x & _ & Hitem); [lia|].
      rewrite Hitem, IH. reflexivity.
  - intros Hge. unfold chosen_task.
    replace (i <? Z.of_nat (length ts))%Z with false
      by (symmetry; apply Z.ltb_ge; lia). reflexivity.
  - intros Hne. unfold chosen_task.
    replace (-1 <? Z.of_nat (length ts))%Z with true
      by (symmetry; apply Z.ltb_lt; lia).
    cbn [Z.ltb Z.compare]. rewrite last_lookup. do 2 f_equal.
    destruct ts; [contradiction|]. cbn [length]. lia.
Qed.

Lemma eq_str_inv v s : eq_str v s = true -> v = VStr s.
Proof.
  destruct v; try discriminate. cbn. intros E. apply String.eqb_eq in E.
  congruence.
Qed.

(** X21. [workspace_result] renders a report only for a transaction of
    the list whose status is "completed" and whose report_file names an
    existing file that loads; the report shown is the loaded JSON and the
    name is the transaction's name. In every other case it answers with
    an error page and no report. *)
Theorem report_page_only_for_completed index (ts : list (gmap string pyval))
    temp_dir tpl report tname flag :
  workspace_result index ts temp_dir = ok (ReportPage tpl report tname flag) ->
  exists (t : gmap string pyval) fname,
    ts !! index = Some t
    /\ t !! "status" = Some (VStr "completed")
    /\ t !! "report_file" = Some (VStr fname) /\ fname <> ""
    /\ path_exists (join temp_dir fname) = true
    /\ load_json (join temp_dir fname) = ok report
    /\ t !! "name" = Some tname
    /\ flag = default (VBool false) (t !! "email_sent")
    /\ tpl = "rates_tab.html".
Proof.
  unfold workspace_result.
  destruct (ts !! index) as [t|] eqn:Ht; [|discriminate].
  cbn [getitem]. destruct (t !! "status") as [st|] eqn:Hst; [|discriminate].
  cbn [rbind ok]. destruct (eq_str st "completed") eqn:Hc; [|discriminate].
  apply eq_str_inv in Hc as ->. cbn [negb].
  destruct (t !! "report_file") as [rf|] eqn:Hrf; cbn [default from_option id];
    [|discriminate].
  destruct (truthy rf) eqn:Htr; [|discriminate]. cbn [negb].
  destruct rf as [| | | |fname| | | | |]; try discriminate.
  cbn [join_value rbind ok].
  destruct (path_exists (join temp_dir fname)) eqn:Hex; [|discriminate].
  cbn [negb]. destruct (load_json (join temp_dir fname)) as [e|rep] eqn:Hl;
    [discriminate|].
  destruct (t !! "name") as [n|] eqn:Hn; [|discriminate].
  cbn [rbind ok]. intros E. injection E as <- <- <- <-.
  exists t, fname. repeat (split; [first [reflexivity|assumption]|]).
  split.
  { intros ->. discriminate. }
  repeat (split; [first [reflexivity|assumption]|]). reflexivity.
Qed.

Lemma worker_success_dict idx (transaction : gmap string pyval) temp_dir :
  s_status (fst (fst (process_single_transaction idx transaction temp_dir)))
  = "success" ->
  exists sent,
    s_email_sent (fst (fst (process_single_transaction idx transaction temp_dir)))
    = Some sent
    /\ forall k,
        snd (fst (process_single_transaction idx transaction temp_dir)) !! k
        = if String.eqb k "amount_reconciled"
          then snd (fst (process_single_transaction idx transaction temp_dir)) !! k
          else if String.eqb k "email_sent" then Some (VBool sent)
          else if String.eqb k "report_file"
               then Some (VStr ("report_" ++ decimal idx ++ ".json"))
          else if String.eqb k "status" then Some (VStr "completed")
          else transaction !! k.
Proof.
  unfold process_single_transaction.
  destruct (rbind _ _) as [e|[rep below]]; [discriminate|].
  destruct (if below then _ else _) as [mails sent].
  destruct (dump_json _ rep) as [e|[]]; [discriminate|].
  destruct (rbind _ _) as [e|display]; [discriminate|].
  cbn [fst snd s_status s_email_sent]. intros _. exists sent.
  split; [reflexivity|]. intros k.
  destruct (String.eqb_spec k "amount_reconciled") as [->|N1]; [reflexivity|].
  rewrite lookup_insert_ne by congruence.
  destruct (String.eqb_spec k "email_sent") as [->|N2]; [apply lookup_insert_eq|].
  rewrite lookup_insert_ne by congruence.
  destruct (String.eqb_spec k "report_file") as [->|N3]; [apply lookup_insert_eq|].
  rewrite lookup_insert_ne by congruence.
  destruct (String.eqb_spec k "status") as [->|N4]; [apply lookup_insert_eq|].
  do 2 (rewrite lookup_insert_ne by congruence). reflexivity.
Qed.

(** X22. What a worker stores is what the result page needs: after a
    successful run of the worker on transaction number [idx], the result
    page for that position loads the file "report_<idx>.json" of the same
    directory and shows it with the transaction's name and the worker's
    e-mail flag. *)
Theorem worker_result_is_served idx (ts : list (gmap string pyval))
    (transaction : gmap string pyval) temp_dir tname stored :
  let single := process_single_transaction (Z.of_nat idx) transaction temp_dir in
  s_status (fst (fst single)) = "success" ->
  ts !! idx = Some (snd (fst single)) ->
  transaction !! "name" = Some tname ->
  path_exists (join temp_dir ("report_" ++ decimal (Z.of_nat idx) ++ ".json")) = true ->
  load_json (join temp_dir ("report_" ++ decimal (Z.of_nat idx) ++ ".json")) = ok stored ->
  exists sent,
    s_email_sent (fst (fst single)) = Some sent
    /\ workspace_result idx ts temp_dir
       = ok (ReportPage "rates_tab.html" stored tname (VBool sent)).
Proof.
  cbn zeta. intros Hok Hts Hname Hex Hload.
  destruct (worker_success_dict _ _ _ Hok) as (sent & Hsent & Hkeys).
  exists sent. split; [exact Hsent|].
  unfold workspace_result. rewrite Hts. cbn [getitem].
  rewrite (Hkeys "status"). cbn [String.eqb Ascii.eqb Bool.eqb rbind ok eq_str negb].
  rewrite (Hkeys "report_file").
  cbn [String.eqb Ascii.eqb Bool.eqb default from_option id].
  replace (truthy (VStr ("report_" ++ decimal (Z.of_nat idx) ++ ".json"))) with true
    by reflexivity.
  cbn [negb join_value rbind ok]. rewrite Hex. cbn [negb]. rewrite Hload.
  rewrite (Hkeys "name"). cbn [String.eqb Ascii.eqb Bool.eqb]. rewrite Hname.
  cbn [rbind ok]. rewrite (Hkeys "email_sent"). reflexivity.
Qed.

Lemma folder_result_name f : transaction_name (folder_result f) = name f.
Proof.
  unfold folder_result, process_folder.
  destruct (summary (folder_files f)) as [p|]; [|reflexivity].
  destruct (String.eqb p ""); [reflexivity|].
  destruct (reconcile_folder (name f) (folder_files f)) as [e|[r mails]] eqn:Hr;
    [reflexivity|].
  unfold reconcile_folder in Hr.
  destruct (run_rate_analysis _) as [e|rep]; [discriminate|]. cbn [rbind] in Hr.
  destruct (below_threshold rep) as [e|b]; [discriminate|]. cbn [rbind] in Hr.
  destruct b; injection Hr as <- _; reflexivity.
Qed.

Lemma find_result_batch folders f :
  NoDup (name <$> folders) -> f ∈ folders ->
  find_result (folder_result <$> folders) (name f) = Some (folder_result f).
Proof.
  induction folders as [|g rest IH]; intros Hnd Hin; [inversion Hin|].
  cbn [fmap list_fmap find_result] in *. rewrite folder_result_name.
  apply NoDup_cons in Hnd as [Hg Hnd].
  apply elem_of_cons in Hin as [->|Hin].
  - rewrite String.eqb_refl. reflexivity.
  - destruct (String.eqb_spec (name g) (name f)) as [E|_].
    + exfalso. apply Hg. rewrite E. apply list_elem_of_fmap. eauto.
    + apply IH; assumption.
Qed.

Lemma find_result_absent folders wanted :
  wanted ∉ name <$> folders ->
  find_result (folder_result <$> folders) wanted = None.
Proof.
  induction folders as [|g rest IH]; intros Hnot; [reflexivity|].
  cbn [fmap list_fmap find_result] in *. rewrite folder_result_name.
  apply not_elem_of_cons in Hnot as [Hne Hnot].
  destruct (String.eqb_spec (name g) wanted) as [E|_]; [congruence|].
  apply IH. exact Hnot.
Qed.

(** X23. The detail page of a batch follows the batch's own results: for
    folders with distinct names, asking for a folder whose reconciliation
    failed gives the 500 page with that folder's failure reason (for a
    folder without summary workbook: "Summary file not found"); a success
    whose report is empty or [None] gives the 404 page "Report data not
    available"; a name that is not in the batch gives the 404 page
    "Transaction not found. Please run batch analysis again.". *)
Theorem detail_page_reflects_batch folders f :
  NoDup (name <$> folders) -> f ∈ folders ->
  let page := batch_transaction_detail (folder_result <$> folders) (name f) in
  (forall reason, folder_result f = failed_result (name f) reason ->
     page = ErrorPage 500 ("Transaction '" ++ name f ++ "' failed: " ++ reason))
  /\ (summary (folder_files f) = None ->
      page = ErrorPage 500
               ("Transaction '" ++ name f ++ "' failed: Summary file not found"))
  /\ (status (folder_result f) = "success" ->
      truthy (report (folder_result f)) = false ->
      page = ErrorPage 404 "Report data not available")
  /\ (status (folder_result f) = "success" ->
      truthy (report (folder_result f)) = true ->
      page = ReportPage "batch_transaction_detail.html" (report (folder_result f))
               (VStr (name f)) (VBool (email_sent (folder_result f))))
  /\ (forall wanted, wanted ∉ name <$> folders ->
      batch_transaction_detail (folder_result <$> folders) wanted
      = ErrorPage 404 "Transaction not found. Please run batch analysis again.").
Proof.
  intros Hnd Hin. cbn zeta. unfold batch_transaction_detail.
  rewrite (find_result_batch folders f Hnd Hin).
  assert (Hfailed : forall reason, folder_result f = failed_result (name f) reason ->
            detail_page (folder_result f) (name f)
            = ErrorPage 500 ("Transaction '" ++ name f ++ "' failed: " ++ reason)).
  { intros reason ->. reflexivity. }
  split; [exact Hfailed|]. split.
  { intros Hnone. apply Hfailed. unfold folder_result.
    rewrite (process_folder_no_summary _ _ Hnone). reflexivity. }
  split.
  { intros Hs Ht. unfold detail_page. rewrite Hs, Ht. reflexivity. }
  split.
  { intros Hs Ht. unfold detail_page. rewrite Hs, Ht. reflexivity. }
  intros wanted Hnot. rewrite (find_result_absent folders wanted Hnot). reflexivity.
Qed.

Lemma set_job_registered (jobs : gmap string (gmap string pyval)) j k v job :
  jobs !! j = Some job -> set_job jobs j k v = ok (<[j := <[k := v]> job]> jobs).
Proof. intros Hj. unfold set_job. rewrite Hj. reflexivity. Qed.

Lemma fail_job_registered (jobs : gmap string (gmap string pyval)) j e job :
  jobs !! j = Some job ->
  exists jobs' job',
    fail_job j e jobs = ok jobs' /\ jobs' !! j = Some job'
    /\ (forall j', j' <> j -> jobs' !! j' = jobs !! j')
    /\ job' !! "status" = Some (VStr "failed")
    /\ job' !! "error" = Some (VStr (str_exn e))
    /\ job' !! "progress" = job !! "progress".
Proof.
  intros Hj. unfold fail_job. rewrite (set_job_registered _ _ _ _ _ Hj).
  cbn [rbind ok].
  rewrite (set_job_registered _ _ _ _ _ (lookup_insert_eq _ _ _)).
  eexists _, _. split; [reflexivity|]. split; [apply lookup_insert_eq|].
  split.
  { intros j' Hne. do 2 (rewrite lookup_insert_ne by congruence). reflexivity. }
  split; [rewrite lookup_insert_ne by discriminate; apply lookup_insert_eq|].
  split; [apply lookup_insert_eq|].
  do 2 (rewrite lookup_insert_ne by discriminate). reflexivity.
Qed.

(** The ledger a thread leaves for a registered job. *)
Lemma thread_outcome (j : string) folder_path
    (jobs : gmap string (gmap string pyval)) job :
  j <> "" -> jobs !! j = Some job ->
  exists jobs' job',
    fst (run_batch_processing_thread j folder_path jobs) = ok jobs'
    /\ jobs' !! j = Some job'
    /\ (forall j', j' <> j -> jobs' !! j' = jobs !! j')
    /\ ((job' !! "status" = Some (VStr "completed")
         /\ job' !! "progress" = Some (VStr "finalizing")
         /\ job' !! "pdf_path" = Some (VStr "batch_reconciliation_report.pdf")
         /\ exists folders,
              scan_transaction_folders folder_path = ok folders
              /\ build_pdf (folder_result <$> folders) = ok tt
              /\ job' !! "results"
                 = Some (VList (result_dict <$> (folder_result <$> folders))))
        \/ (job' !! "status" = Some (VStr "failed")
            /\ (is_Some (job !! "progress") -> is_Some (job' !! "progress"))
            /\ exists e,
                 job' !! "error" = Some (VStr (str_exn e))
                 /\ (scan_transaction_folders folder_path = raise e
                     \/ (exists folders,
                           scan_transaction_folders folder_path = ok folders
                           /\ build_pdf (folder_result <$> folders) = raise e)
                     \/ (exists folders f,
                           scan_transaction_folders folder_path = ok folders
                           /\ f ∈ folders
                           /\ map_files_in_folder (path f) = raise e)))).
Proof.
  intros Hne Hj. unfold run_batch_processing_thread.
  destruct (scan_transaction_folders folder_path) as [e|folders] eqn:Hscan.
  - assert (Hb : process_transaction_batch folder_path (Some j) jobs
                 = (raise e, jobs, []))
      by (unfold process_transaction_batch; rewrite Hscan; reflexivity).
    rewrite Hb. unfold raise. cbn [fst].
    destruct (fail_job_registered jobs j e job Hj)
      as (jobs' & job' & Hf & Hj' & Hother & Hst & Herr & Hpr).
    exists jobs', job'. split; [exact Hf|]. split; [exact Hj'|].
    split; [exact Hother|]. right. split; [exact Hst|].
    split; [rewrite Hpr; auto|]. exists e. auto.
  - destruct (batch_registered_run folder_path j jobs job folders Hscan Hne Hj)
      as (out & jobs1 & job1 & mails & Hrun & Hj1 & Hother1 & _ & _ & Hok & Hraise & _).
    rewrite Hrun. destruct out as [e|results].
    + cbn [fst].
      destruct (Hraise e eq_refl) as (Hprog & pre & f & post & -> & Hf & _).
      destruct (fail_job_registered jobs1 j e job1 Hj1)
        as (jobs' & job' & Hfail & Hj' & Hother & Hst & Herr & Hpr).
      exists jobs', job'. split; [exact Hfail|]. split; [exact Hj'|].
      split. { intros j' Hn. rewrite (Hother j' Hn). apply Hother1. exact Hn. }
      right. split; [exact Hst|].
      split; [intros _; rewrite Hpr, Hprog; eauto|].
      exists e. split; [exact Herr|]. right. right.
      exists (pre ++ f :: post)%list, f. split; [reflexivity|].
      split; [|exact Hf]. apply elem_of_app. right. apply elem_of_cons. left. reflexivity.
    + destruct (Hok results eq_refl) as (-> & Hprog & _).
      destruct (build_pdf (folder_result <$> folders)) as [e|[]] eqn:Hpdf; cbn [fst].
      * destruct (fail_job_registered jobs1 j e job1 Hj1)
          as (jobs' & job' & Hf & Hj' & Hother & Hst & Herr & Hpr).
        exists jobs', job'. split; [exact Hf|]. split; [exact Hj'|].
        split. { intros j' Hn. rewrite (Hother j' Hn). apply Hother1. exact Hn. }
        right. split; [exact Hst|].
        split; [intros _; rewrite Hpr, Hprog; eauto|].
        exists e. split; [exact Herr|]. right. left.
        exists folders. auto.
      * rewrite (set_job_registered _ _ _ _ _ Hj1). cbn [rbind ok].
        rewrite (set_job_registered _ _ _ _ _ (lookup_insert_eq _ _ _)).
        cbn [rbind ok].
        rewrite (set_job_registered _ _ _ _ _ (lookup_insert_eq _ _ _)).
        eexists _, _. split; [reflexivity|]. split; [apply lookup_insert_eq|].
        split.
        { intros j' Hn. do 3 (rewrite lookup_insert_ne by congruence).
          apply Hother1. exact Hn. }
        left.
        split; [do 2 (rewrite lookup_insert_ne by discriminate); apply lookup_insert_eq|].
        split; [do 3 (rewrite lookup_insert_ne by discriminate); exact Hprog|].
        split; [apply lookup_insert_eq|].
        exists folders. split; [first [exact Hscan|reflexivity]|].
        split; [first [exact Hpdf|reflexivity]|].
        rewrite lookup_insert_ne by discriminate. apply lookup_insert_eq.
Qed.

(** X24. For a registered job the background thread never raises and
    never leaves the job "processing": it ends with status "completed",
    the results of every folder and the PDF path, or with status "failed"
    and the text of the exception (from listing the folder or from laying
    out the PDF). Other jobs of the ledger are not touched. *)
Theorem thread_ends_completed_or_failed (j : string) folder_path
    (jobs : gmap string (gmap string pyval)) job :
  j <> "" -> jobs !! j = Some job ->
  exists jobs' job',
    fst (run_batch_processing_thread j folder_path jobs) = ok jobs'
    /\ jobs' !! j = Some job'
    /\ (forall j', j' <> j -> jobs' !! j' = jobs !! j')
    /\ ((job' !! "status" = Some (VStr "completed")
         /\ exists folders,
              scan_transaction_folders folder_path = ok folders
              /\ job' !! "results"
                 = Some (VList (result_dict <$> (folder_result <$> folders))))
        \/ (job' !! "status" = Some (VStr "failed")
            /\ exists e, job' !! "error" = Some (VStr (str_exn e)))).
Proof.
  intros Hne Hj.
  destruct (thread_outcome j folder_path jobs job Hne Hj)
    as (jobs' & job' & Hrun & Hj' & Hother & Hcase).
  exists jobs', job'. split; [exact Hrun|]. split; [exact Hj'|].
  split; [exact Hother|].
  destruct Hcase as [(Hst & _ & _ & folders & Hscan & _ & Hres)
                    |(Hst & _ & e & Herr & _)].
  - left. split; [exact Hst|]. exists folders. auto.
  - right. split; [exact Hst|]. exists e. exact Herr.
Qed.

(** X25. Polling follows the job's life: an unknown job id gives 404 "Job
    not found"; right after [start_batch_analysis] accepted an existing
    directory the poll shows status "processing", progress "initializing"
    and zero counters; after the thread has run it shows "completed" with
    the list of results, or "failed" with the error text. *)
Theorem polling_follows_the_job (j : string) field
    (jobs : gmap string (gmap string pyval)) :
  j <> "" -> isdir (strip field) = true -> strip field <> "" ->
  let started := start_batch_analysis field j jobs in
  (forall unknown, jobs !! unknown = None ->
     batch_progress unknown jobs = ok (404, {[ "error" := VStr "Job not found" ]}))
  /\ snd started = Some (j, strip field)
  /\ batch_progress j (snd (fst started))
     = ok (200, {[ "status" := VStr "processing"; "progress" := VStr "initializing";
                   "total_transactions" := VInt 0; "processed" := VInt 0;
                   "current_transaction" := VStr "" ]})
  /\ exists jobs' body,
       fst (run_batch_processing_thread j (strip field) (snd (fst started))) = ok jobs'
       /\ batch_progress j jobs' = ok (200, body)
       /\ ((body !! "status" = Some (VStr "completed")
            /\ exists folders,
                 scan_transaction_folders (strip field) = ok folders
                 /\ body !! "results"
                    = Some (VList (result_dict <$> (folder_result <$> folders))))
           \/ (body !! "status" = Some (VStr "failed")
               /\ exists e, body !! "error" = Some (VStr (str_exn e)))).
Proof.
  intros Hne Hdir Hfield. cbn zeta.
  assert (Hstart : start_batch_analysis field j jobs
                   = ((200, {[ "job_id" := VStr j; "status" := VStr "started" ]}),
                      <[j := new_job (strip field)]> jobs, Some (j, strip field))).
  { unfold start_batch_analysis.
    replace (String.eqb (strip field) "") with false
      by (symmetry; apply String.eqb_neq; exact Hfield).
    unfold path_exists. rewrite bool_decide_eq_true_2
      by (destruct (isdir_inv _ Hdir) as [[entries Hd]|[e Hd]]; eauto).
    rewrite Hdir. reflexivity. }
  rewrite Hstart. cbn [fst snd]. split.
  { intros unknown Hu. unfold batch_progress. rewrite Hu. reflexivity. }
  split; [reflexivity|]. split.
  { unfold batch_progress. rewrite lookup_insert_eq. vm_compute. reflexivity. }
  destruct (thread_outcome j (strip field) (<[j := new_job (strip field)]> jobs)
              (new_job (strip field)) Hne (lookup_insert_eq _ _ _))
    as (jobs' & job' & Hrun & Hj' & _ & Hcase).
  exists jobs'. unfold batch_progress. rewrite Hj'.
  destruct Hcase as [(Hst & Hprog & _ & folders & Hscan & _ & Hres)
                    |(Hst & Hprog & e & Herr & _)].
  - rewrite (truthy_dict job' _ _ Hst). cbn [negb getitem].
    rewrite Hst, Hres, Hprog.
    cbn [rbind ok eq_str String.eqb Ascii.eqb Bool.eqb].
    eexists. split; [exact Hrun|]. split; [reflexivity|]. left.
    split; [rewrite lookup_insert_ne by discriminate; apply lookup_insert_eq|].
    exists folders. split; [exact Hscan|]. apply lookup_insert_eq.
  - rewrite (truthy_dict job' _ _ Hst). cbn [negb getitem].
    destruct Hprog as [pr Hpr]; [eexists; reflexivity|].
    rewrite Hst, Hpr, Herr.
    cbn [rbind ok eq_str String.eqb Ascii.eqb Bool.eqb default from_option id].
    eexists. split; [exact Hrun|]. split; [reflexivity|]. right.
    split; [rewrite lookup_insert_ne by discriminate; apply lookup_insert_eq|].
    exists e. apply lookup_insert_eq.
Qed.

End routes_more.

(* ===================================================================== *)
(** * Mail accounting and the upload metadata                             *)
(* ===================================================================== *)

Section accounting_more.
Context `{Builtins} `{Mail} `{Host} `{Routes.Store}.

Import Routes.

Lemma alert_message_addresses report tname msg :
  alert_message report tname = ok (Some msg) ->
  sender msg = EMAIL_SENDER /\ recipient msg = EMAIL_RECIPIENT.
Proof.
  unfold alert_message. destruct EMAIL_ENABLED; cbn [negb]; [|discriminate].
  destruct (getitem report "summary") as [e|s]; [discriminate|]. cbn [rbind].
  destruct (getitem s "amount_reconciled_percentage") as [e|a]; [discriminate|].
  cbn [rbind]. destruct (ge_int a 95) as [e|[|]]; [discriminate| |]; cbn [rbind].
  { destruct (format_f 2 a); discriminate. }
  destruct (format_f 2 a) as [e|a2]; [discriminate|]. cbn [rbind].
  destruct (format_f 4 a) as [e|a4]; [discriminate|]. cbn [rbind].
  repeat match goal with
         | |- context [summary_field report ?k] =>
             destruct (summary_field report k) as [e|?]; [discriminate|];
             cbn [rbind]
         end.
  intros E. injection E as <-. split; reflexivity.
Qed.

Lemma alert_mail_shape report tname :
  fst (send_reconciliation_alert report tname) = []
  \/ exists msg, fst (send_reconciliation_alert report tname) = [msg]
                 /\ EMAIL_ENABLED = true
                 /\ sender msg = EMAIL_SENDER /\ recipient msg = EMAIL_RECIPIENT.
Proof.
  destruct (send_alert_cases report tname)
    as [[_ Hs]|[(e & _ & Hs)|[(m & e & Hm & _ & Hs)|(m & Hm & _ & Hs)]]];
    rewrite Hs; cbn [fst]; auto; right; exists m;
    (split; [reflexivity|]);
    (split; [apply (alert_message_some_inv report tname m Hm)|]);
    apply (alert_message_addresses report tname m Hm).
Qed.

Lemma folder_mail_flagged f :
  folder_mail f = []
  \/ exists msg, folder_mail f = [msg] /\ email_sent (folder_result f) = true
                 /\ status (folder_result f) = "success"
                 /\ EMAIL_ENABLED = true
                 /\ sender msg = EMAIL_SENDER /\ recipient msg = EMAIL_RECIPIENT.
Proof.
  unfold folder_mail, folder_result, process_folder.
  destruct (summary (folder_files f)) as [p|]; [|left; reflexivity].
  destruct (String.eqb p ""); [left; reflexivity|].
  unfold reconcile_folder.
  destruct (run_rate_analysis _) as [e|rep]; [left; reflexivity|]. cbn [rbind].
  destruct (below_threshold rep) as [e|[|]]; cbn [rbind ok fst snd];
    [left; reflexivity| |left; reflexivity].
  destruct (alert_mail_shape rep (VStr "")) as [Hnil|(msg & Hm & Hon & Hs & Hr)].
  - left. exact Hnil.
  - right. exists msg. rewrite Hm. auto 7.
Qed.

(** X26. The batch starts at most one mail delivery per transaction,
    and only for successful transactions it flags with email_sent; so the
    mails that leave are never more than the "Email Alerts Sent" figure of
    the PDF summary (they can be fewer: the flag is set even when the
    alert sends nothing). Every mail goes from the configured sender to
    the configured recipient, and none leaves when alerting is disabled. *)
Theorem batch_mail_accounting folders :
  let mails := concat (folder_mail <$> folders) in
  length mails <= count_where email_sent (folder_result <$> folders)
  /\ Forall (fun msg => sender msg = EMAIL_SENDER /\ recipient msg = EMAIL_RECIPIENT)
            mails
  /\ (EMAIL_ENABLED = false -> mails = []).
Proof.
  cbn zeta. unfold count_where.
  induction folders as [|f rest (IH1 & IH2 & IH3)].
  - cbn. split; [lia|]. split; [constructor|]. reflexivity.
  - cbn [fmap list_fmap concat List.filter].
    destruct (folder_mail_flagged f)
      as [Hnil|(msg & Hm & Hflag & _ & Hon & Hs & Hr)].
    + rewrite Hnil. cbn [app]. split; [|split; assumption].
      destruct (email_sent (folder_result f)); cbn [length]; lia.
    + rewrite Hm, Hflag. cbn [app length]. split; [lia|].
      split; [constructor; auto|].
      intros Hoff. congruence.
Qed.

Lemma transactions_data_dirs folders :
  Forall listable folders ->
  transactions_data folders
  = ok ((fun f => transaction_entry f (folder_files f)) <$> folders).
Proof.
  induction 1 as [|f rest Hf _ IH]; [reflexivity|].
  cbn [transactions_data fmap list_fmap].
  rewrite (folder_files_listable f Hf). cbn [rbind ok]. rewrite IH. reflexivity.
Qed.

Lemma transactions_data_abort pre f post e :
  Forall listable pre -> map_files_in_folder (path f) = raise e ->
  transactions_data (pre ++ f :: post) = raise e.
Proof.
  intros Hpre He. induction Hpre as [|g pre Hg _ IH].
  - cbn [app transactions_data]. rewrite He. reflexivity.
  - change ((g :: pre) ++ f :: post)%list with (g :: (pre ++ f :: post))%list.
    cbn [transactions_data]. rewrite (folder_files_listable g Hg). cbn [rbind ok].
    rewrite IH. reflexivity.
Qed.

(** X27. For the folders a scan returns, when each of them can be listed
    (as in the tree an upload has just extracted), building the upload
    metadata does not raise and keeps the scan's order: entry number [i]
    describes folder number [i], starts as "pending", and is submitted to
    a worker by [execute_batch_processing] exactly when the folder's file
    mapping has a summary workbook. When a folder cannot be listed, the
    loop raises the error of the first such folder and builds no
    metadata. *)
Theorem uploaded_folders_pending_iff_summary base_path folders :
  scan_transaction_folders base_path = ok folders ->
  (Forall listable folders ->
   exists txns,
     transactions_data folders = ok txns
     /\ length txns = length folders
     /\ (forall i f, folders !! i = Some f ->
           exists txn,
             txns !! i = Some txn
             /\ txn !! "name" = Some (VStr (name f))
             /\ txn !! "status" = Some (VStr "pending")
             /\ txn !! "files" = Some (mapping_dict (folder_files f))
             /\ ((i, txn) ∈ pending_tasks txns
                 <-> is_Some (summary (folder_files f)))))
  /\ (Forall listable folders
      \/ exists pre f post e,
           folders = (pre ++ f :: post)%list /\ Forall listable pre
           /\ map_files_in_folder (path f) = raise e
           /\ transactions_data folders = raise e).
Proof.
  intros Hscan. split.
  - intros Hall. eexists. split; [apply transactions_data_dirs; exact Hall|].
    split; [apply length_fmap|].
    intros i f Hf. eexists. split; [rewrite list_lookup_fmap, Hf; reflexivity|].
    split; [reflexivity|]. split; [reflexivity|]. split; [reflexivity|].
    unfold pending_tasks. rewrite pending_from_elem, Nat.sub_0_r.
    rewrite list_lookup_fmap, Hf. cbn [fmap option_fmap option_map].
    rewrite transaction_entry_pending, bool_decide_eq_true. split.
    + intros (_ & _ & Hs). exact Hs.
    + intros Hs. split; [lia|]. auto.
  - destruct (folders_split folders (scan_folders_isdir _ _ Hscan))
      as [Hall|(pre & f & post & e & -> & Hpre & He)]; [left; exact Hall|].
    right. exists pre, f, post, e. split; [reflexivity|]. split; [exact Hpre|].
    split; [exact He|].
    apply transactions_data_abort; [exact Hpre|exact He].
Qed.

End accounting_more.

(* ===================================================================== *)
(** * Isolation of failures, and amounts that are not ordinary numbers    *)
(* ===================================================================== *)

Section isolation_more.
Context `{Builtins} `{Mail} `{Host} `{RCA.OpenAI}.

(** X28. When the ledger knows the job and every scanned folder can be
    listed, the batch returns one result per folder, in the scan's order,
    each computed from its own folder only, and its mail is the mail of
    the folders in that order. An exception raised inside the [try] block
    while reconciling a folder becomes that folder's failed entry with
    the exception text, without report and without mail; a folder
    without summary workbook becomes a failed entry as well. *)
Theorem batch_isolates_reconciliation_failures base_path job_id
    (jobs : gmap string (gmap string pyval)) folders :
  scan_transaction_folders base_path = ok folders ->
  tracked job_id jobs ->
  Forall listable folders ->
  (exists jobs',
     process_transaction_batch base_path job_id jobs
     = (ok (folder_result <$> folders), jobs', concat (folder_mail <$> folders)))
  /\ (forall f p e,
        summary (folder_files f) = Some p -> p <> "" ->
        reconcile_folder (name f) (folder_files f) = raise e ->
        folder_result f = failed_result (name f) (str_exn e)
        /\ folder_mail f = [])
  /\ (forall f,
        summary (folder_files f) = None ->
        folder_result f = failed_result (name f) "Summary file not found"
        /\ folder_mail f = []).
Proof.
  intros Hscan Hj Hall.
  split; [apply process_transaction_batch_ok; assumption|].
  split.
  - intros f p e Hs Hp He. unfold folder_result, folder_mail.
    rewrite (process_folder_raise _ _ p e Hs Hp He). split; reflexivity.
  - intros f Hs. unfold folder_result, folder_mail.
    rewrite (process_folder_no_summary _ _ Hs). split; reflexivity.
Qed.

(** X29. The worker turns every exception of its body into a failed
    result that carries the exception text, and marks the transaction
    dict as failed with the same text: a transaction without "files"
    key, an engine that raises, a threshold test that raises on a
    malformed report, a report file that cannot be written, and a summary
    without amount_reconciled_display. It reports success only when none
    of these steps raised, and then the dict is marked completed. *)
Theorem worker_records_every_failure idx (transaction : gmap string pyval) temp_dir :
  let single := process_single_transaction idx transaction temp_dir in
  let failed := fun e =>
    {| index := idx; s_status := "failed"; s_email_sent := None;
       s_error := Some (str_exn e);
       s_transaction_name := default (VStr "") (transaction !! "name") |} in
  let report_path := join temp_dir ("report_" ++ decimal idx ++ ".json") in
  let display_of := fun report =>
    let* s := getitem report "summary" in getitem s "amount_reconciled_display" in
  (transaction !! "files" = None ->
   fst (fst single) = failed (KeyError "files") /\ snd single = [])
  /\ (forall fp e,
        transaction !! "files" = Some fp -> run_rate_analysis fp = raise e ->
        fst (fst single) = failed e /\ snd single = [])
  /\ (forall fp report e,
        transaction !! "files" = Some fp -> run_rate_analysis fp = ok report ->
        below_threshold report = raise e ->
        fst (fst single) = failed e /\ snd single = [])
  /\ (forall fp report below e,
        transaction !! "files" = Some fp -> run_rate_analysis fp = ok report ->
        below_threshold report = ok below ->
        dump_json report_path report = raise e ->
        fst (fst single) = failed e)
  /\ (forall fp report below e,
        transaction !! "files" = Some fp -> run_rate_analysis fp = ok report ->
        below_threshold report = ok below ->
        dump_json report_path report = ok tt ->
        display_of report = raise e ->
        fst (fst single) = failed e)
  /\ (forall e, fst (fst single) = failed e ->
        snd (fst single) !! "status" = Some (VStr "failed")
        /\ snd (fst single) !! "error" = Some (VStr (str_exn e)))
  /\ (s_status (fst (fst single)) = "success" ->
        s_error (fst (fst single)) = None
        /\ snd (fst single) !! "status" = Some (VStr "completed")
        /\ exists fp report below display,
             transaction !! "files" = Some fp /\ run_rate_analysis fp = ok report
             /\ below_threshold report = ok below
             /\ dump_json report_path report = ok tt
             /\ display_of report = ok display).
Proof.
  cbn zeta.
  assert (Hname : forall (t : gmap string pyval),
            (<["status" := VStr "processing"]> transaction) !! "name"
            = transaction !! "name")
    by (intros _; apply lookup_insert_ne; discriminate).
  assert (Hfailed : forall e,
            fst (single_failed idx (<["status" := VStr "processing"]> transaction) e)
            = {| index := idx; s_status := "failed"; s_email_sent := None;
                 s_error := Some (str_exn e);
                 s_transaction_name := default (VStr "") (transaction !! "name") |}).
  { intros e. unfold single_failed. cbn [fst]. rewrite (Hname transaction). reflexivity. }
  split.
  { intros Hnone. unfold process_single_transaction. cbn [getitem].
    rewrite lookup_insert_ne by discriminate. rewrite Hnone.
    cbn [rbind raise fst snd]. rewrite Hfailed. auto. }
  split.
  { intros fp e Hf He. unfold process_single_transaction.
    rewrite (single_lookup_files _ _ Hf). cbn [rbind ok]. rewrite He.
    cbn [rbind raise fst snd]. rewrite Hfailed. auto. }
  split.
  { intros fp report e Hf Hr He. unfold process_single_transaction.
    rewrite (single_lookup_files _ _ Hf). cbn [rbind ok]. rewrite Hr.
    cbn [rbind ok]. rewrite He. cbn [rbind raise fst snd]. rewrite Hfailed. auto. }
  split.
  { intros fp report below e Hf Hr Hb Hd. unfold process_single_transaction.
    rewrite (single_lookup_files _ _ Hf). cbn [rbind ok]. rewrite Hr.
    cbn [rbind ok]. rewrite Hb. cbn [rbind ok].
    destruct (if below then _ else _) as [mails sent].
    rewrite Hd. cbn [raise fst]. apply Hfailed. }
  split.
  { intros fp report below e Hf Hr Hb Hd Hdisp. unfold process_single_transaction.
    rewrite (single_lookup_files _ _ Hf). cbn [rbind ok]. rewrite Hr.
    cbn [rbind ok]. rewrite Hb. cbn [rbind ok].
    destruct (if below then _ else _) as [mails sent].
    rewrite Hd. unfold ok at 1. rewrite Hdisp. cbn [raise fst].
    unfold single_failed. cbn [fst].
    do 3 (rewrite (lookup_insert_ne _ _ "name") by discriminate).
    rewrite (Hname transaction). reflexivity. }
  split.
  { intros e Hrec.
    destruct (process_single_transaction_status idx transaction temp_dir)
      as [(Hs & _)|(e' & _ & Herr & Hst & Hd)].
    - rewrite Hrec in Hs. discriminate.
    - rewrite Hrec in Herr. cbn [s_error] in Herr. injection Herr as Herr.
      rewrite Herr. auto. }
  intros Hsucc.
  destruct (process_single_transaction_status idx transaction temp_dir)
    as [(_ & Herr & Hst)|(e' & Hs & _)]; [|rewrite Hs in Hsucc; discriminate].
  split; [exact Herr|]. split; [exact Hst|].
  clear Herr Hst. revert Hsucc. unfold process_single_transaction. cbn [getitem].
  rewrite lookup_insert_ne by discriminate.
  destruct (transaction !! "files") as [fp|] eqn:Hf; [|cbn; discriminate].
  cbn [rbind ok].
  destruct (run_rate_analysis fp) as [e|report] eqn:Hr; [cbn; discriminate|].
  cbn [rbind ok].
  destruct (below_threshold report) as [e|below] eqn:Hb; [cbn; discriminate|].
  cbn [rbind ok].
  destruct (if below then _ else _) as [mails sent].
  destruct (dump_json _ report) as [e|[]] eqn:Hd; [cbn; discriminate|].
  destruct (rbind (getitem report "summary") _) as [e|display] eqn:Hdisp;
    [cbn; discriminate|].
  intros _. exists fp, report, below, display.
  split; [reflexivity|]. split; [exact Hr|]. split; [exact Hb|].
  split; [exact Hd|exact Hdisp].
Qed.

(** X30. An amount that is NaN is handled differently by the paths.
    Called directly, as the /rates-file route does, the alert does not
    skip it, because NaN is not [>= 95], and starts a delivery; the
    analyzer, which uses the same test, goes on to its availability
    check instead of returning [None]. The batch and the worker test
    [amount < 95] first, which is false for NaN, so the batch records
    the transaction as a success without mail and with email_sent
    [False]. An int below 95 that is beyond the range of a double is
    never alerted for: formatting it raises [OverflowError], which the
    alert answers with [False]. *)
Theorem nan_amount_splits_paths report name :
  EMAIL_ENABLED = true -> reports_value report VNan -> prints_all report ->
  attempts report name
  /\ below_threshold report = ok false
  /\ (forall folder_name file_paths,
        run_rate_analysis (mapping_dict file_paths) = ok report ->
        reconcile_folder folder_name file_paths
        = ok ({| transaction_name := folder_name; status := "success"; error := None;
                 report := report; email_sent := false |}, []))
  /\ (forall self, RCA.check_openai_availability self = false ->
        exists text,
          RCA.analyze_reconciliation_discrepancies self report = ([], ok (Some text)))
  /\ (lt_int (VInt (- 10 ^ 400)) 95 = ok true
      /\ format_f 2 (VInt (- 10 ^ 400))
         = raise (OverflowError "int too large to convert to float")
      /\ @send_reconciliation_alert Sample.builtins Sample.mail_on
           Sample.report_huge name = ([], false)).
Proof.
  intros Hon Hv Hp.
  assert (Hbelow : below_threshold report = ok false).
  { destruct Hv as (d & s & -> & Hd & Hs).
    unfold below_threshold. rewrite (truthy_dict d _ _ Hd).
    unfold get, getitem. rewrite Hd. cbn -[truthy].
    rewrite (truthy_dict s _ _ Hs). cbn. rewrite Hs. reflexivity. }
  split.
  { apply attempts_iff. split; [exact Hon|]. exists VNan. auto. }
  split; [exact Hbelow|].
  split.
  { intros folder_name file_paths Hr. unfold reconcile_folder.
    rewrite Hr. cbn [rbind ok]. rewrite Hbelow. reflexivity. }
  split.
  { intros self Hav. destruct Hv as (d & s & -> & Hd & Hs).
    unfold RCA.analyze_reconciliation_discrepancies. cbn [get rbind ok].
    rewrite Hd. cbn [default from_option id get rbind ok]. rewrite Hs.
    cbn [default from_option id ge_int]. rewrite Hav. cbn [negb]. eauto. }
  split; [vm_compute; reflexivity|].
  split; [vm_compute; reflexivity|].
  vm_compute. reflexivity.
Qed.

End isolation_more.



(* ===================================================================== *)
(** * The further properties on the sample environments                   *)
(* ===================================================================== *)

Lemma map_files_last_entry_wins_witness :
  exists m,
    @map_files_in_folder Cases.host "/in/T" = ok m
    /\ get_slot m SSummary = Some "/in/T/Invoice Summary.xlsx".
Proof.
  destruct (@map_files_last_entry_wins Cases.host "/in/T"
              ["summary_v1.xlsx"; "Domestic.xls"; "Invoice Summary.xlsx";
               "notes.xlsx"; "invoice.xlsx"] SSummary) as (m & Hm & Hs).
  - reflexivity.
  - exists m. split; [exact Hm|]. rewrite Hs. reflexivity.
Defined.

Lemma map_files_only_workbooks_witness :
  exists fname entries,
    @Batch.disk Cases.host !! "/in/T" = Some (Dir entries) /\ fname ∈ entries
    /\ "/in/T/Domestic.xls" = @join "/in/T" fname
    /\ @isfile Cases.host "/in/T/Domestic.xls" = true
    /\ (Str.endswith fname ".xlsx" || Str.endswith fname ".xls") = true.
Proof.
  apply (@map_files_only_workbooks Cases.host "/in/T" Cases.files_T SDomestic).
  - reflexivity.
  - reflexivity.
Defined.

Lemma summary_name_takes_precedence_witness :
  get_slot (@map_file Cases.host "/in/T" no_files "Invoice Summary.xlsx") SInvoice
  = None.
Proof.
  apply (@summary_name_takes_precedence Cases.host "/in/T" no_files
           "Invoice Summary.xlsx" SInvoice).
  - reflexivity.
  - discriminate.
Defined.

Lemma scan_sorted_subfolders_witness :
  exists folders,
    @scan_transaction_folders Cases.host "/in" = ok folders
    /\ folders ≡ₚ @subfolders Cases.host "/in" ["T"; "b.txt"; "A"]
    /\ Sorted (key_le name) folders.
Proof.
  destruct (proj2 (@scan_sorted_subfolders Cases.host "/in") ["T"; "b.txt"; "A"])
    as (folders & Hscan & Hperm & Hsorted & _).
  - reflexivity.
  - exists folders. auto.
Defined.

Lemma batch_raises_exactly_when_witness :
  @process_transaction_batch Sample.builtins Sample.mail_on Sample.host
    "/data" (Some "job-9") Cases.ledger
  = (raise (KeyError "job-9"), Cases.ledger, [])
  /\ fst (fst (@process_transaction_batch Sample.builtins Sample.mail_on
                 Cases.host_locked "/batch" None ∅))
     = raise (PermissionError "[Errno 13] Permission denied: '/batch/B'").
Proof.
  split.
  - destruct (@batch_raises_exactly_when Sample.builtins Sample.mail_on Sample.host
                "/data" (Some "job-9") Cases.ledger (KeyError "job-9"))
      as (_ & _ & Hjob & _).
    apply (Hjob [Sample.folder_T1; Sample.folder_T2; Sample.folder_T3] "job-9").
    + reflexivity.
    + reflexivity.
    + discriminate.
    + reflexivity.
  - destruct (@batch_raises_exactly_when Sample.builtins Sample.mail_on
                Cases.host_locked "/batch" None ∅
                (PermissionError "[Errno 13] Permission denied: '/batch/B'"))
      as (Hiff & _).
    apply Hiff. right. right.
    exists [ {| name := "A"; path := "/batch/A" |} ],
           {| name := "B"; path := "/batch/B" |},
           [ {| name := "C"; path := "/batch/C" |} ].
    split; [reflexivity|]. split; [exact I|].
    split; [constructor; [eexists; reflexivity|constructor]|].
    reflexivity.
Defined.

Lemma batch_ledger_after_run_witness :
  exists out jobs' job' mails,
    @process_transaction_batch Sample.builtins Sample.mail_on Sample.host
      "/data" (Some "job-1") Cases.ledger
    = (out, jobs', mails)
    /\ jobs' !! "job-1" = Some job'
    /\ job' !! "total_transactions" = Some (VInt 3).
Proof.
  destruct (@batch_ledger_after_run Sample.builtins Sample.mail_on Sample.host
              "/data" "job-1" Cases.ledger (Routes.new_job "/data")
              [Sample.folder_T1; Sample.folder_T2; Sample.folder_T3])
    as (out & jobs' & job' & mails & Hrun & Hj & _ & Ht & _).
  - reflexivity.
  - discriminate.
  - reflexivity.
  - exists out, jobs', job', mails. split; [exact Hrun|]. split; [exact Hj|exact Ht].
Defined.

Lemma none_report_splits_paths_witness :
  @process_folder Sample.builtins Sample.mail_on Cases.host_none "T" Cases.files_T
  = ({| transaction_name := "T"; status := "success"; error := None;
        report := VNone; email_sent := false |}, [])
  /\ s_status (fst (fst (@process_single_transaction
                           Sample.builtins Sample.mail_on Cases.host_none
                           0 Cases.transaction_T "/tmp/batch")))
     = "failed".
Proof.
  destruct (@none_report_splits_paths Sample.builtins Sample.mail_on Cases.host_none
              "T" Cases.files_T "/in/T/Invoice Summary.xlsx" 0
              Cases.transaction_T "/tmp/batch")
    as (Hbatch & Hsingle & _).
  - reflexivity.
  - discriminate.
  - reflexivity.
  - reflexivity.
  - reflexivity.
  - split; [exact Hbatch|exact Hsingle].
Defined.

Lemma worker_touches_only_its_keys_witness :
  snd (fst (@process_single_transaction Sample.builtins Sample.mail_on Cases.host
              0 Cases.transaction_T "/tmp/batch")) !! "path"
  = Some (VStr "/in/T").
Proof.
  destruct (@worker_touches_only_its_keys Sample.builtins Sample.mail_on Cases.host
              0 Cases.transaction_T "/tmp/batch" "path") as (Hk & _).
  - discriminate.
  - discriminate.
  - discriminate.
  - discriminate.
  - discriminate.
  - rewrite Hk. reflexivity.
Defined.

Lemma worker_alert_precedes_failure_witness :
  length (snd (@process_single_transaction Sample.builtins Sample.mail_on
                 Cases.host_read_only 0 Cases.transaction_T "/tmp/batch")) = 1
  /\ s_status (fst (fst (@process_single_transaction Sample.builtins Sample.mail_on
                           Cases.host_read_only 0 Cases.transaction_T "/tmp/batch")))
     = "failed".
Proof.
  destruct (@worker_alert_precedes_failure Sample.builtins Sample.mail_on
              Cases.host_read_only 0 Cases.transaction_T "/tmp/batch"
              (mapping_dict Cases.files_T) Sample.report_80
              (OtherError "[Errno 30] Read-only file system: '/tmp/batch/report_0.json'"))
    as (Hmail & Hst & _).
  - reflexivity.
  - reflexivity.
  - reflexivity.
  - reflexivity.
  - split; [rewrite Hmail; reflexivity|exact Hst].
Defined.

Lemma rates_file_outcomes_witness :
  @rates_file Sample.builtins Sample.mail_on Cases.host "POST" ∅ "/tmp/x"
    Sample.report_98_78
  = ({| page_report := VNone; error_message := Some "Summary file is required." |},
     Sample.report_98_78, []).
Proof.
  apply (proj1 (proj2 (@rates_file_outcomes Sample.builtins Sample.mail_on Cases.host
                         "POST" ∅ "/tmp/x" Sample.report_98_78)) eq_refl
           (ValueError "Summary file is required.")).
  reflexivity.
Defined.


Lemma api_called_only_for_discrepancies_witness :
  @RCA.check_openai_availability (RCA.init (Some "sk-test") None) = true.
Proof.
  apply (@api_called_only_for_discrepancies Sample.builtins Sample.openai
           (RCA.init (Some "sk-test") None) Sample.report_80).
  discriminate.
Defined.

Lemma analyzer_raises_on_malformed_summary_witness :
  @RCA.analyze_reconciliation_discrepancies Sample.builtins Sample.openai
    (RCA.init (Some "sk-test") None) (VDict {[ "summary" := VNone ]})
  = ([], raise (AttributeError "'NoneType' object has no attribute 'get'")).
Proof.
  destruct (@analyzer_raises_on_malformed_summary Sample.builtins Sample.openai
              (RCA.init (Some "sk-test") None) {[ "summary" := VNone ]} VNone)
    as (Hraise & _).
  - reflexivity.
  - apply Hraise; [reflexivity|discriminate].
Defined.

Lemma analyzer_without_key_is_unavailable_witness :
  fst (@RCA.generate_root_cause_analysis Sample.builtins Sample.openai
         Sample.report_80 (Some "") None) = [].
Proof.
  destruct (@analyzer_without_key_is_unavailable Sample.builtins Sample.openai
              Sample.report_80 (Some "") None (inject_Z 80)) as (Hno & _).
  - eexists _, _, _. repeat split; reflexivity.
  - reflexivity.
  - rewrite Hno; reflexivity.
Defined.

Lemma workers_skip_incomplete_and_done_witness :
  exists txn,
    @Routes.transactions_data Sample.host [Sample.folder_T2] = ok [txn]
    /\ txn !! "has_summary" = Some (VBool false)
    /\ Routes.pending_tasks [txn] = [].
Proof.
  apply (@workers_skip_incomplete_and_done Sample.builtins Sample.mail_on Sample.host
           Sample.folder_T2 ["VISA Invoice.xlsx"; "summary.txt"] 0
           Sample.transaction_T1 "/tmp/batch").
  - reflexivity.
  - repeat constructor.
Defined.

Lemma workspace_indices_wrap_around_witness :
  Routes.workspace_tasks [0%Z; 7%Z; (-1)%Z]
    [Sample.transaction_T1; Sample.transaction_T3]
  = ok [(0%Z, Sample.transaction_T1); ((-1)%Z, Sample.transaction_T3)].
Proof.
  apply (workspace_indices_wrap_around [0%Z; 7%Z; (-1)%Z] 0 []
           [Sample.transaction_T1; Sample.transaction_T3]).
  repeat constructor; cbn; lia.
Defined.

Lemma worker_result_is_served_witness :
  exists sent,
    @Routes.workspace_result Sample.builtins Cases.host Cases.store 0
      [snd (fst (@process_single_transaction Sample.builtins Sample.mail_off
                   Cases.host 0 Cases.transaction_T "/tmp/batch"))]
      "/tmp/batch"
    = ok (Routes.ReportPage "rates_tab.html" Sample.report_80 (VStr "T") (VBool sent)).
Proof.
  destruct (@worker_result_is_served Sample.builtins Sample.mail_off Cases.host
              Cases.store 0
              [snd (fst (@process_single_transaction Sample.builtins Sample.mail_off
                           Cases.host 0 Cases.transaction_T "/tmp/batch"))]
              Cases.transaction_T "/tmp/batch" (VStr "T") Sample.report_80)
    as (sent & _ & Hpage).
  - reflexivity.
  - reflexivity.
  - reflexivity.
  - reflexivity.
  - reflexivity.
  - exists sent. exact Hpage.
Defined.

Lemma report_page_only_for_completed_witness :
  exists (t : gmap string pyval) fname,
    t !! "status" = Some (VStr "completed")
    /\ t !! "report_file" = Some (VStr fname)
    /\ @path_exists Cases.host (@join "/tmp/batch" fname) = true.
Proof.
  destruct (@report_page_only_for_completed Sample.builtins Cases.host Cases.store 0
              [snd (fst (@process_single_transaction Sample.builtins Sample.mail_off
                           Cases.host 0 Cases.transaction_T "/tmp/batch"))]
              "/tmp/batch" "rates_tab.html" Sample.report_80 (VStr "T") (VBool false))
    as (t & fname & _ & Hst & Hrf & _ & Hex & _).
  - reflexivity.
  - exists t, fname. auto.
Defined.

Lemma detail_page_reflects_batch_witness :
  @Routes.batch_transaction_detail
    (@folder_result Sample.builtins Sample.mail_on Sample.host
       <$> [Sample.folder_T1; Sample.folder_T2; Sample.folder_T3]) "T2"
  = Routes.ErrorPage 500 "Transaction 'T2' failed: Summary file not found".
Proof.
  apply (@detail_page_reflects_batch Sample.builtins Sample.mail_on Sample.host
           [Sample.folder_T1; Sample.folder_T2; Sample.folder_T3] Sample.folder_T2).
  - apply (bool_decide_unpack _). reflexivity.
  - apply list_elem_of_further, list_elem_of_here.
  - reflexivity.
Defined.

Lemma thread_ends_completed_or_failed_witness :
  exists jobs' job',
    fst (@Routes.run_batch_processing_thread Sample.builtins Sample.mail_on
           Sample.host Cases.store "job-1" "/data" Cases.ledger) = ok jobs'
    /\ jobs' !! "job-1" = Some job'.
Proof.
  destruct (@thread_ends_completed_or_failed Sample.builtins Sample.mail_on
              Sample.host Cases.store "job-1" "/data" Cases.ledger
              (Routes.new_job "/data"))
    as (jobs' & job' & Hrun & Hj & _).
  - discriminate.
  - reflexivity.
  - exists jobs', job'. auto.
Defined.

Lemma polling_follows_the_job_witness :
  @Routes.batch_progress "job-2"
    (snd (fst (@Routes.start_batch_analysis Sample.builtins Sample.host
                 "/data" "job-2" Cases.ledger)))
  = ok (200, {[ "status" := VStr "processing"; "progress" := VStr "initializing";
                "total_transactions" := VInt 0; "processed" := VInt 0;
                "current_transaction" := VStr "" ]}).
Proof.
  destruct (@polling_follows_the_job Sample.builtins Sample.mail_on Sample.host
              Cases.store "job-2" "/data" Cases.ledger)
    as (_ & _ & Hpoll & _).
  - discriminate.
  - reflexivity.
  - discriminate.
  - exact Hpoll.
Defined.

Lemma uploaded_folders_pending_iff_summary_witness :
  exists txns,
    @Routes.transactions_data Sample.host
      [Sample.folder_T1; Sample.folder_T2; Sample.folder_T3] = ok txns
    /\ length txns = 3.
Proof.
  destruct (@uploaded_folders_pending_iff_summary Sample.host "/data"
              [Sample.folder_T1; Sample.folder_T2; Sample.folder_T3])
    as (Hok & _).
  - reflexivity.
  - destruct Hok as (txns & Hdata & Hlen & _).
    + repeat (constructor; [eexists; reflexivity|]). constructor.
    + exists txns. auto.
Defined.

Lemma batch_isolates_reconciliation_failures_witness :
  exists jobs',
    @process_transaction_batch Sample.builtins Sample.mail_on Sample.host
      "/data" None ∅
    = (ok (@folder_result Sample.builtins Sample.mail_on Sample.host
             <$> [Sample.folder_T1; Sample.folder_T2; Sample.folder_T3]),
       jobs',
       concat (@folder_mail Sample.builtins Sample.mail_on Sample.host
                 <$> [Sample.folder_T1; Sample.folder_T2; Sample.folder_T3])).
Proof.
  destruct (@batch_isolates_reconciliation_failures Sample.builtins Sample.mail_on
              Sample.host "/data" None ∅
              [Sample.folder_T1; Sample.folder_T2; Sample.folder_T3])
    as (Hrun & _).
  - reflexivity.
  - exact I.
  - repeat (constructor; [eexists; reflexivity|]). constructor.
  - exact Hrun.
Defined.

Lemma worker_records_every_failure_witness :
  fst (fst (@process_single_transaction Sample.builtins Sample.mail_on Sample.host
              2 Sample.transaction_T3 "/tmp/batch"))
  = {| index := 2; s_status := "failed"; s_email_sent := None;
       s_error := Some "Worksheet named 'Rates' not found";
       s_transaction_name := VStr "T3" |}.
Proof.
  destruct (@worker_records_every_failure Sample.builtins Sample.mail_on Sample.host
              2 Sample.transaction_T3 "/tmp/batch")
    as (_ & Hengine & _).
  destruct (Hengine (VDict {[ "summary" := VStr "/data/T3/summary.xls" ]})
              (ValueError "Worksheet named 'Rates' not found")) as (Hrec & _).
  - reflexivity.
  - reflexivity.
  - exact Hrec.
Defined.

Lemma nan_amount_splits_paths_witness :
  @attempts Sample.builtins Sample.mail_on Sample.report_nan (VStr "")
  /\ @below_threshold Sample.report_nan = ok false.
Proof.
  destruct (@nan_amount_splits_paths Sample.builtins Sample.mail_on Sample.host
              Sample.openai Sample.report_nan (VStr ""))
    as (Hatt & Hbelow & _).
  - reflexivity.
  - eexists _, _. repeat split; reflexivity.
  - eexists _, _. split; [reflexivity|]. split; [reflexivity|].
    unfold alert_fields.
    repeat (apply Forall_cons; split; [eexists; reflexivity|]).
    apply Forall_nil. exact I.
  - split; [exact Hatt|exact Hbelow].
Defined.
